(** * Break-and-Retest scanner: a shallow embedding and its properties

    The development follows the Python sources of the scanner:
    - [scanner/break_retest.py]  the detector (pivots, level clustering,
      breakout and retest checks, [detect], the sensitivity presets);
    - [scanner/service.py]       duplicate guard, [run_scan], duplicate purge;
    - [scanner/scheduler.py] and [scanner/router.py]
                                 the start/stop state machine and the
                                 per-user mailbox of new signals.

    Modelling conventions.
    - Python [int] is [Z]; lengths and [enumerate] counters are [nat].
    - Prices are Python/numpy floats in the source.  They are modelled as
      exact rationals [Q]: order comparisons and the arithmetic are those of
      the source, rounding error is not modelled.  A NaN produced by an
      aggregate of an empty series is [None]; comparisons with it are false.
    - Exceptions are values of [result]; [IndexError] and
      [ZeroDivisionError] are raised where Python raises them.
    - [datetime] values are integers (microseconds).
    - Database tables are lists of rows. *)

From stdpp Require Import gmap strings list.
From Stdlib Require Import ZArith QArith Qabs Qround Lqa.
From Stdlib Require Import List Bool String Ascii Lia Permutation Sorted.
Import ListNotations.

(** ** Python primitives *)

Module Py.

Inductive exn : Type :=
| IndexError
| ZeroDivisionError
| ProviderError.

Inductive result (A : Type) : Type :=
| Ok (a : A)
| Raise (e : exn).
Arguments Ok {A} a.
Arguments Raise {A} e.

Definition bind {A B : Type} (m : result A) (k : A -> result B) : result B :=
  match m with
  | Ok a => k a
  | Raise e => Raise e
  end.

Notation "'let*' x ':=' m 'in' k" := (bind m (fun x => k))
  (at level 10, x pattern, m at level 100, k at level 200).

Definition len {A : Type} (l : list A) : Z := Z.of_nat (List.length l).

(** [range(a, b)] *)
Definition range (a b : Z) : list Z :=
  List.map (fun k => (a + Z.of_nat k)%Z) (seq 0 (Z.to_nat (b - a))).

(** [range(a, b, -1)] *)
Definition range_down (a b : Z) : list Z :=
  List.map (fun k => (a - Z.of_nat k)%Z) (seq 0 (Z.to_nat (a - b))).

(** [l[i]] for a list, a numpy array or [.iloc[i]]: negative positions count
    from the end, a position outside the sequence raises [IndexError]. *)
Definition getitem {A : Type} (l : list A) (i : Z) : result A :=
  let k := if (i <? 0)%Z then (i + len l)%Z else i in
  if (k <? 0)%Z then Raise IndexError
  else match nth_error l (Z.to_nat k) with
       | Some x => Ok x
       | None => Raise IndexError
       end.

Fixpoint update {A : Type} (l : list A) (k : nat) (v : A) : list A :=
  match l, k with
  | [], _ => []
  | _ :: t, O => v :: t
  | h :: t, S k' => h :: update t k' v
  end.

(** [s.iloc[i] = v] *)
Definition setitem {A : Type} (l : list A) (i : Z) (v : A) : result (list A) :=
  let k := if (i <? 0)%Z then (i + len l)%Z else i in
  if (k <? 0)%Z then Raise IndexError
  else if (k <? len l)%Z then Ok (update l (Z.to_nat k) v)
       else Raise IndexError.

(** Normalisation of a slice bound. *)
Definition clip {A : Type} (l : list A) (i : Z) : nat :=
  if (i <? 0)%Z then Z.to_nat (Z.max 0 (i + len l))
  else Z.to_nat (Z.min i (len l)).

(** [l[a:b]] and [l[a:]] *)
Definition slice {A : Type} (l : list A) (a b : Z) : list A :=
  firstn (clip l b - clip l a) (skipn (clip l a) l).

Definition slice_from {A : Type} (l : list A) (a : Z) : list A :=
  skipn (clip l a) l.

Definition Qlt_bool (x y : Q) : bool := negb (Qle_bool y x).

Definition Qsum (l : list Q) : Q := fold_right Qplus 0%Q l.

(** [np.mean] / [Series.mean]: NaN on an empty series. *)
Definition mean (l : list Q) : option Q :=
  match l with
  | [] => None
  | _ => Some (Qsum l / inject_Z (len l))%Q
  end.

Definition Qmax (x y : Q) : Q := if Qle_bool x y then y else x.
Definition Qmin (x y : Q) : Q := if Qle_bool x y then x else y.

(** [Series.max()] / [Series.min()]: NaN on an empty series. *)
Definition series_max (l : list Q) : option Q :=
  match l with
  | [] => None
  | x :: t => Some (fold_left Qmax t x)
  end.

Definition series_min (l : list Q) : option Q :=
  match l with
  | [] => None
  | x :: t => Some (fold_left Qmin t x)
  end.

(** Comparisons of a possibly-NaN aggregate with a number. *)
Definition nan_lt (a : option Q) (b : Q) : bool :=
  match a with Some x => Qlt_bool x b | None => false end.
Definition nan_gt (a : option Q) (b : Q) : bool :=
  match a with Some x => Qlt_bool b x | None => false end.

(** [min(ts)] and [max(ts)] of a non-empty list of datetimes. *)
Definition min_time (t0 : Z) (ts : list Z) : Z := fold_left Z.min ts t0.
Definition max_time (t0 : Z) (ts : list Z) : Z := fold_left Z.max ts t0.

(** A stable insertion sort: elements that compare equal keep their original
    order, as with Python's [sorted] and list [sort]. *)
Section Sorted.
Context {A : Type} (leb : A -> A -> bool).

Fixpoint insert_sorted (x : A) (l : list A) : list A :=
  match l with
  | [] => [x]
  | y :: t => if leb x y then x :: y :: t else y :: insert_sorted x t
  end.

Definition sort_by (l : list A) : list A := fold_right insert_sorted [] l.
End Sorted.

(** [sorted(l, key=key)] for a float-valued key. *)
Definition sorted {A : Type} (key : A -> Q) (l : list A) : list A :=
  sort_by (fun x y => Qle_bool (key x) (key y)) l.

(** [str.upper()] on ASCII letters. *)
Definition upper_ascii (c : ascii) : ascii :=
  let n := nat_of_ascii c in
  if (97 <=? n)%nat && (n <=? 122)%nat then ascii_of_nat (n - 32) else c.

Fixpoint upper (s : string) : string :=
  match s with
  | EmptyString => EmptyString
  | String c t => String (upper_ascii c) (upper t)
  end.

End Py.

(** ** The detector ([scanner/break_retest.py]) *)

Module BreakRetest.
Import Py.

Inductive PatternType : Type :=
| BULLISH_RETEST
| BEARISH_RETEST.

(** [PatternType.value] *)
Definition pattern_value (p : PatternType) : string :=
  match p with
  | BULLISH_RETEST => "bullish_retest"
  | BEARISH_RETEST => "bearish_retest"
  end.

(** One row of the OHLCV data frame; [open_time] is the frame's index. *)
Record Candle : Type := mkCandle {
  open_time : Z;
  open : Q;
  high : Q;
  low : Q;
  close : Q;
  volume : Q
}.

Definition DataFrame : Type := list Candle.

Record Level : Type := mkLevel {
  price : Q;
  strength : Z;
  first_touch : Z;
  last_touch : Z;
  is_broken : bool;
  break_direction : option string;
  break_time : option Z
}.

Record Signal : Type := mkSignal {
  symbol : string;
  timeframe : string;
  pattern_type : PatternType;
  level_price : Q;
  current_price : Q;
  (* numpy division: not finite when the level price is 0 *)
  distance_to_level_pct : option Q;
  timestamp : Z;
  sig_strength : Z;
  message : string
}.

(** The fields set by [BreakRetestDetector.__init__]. *)
Record BreakRetestDetector : Type := mkDetector {
  pivot_lookback : Z;
  level_tolerance_pct : Q;
  min_touches : Z;
  retest_tolerance_pct : Q;
  min_breakout_pct : Q;
  max_retest_candles : Z
}.

Section Detector.
Variable self : BreakRetestDetector.

(** The inner [for j in range(1, lookback + 1)] loop with its [break].
    [worse a b] is [a <= b] for highs and [a >= b] for lows; the second
    operand of [or] is evaluated only when the first is false. *)
Fixpoint is_pivot (worse : Q -> Q -> bool) (xs : list Q) (i : Z)
         (js : list Z) : result bool :=
  match js with
  | [] => Ok true
  | j :: js' =>
      let* x := getitem xs i in
      let* l := getitem xs (i - j) in
      if worse x l then Ok false
      else
        let* x' := getitem xs i in
        let* r := getitem xs (i + j) in
        if worse x' r then Ok false
        else is_pivot worse xs i js'
  end.

(** The outer [for i in range(lookback, len(xs) - lookback)] loop; the
    series starts as all-NaN and receives [xs[i]] at each pivot. *)
Fixpoint pivot_loop (worse : Q -> Q -> bool) (xs : list Q) (idxs : list Z)
         (series : list (option Q)) : result (list (option Q)) :=
  match idxs with
  | [] => Ok series
  | i :: idxs' =>
      let* p := is_pivot worse xs i (range 1 (pivot_lookback self + 1)) in
      if p then
        let* v := getitem xs i in
        let* series' := setitem series i (Some v) in
        pivot_loop worse xs idxs' series'
      else pivot_loop worse xs idxs' series
  end.

Definition find_pivots (worse : Q -> Q -> bool) (xs : list Q)
  : result (list (option Q)) :=
  pivot_loop worse xs
    (range (pivot_lookback self) (len xs - pivot_lookback self))
    (repeat None (List.length xs)).

Definition find_pivot_highs (df : DataFrame) : result (list (option Q)) :=
  find_pivots Qle_bool (List.map high df).

Definition find_pivot_lows (df : DataFrame) : result (list (option Q)) :=
  find_pivots (fun a b => Qle_bool b a) (List.map low df).

(** [abs(prices[j] - price) / price * 100] on Python floats. *)
Definition diff_pct (pj p : Q) : result Q :=
  if Qeq_bool p 0 then Raise ZeroDivisionError
  else Ok (Qabs (pj - p) / p * 100)%Q.

(** Mutable state of one pass of the inner clustering loop. *)
Record Cluster : Type := mkCluster {
  used : list bool;
  cluster_prices : list Q;
  cluster_times : list Z
}.

(** [for j in range(i + 1, len(prices))] *)
Fixpoint absorb (prices : list Q) (timestamps : list Z) (p : Q)
         (js : list nat) (c : Cluster) : result Cluster :=
  match js with
  | [] => Ok c
  | j :: js' =>
      if nth j (used c) false then absorb prices timestamps p js' c
      else
        let* pj := getitem prices (Z.of_nat j) in
        let* d := diff_pct pj p in
        if Qle_bool d (level_tolerance_pct self) then
          let* tj := getitem timestamps (Z.of_nat j) in
          absorb prices timestamps p js'
            {| used := update (used c) j true;
               cluster_prices := cluster_prices c ++ [pj];
               cluster_times := cluster_times c ++ [tj] |}
        else absorb prices timestamps p js' c
  end.

(** [for i, price in enumerate(prices)] *)
Fixpoint cluster_loop (prices : list Q) (timestamps : list Z)
         (idxs : list nat) (used0 : list bool) (levels : list Level)
  : result (list Level) :=
  match idxs with
  | [] => Ok levels
  | i :: idxs' =>
      if nth i used0 false then
        cluster_loop prices timestamps idxs' used0 levels
      else
        let* p := getitem prices (Z.of_nat i) in
        let* ti := getitem timestamps (Z.of_nat i) in
        let* c := absorb prices timestamps p
                    (seq (i + 1) (List.length prices - (i + 1)))
                    {| used := update used0 i true;
                       cluster_prices := [p];
                       cluster_times := [ti] |} in
        if (min_touches self <=? len (cluster_prices c))%Z then
          match mean (cluster_prices c) with
          | Some avg_price =>
              cluster_loop prices timestamps idxs' (used c)
                (levels ++
                 [ {| price := avg_price;
                      strength := len (cluster_prices c);
                      first_touch := min_time ti (cluster_times c);
                      last_touch := max_time ti (cluster_times c);
                      is_broken := false;
                      break_direction := None;
                      break_time := None |} ])
          | None => cluster_loop prices timestamps idxs' (used c) levels
          end
        else cluster_loop prices timestamps idxs' (used c) levels
  end.

Definition cluster_levels (prices : list Q) (timestamps : list Z)
  : result (list Level) :=
  match prices with
  | [] => Ok []
  | _ =>
      let* levels := cluster_loop prices timestamps
                       (seq 0 (List.length prices))
                       (repeat false (List.length prices)) [] in
      Ok (sorted price levels)
  end.

(** [series.dropna()]: the surviving values with their index entries. *)
Fixpoint dropna (index : list Z) (series : list (option Q))
  : list (Z * Q) :=
  match index, series with
  | t :: index', Some v :: series' => (t, v) :: dropna index' series'
  | _ :: index', None :: series' => dropna index' series'
  | _, _ => []
  end.

Definition identify_levels (df : DataFrame)
  : result (list Level * list Level) :=
  let* pivot_highs := find_pivot_highs df in
  let* pivot_lows := find_pivot_lows df in
  let highs := dropna (List.map open_time df) pivot_highs in
  let lows := dropna (List.map open_time df) pivot_lows in
  let* resistances := cluster_levels (List.map snd highs) (List.map fst highs) in
  let* supports := cluster_levels (List.map snd lows) (List.map fst lows) in
  Ok (resistances, supports).

(** The body of the backward loop of [check_breakout] at index [i]. *)
Definition breaks_at (df : DataFrame) (level : Level) (is_resistance : bool)
           (i : Z) : result bool :=
  let* candle := getitem df i in
  let prev_candles := slice df (Z.max 0 (i - 5)) i in
  if is_resistance then
    if Qlt_bool (price level * (1 + min_breakout_pct self / 100)) (close candle)
    then Ok ((0 <? len prev_candles)%Z &&
             nan_lt (mean (List.map close prev_candles)) (price level))
    else Ok false
  else
    if Qlt_bool (close candle) (price level * (1 - min_breakout_pct self / 100))
    then Ok ((0 <? len prev_candles)%Z &&
             nan_gt (mean (List.map close prev_candles)) (price level))
    else Ok false.

Fixpoint breakout_loop (df : DataFrame) (level : Level)
         (is_resistance : bool) (idxs : list Z) : result (option Z) :=
  match idxs with
  | [] => Ok None
  | i :: idxs' =>
      let* b := breaks_at df level is_resistance i in
      if b then Ok (Some i) else breakout_loop df level is_resistance idxs'
  end.

Definition check_breakout (df : DataFrame) (level : Level)
           (is_resistance : bool) : result (option Z) :=
  let* current_price := getitem (List.map close df) (-1) in
  breakout_loop df level is_resistance
    (range_down (len df - 1) (Z.max 0 (len df - max_retest_candles self))).

(** The local [distance_pct] of the source is computed with numpy floats
    (no exception) and never used; it is left out. *)
Definition check_retest (df : DataFrame) (level : Level) (breakout_idx : Z)
           (is_bullish : bool) : result bool :=
  if (len df - 1 <=? breakout_idx)%Z then Ok false
  else
    let* current_price := getitem (List.map close df) (-1) in
    let* current_low := getitem (List.map low df) (-1) in
    let* current_high := getitem (List.map high df) (-1) in
    if is_bullish then
      let touching_level :=
        Qle_bool current_low (price level * (1 + retest_tolerance_pct self / 100)) &&
        Qle_bool (price level * (1 - retest_tolerance_pct self / 100)) current_price in
      let post_breakout := slice_from df breakout_idx in
      let went_higher :=
        nan_gt (series_max (List.map high post_breakout))
               (price level * (1 + min_breakout_pct self / 100)) in
      Ok (touching_level && went_higher)
    else
      let touching_level :=
        Qle_bool (price level * (1 - retest_tolerance_pct self / 100)) current_high &&
        Qle_bool current_price (price level * (1 + retest_tolerance_pct self / 100)) in
      let post_breakout := slice_from df breakout_idx in
      let went_lower :=
        nan_lt (series_min (List.map low post_breakout))
               (price level * (1 - min_breakout_pct self / 100)) in
      Ok (touching_level && went_lower).

(** The f-string of the message: its rendering of floats is not modelled. *)
Variable render_message : PatternType -> string -> string -> Q -> Q -> Z -> string.

(** numpy division of two float64 values. *)
Definition np_pct (cur lvl : Q) : option Q :=
  if Qeq_bool lvl 0 then None else Some ((cur - lvl) / lvl * 100)%Q.

(** One of the two [for level in ...] loops of [detect]. *)
Fixpoint retest_loop (df : DataFrame) (sym tf : string) (pt : PatternType)
         (is_resistance : bool) (current_price : Q) (current_time : Z)
         (levels : list Level)
         (signals : list Signal) : result (list Signal) :=
  match levels with
  | [] => Ok signals
  | level :: levels' =>
      let* breakout_idx := check_breakout df level is_resistance in
      match breakout_idx with
      | Some idx =>
          (* [is_bullish] is [True] in the resistance loop and [False] in
             the support loop, as [is_resistance] is *)
          let* r := check_retest df level idx is_resistance in
          if r then
            retest_loop df sym tf pt is_resistance current_price current_time
              levels'
              (signals ++
               [ {| symbol := sym;
                    timeframe := tf;
                    pattern_type := pt;
                    level_price := price level;
                    current_price := current_price;
                    distance_to_level_pct :=
                      np_pct current_price (price level);
                    timestamp := current_time;
                    sig_strength := strength level;
                    message := render_message pt sym tf (price level)
                                 current_price (strength level) |} ])
          else retest_loop df sym tf pt is_resistance current_price current_time
              levels' signals
      | None => retest_loop df sym tf pt is_resistance current_price current_time
              levels' signals
      end
  end.

Definition detect (df : DataFrame) (sym tf : string) : result (list Signal) :=
  if (len df <? pivot_lookback self * 2 + max_retest_candles self)%Z then Ok []
  else
    let* levels := identify_levels df in
    let resistances := fst levels in
    let supports := snd levels in
    let* current_price := getitem (List.map close df) (-1) in
    let* current_time := getitem (List.map open_time df) (-1) in
    let* signals := retest_loop df sym tf BULLISH_RETEST true
                      current_price current_time resistances [] in
    retest_loop df sym tf BEARISH_RETEST false
      current_price current_time supports signals.

End Detector.

(** The presets of [create_detector]; an unknown name selects "medium". *)
Definition config_low : BreakRetestDetector :=
  {| pivot_lookback := 15; level_tolerance_pct := 0.2; min_touches := 3;
     retest_tolerance_pct := 0.3; min_breakout_pct := 0.8;
     max_retest_candles := 30 |}.

Definition config_medium : BreakRetestDetector :=
  {| pivot_lookback := 10; level_tolerance_pct := 0.3; min_touches := 2;
     retest_tolerance_pct := 0.5; min_breakout_pct := 0.5;
     max_retest_candles := 50 |}.

Definition config_high : BreakRetestDetector :=
  {| pivot_lookback := 5; level_tolerance_pct := 0.5; min_touches := 2;
     retest_tolerance_pct := 0.8; min_breakout_pct := 0.3;
     max_retest_candles := 80 |}.

Definition create_detector (sensitivity : string) : BreakRetestDetector :=
  if String.eqb sensitivity "low" then config_low
  else if String.eqb sensitivity "medium" then config_medium
  else if String.eqb sensitivity "high" then config_high
  else config_medium.

End BreakRetest.

(** ** The scanner service ([scanner/service.py]) *)

(** Rows of the tables ([scanner/models.py], [watchlist/models.py]). *)
Module ScanResult.
Record row : Type := mk {
    id : Z;
    user_id : Z;
    symbol : string;
    timeframe : string;
    pattern_type : string;
    level_price : Q;
    current_price : Q;
    confidence_score : Q;
    is_match : bool;
    message : option string;
    created_at : Z
  }.
End ScanResult.

Module ScanExecution.
Record row : Type := mk {
    id : Z;
    user_id : Z;
    symbols_scanned : Z;
    signals_found : Z;
    sensitivity : string;
    created_at : Z
  }.
End ScanExecution.

Module WatchlistItem.
Record row : Type := mk {
    id : Z;
    user_id : Z;
    symbol : string;
    timeframes : list string;
    is_active : bool
  }.
End WatchlistItem.

Module Service.
Import Py.

Record Database : Type := mkDatabase {
  watchlist_items : list WatchlistItem.row;
  scan_results : list ScanResult.row;
  scan_executions : list ScanExecution.row
}.

Definition DUPLICATE_WINDOW_HOURS : Z := 24.
Definition PRICE_TOLERANCE : Q := 0.005.

(** [timedelta(hours=h)] in microseconds. *)
Definition timedelta_hours (h : Z) : Z := (h * 3600 * 1000000)%Z.

(** The [where] clause of the query of [_signal_exists]. *)
Definition similar (cutoff : Z) (price_low price_high : Q)
           (user_id : Z) (symbol timeframe pattern_type : string)
           (r : ScanResult.row) : bool :=
  (ScanResult.user_id r =? user_id)%Z &&
  String.eqb (ScanResult.symbol r) symbol &&
  String.eqb (ScanResult.timeframe r) timeframe &&
  String.eqb (ScanResult.pattern_type r) pattern_type &&
  Qle_bool price_low (ScanResult.level_price r) &&
  Qle_bool (ScanResult.level_price r) price_high &&
  (cutoff <=? ScanResult.created_at r)%Z.

(** [now] is the value of [datetime.now()]. *)
Definition _signal_exists (now : Z) (db : Database) (user_id : Z)
           (symbol timeframe pattern_type : string) (level_price : Q) : bool :=
  let cutoff := (now - timedelta_hours DUPLICATE_WINDOW_HOURS)%Z in
  let price_low := (level_price * (1 - PRICE_TOLERANCE))%Q in
  let price_high := (level_price * (1 + PRICE_TOLERANCE))%Q in
  let count :=
    len (List.filter (similar cutoff price_low price_high
                        user_id symbol timeframe pattern_type)
           (scan_results db)) in
  (0 <? count)%Z.

(** A [ScanResult(...)] object added to the session and not yet flushed: it
    has neither [id] nor [created_at]. *)
Record Pending : Type := mkPending {
  p_user_id : Z;
  p_symbol : string;
  p_timeframe : string;
  p_pattern_type : string;
  p_level_price : Q;
  p_current_price : Q;
  p_confidence_score : Q;
  p_is_match : bool;
  p_message : option string
}.

(** The next value of an autoincremented primary key. *)
Definition next_id (ids : list Z) : Z := (fold_right Z.max 0 ids + 1)%Z.

(** Flushing pending results: the key is assigned, [created_at] takes the
    server default [now()]. *)
Fixpoint flush (now : Z) (first_id : Z) (ps : list Pending)
  : list ScanResult.row :=
  match ps with
  | [] => []
  | p :: ps' =>
      {| ScanResult.id := first_id;
         ScanResult.user_id := p_user_id p;
         ScanResult.symbol := p_symbol p;
         ScanResult.timeframe := p_timeframe p;
         ScanResult.pattern_type := p_pattern_type p;
         ScanResult.level_price := p_level_price p;
         ScanResult.current_price := p_current_price p;
         ScanResult.confidence_score := p_confidence_score p;
         ScanResult.is_match := p_is_match p;
         ScanResult.message := p_message p;
         ScanResult.created_at := now |} :: flush now (first_id + 1) ps'
  end.

Section RunScan.
(** The market-data provider, [binance.get_klines_df]. *)
Variable get_klines_df : string -> string -> Z -> result BreakRetest.DataFrame.
Variable render_message :
  BreakRetest.PatternType -> string -> string -> Q -> Q -> Z -> string.
(** The clock; one scan is taken to read a single instant. *)
Variable now : Z.

(** [for signal in signals]: the session is created with
    [autoflush=False], so the duplicate query sees the table as it was
    when the scan began. *)
Fixpoint save_signals (db : Database) (user_id : Z)
         (signals : list BreakRetest.Signal) (results : list Pending)
  : list Pending :=
  match signals with
  | [] => results
  | signal :: signals' =>
      let is_duplicate :=
        _signal_exists now db user_id
          (BreakRetest.symbol signal) (BreakRetest.timeframe signal)
          (BreakRetest.pattern_value (BreakRetest.pattern_type signal))
          (BreakRetest.level_price signal) in
      if is_duplicate then save_signals db user_id signals' results
      else
        save_signals db user_id signals'
          (results ++
           [ {| p_user_id := user_id;
                p_symbol := BreakRetest.symbol signal;
                p_timeframe := BreakRetest.timeframe signal;
                p_pattern_type :=
                  BreakRetest.pattern_value (BreakRetest.pattern_type signal);
                p_level_price := BreakRetest.level_price signal;
                p_current_price := BreakRetest.current_price signal;
                p_confidence_score :=
                  (inject_Z (BreakRetest.sig_strength signal) / 10)%Q;
                p_is_match := true;
                p_message := Some (BreakRetest.message signal) |} ])
  end.

(** The body of [for tf in tfs]; an exception of the provider or of the
    detector is caught and the pair is skipped. *)
Definition scan_pair (detector : BreakRetest.BreakRetestDetector)
           (db : Database) (user_id : Z) (item : WatchlistItem.row)
           (tf : string) (results : list Pending) : list Pending :=
  let attempt :=
    let* df := get_klines_df (WatchlistItem.symbol item) tf 500 in
    BreakRetest.detect detector render_message df
      (WatchlistItem.symbol item) tf in
  match attempt with
  | Ok signals => save_signals db user_id signals results
  | Raise _ => results
  end.

Definition scan_item (detector : BreakRetest.BreakRetestDetector)
           (db : Database) (user_id : Z) (timeframes : option (list string))
           (results : list Pending) (item : WatchlistItem.row)
  : list Pending :=
  let tfs := match timeframes with
             | Some (_ :: _ as l) => l
             | _ => WatchlistItem.timeframes item
             end in
  fold_left (fun acc tf => scan_pair detector db user_id item tf acc)
    tfs results.

Definition in_symbols (symbols : list string) (s : string) : bool :=
  existsb (String.eqb s) (List.map upper symbols).

(** The watchlist query of [run_scan]. *)
Definition active_watchlist (db : Database) (user_id : Z)
           (symbols : option (list string)) : list WatchlistItem.row :=
  let base :=
    List.filter (fun w => (WatchlistItem.user_id w =? user_id)%Z &&
                          WatchlistItem.is_active w)
      (watchlist_items db) in
  match symbols with
  | Some (_ :: _ as l) =>
      List.filter (fun w => in_symbols l (WatchlistItem.symbol w)) base
  | _ => base
  end.

(** Returns the refreshed results and the store after the call. *)
Definition run_scan (db : Database) (user_id : Z)
           (symbols timeframes : option (list string))
           (sensitivity : string) : list ScanResult.row * Database :=
  let detector := BreakRetest.create_detector sensitivity in
  let watchlist := active_watchlist db user_id symbols in
  match watchlist with
  | [] => ([], db)
  | _ =>
      let results :=
        fold_left (scan_item detector db user_id timeframes) watchlist [] in
      let rows :=
        flush now (next_id (List.map ScanResult.id (scan_results db))) results in
      let execution :=
        {| ScanExecution.id :=
             next_id (List.map ScanExecution.id (scan_executions db));
           ScanExecution.user_id := user_id;
           ScanExecution.symbols_scanned := len watchlist;
           ScanExecution.signals_found := len results;
           ScanExecution.sensitivity := sensitivity;
           ScanExecution.created_at := now |} in
      (rows,
       {| watchlist_items := watchlist_items db;
          scan_results := scan_results db ++ rows;
          scan_executions := scan_executions db ++ [execution] |})
  end.
End RunScan.

Section Purge.
(** Python's [round(x, 2)]; the purge depends on it only through the
    equality of the rounded values. *)
Variable round2 : Q -> Q.

Definition Key : Type := (string * string * string * Q)%type.

Definition key_of (signal : ScanResult.row) : Key :=
  (ScanResult.symbol signal, ScanResult.timeframe signal,
   ScanResult.pattern_type signal, round2 (ScanResult.level_price signal)).

(** Equality of the tuples used as dictionary keys. *)
Definition key_eqb (a b : Key) : bool :=
  match a, b with
  | (s1, t1, p1, l1), (s2, t2, p2, l2) =>
      String.eqb s1 s2 && String.eqb t1 t2 && String.eqb p1 p2 &&
      Qeq_bool l1 l2
  end.

(** [key in seen] *)
Definition contains (seen : list (Key * Z)) (k : Key) : bool :=
  existsb (fun e => key_eqb (fst e) k) seen.

(** [for signal in all_signals] *)
Fixpoint mark_duplicates (all_signals : list ScanResult.row)
         (seen : list (Key * Z)) (duplicates_to_delete : list Z) : list Z :=
  match all_signals with
  | [] => duplicates_to_delete
  | signal :: rest =>
      let key := key_of signal in
      if contains seen key then
        mark_duplicates rest seen
          (duplicates_to_delete ++ [ScanResult.id signal])
      else
        mark_duplicates rest (seen ++ [(key, ScanResult.id signal)])
          duplicates_to_delete
  end.

(** [select(ScanResult).where(user_id == u).order_by(created_at.asc())];
    rows with equal [created_at] are returned in table order. *)
Definition signals_of_user (db : Database) (user_id : Z)
  : list ScanResult.row :=
  sort_by (fun a b => (ScanResult.created_at a <=? ScanResult.created_at b)%Z)
    (List.filter (fun r => (ScanResult.user_id r =? user_id)%Z)
       (scan_results db)).

(** [delete(ScanResult).where(ScanResult.id.in_(ids))] *)
Definition delete_ids (ids : list Z) (rows : list ScanResult.row)
  : list ScanResult.row :=
  List.filter (fun r => negb (existsb (Z.eqb (ScanResult.id r)) ids)) rows.

(** The part of [clear_duplicate_signals] after the query. *)
Definition purge (all_signals : list ScanResult.row) (db : Database)
  : Z * Database :=
  let duplicates_to_delete := mark_duplicates all_signals [] [] in
  match duplicates_to_delete with
  | [] => (0%Z, db)
  | _ =>
      (len duplicates_to_delete,
       {| watchlist_items := watchlist_items db;
          scan_results := delete_ids duplicates_to_delete (scan_results db);
          scan_executions := scan_executions db |})
  end.

(** Returns the count and the store after the call. *)
Definition clear_duplicate_signals (db : Database) (user_id : Z)
  : Z * Database :=
  purge (signals_of_user db user_id) db.
End Purge.

(** Rounding to the nearest integer, halves to even. *)
Definition round_half_even (q : Q) : Z :=
  let f := Qfloor q in
  let r := (q - inject_Z f)%Q in
  match Qcompare r (1 # 2) with
  | Lt => f
  | Gt => (f + 1)%Z
  | Eq => if Z.even f then f else (f + 1)%Z
  end.

(** One reading of [round(x, 2)] on exact rationals. *)
Definition round2_half_even (q : Q) : Q :=
  (inject_Z (round_half_even (q * 100)) / 100)%Q.

(** *** Queries and clean-up of the stored results *)

(** The [where] clauses shared by the two queries of [get_results]:
    [if pattern_type:] adds the second condition for a non-empty string
    only. *)
Definition selected (user_id : Z) (pattern_type : option string)
           (r : ScanResult.row) : bool :=
  (ScanResult.user_id r =? user_id)%Z &&
  match pattern_type with
  | Some (String _ _ as p) => String.eqb (ScanResult.pattern_type r) p
  | _ => true
  end.

(** [order_by(created_at.desc())]; rows with equal [created_at] are
    returned in table order. *)
Definition newest_first (rows : list ScanResult.row) : list ScanResult.row :=
  sort_by (fun a b => (ScanResult.created_at b <=? ScanResult.created_at a)%Z)
    rows.

(** [.offset(skip).limit(limit)] as SQLite, the configured database, reads
    them: a negative offset is 0 and a negative limit is no limit.  The
    endpoint admits [skip >= 0] and [1 <= limit <= 100] only. *)
Definition page (skip limit : Z) (rows : list ScanResult.row)
  : list ScanResult.row :=
  let rest := skipn (Z.to_nat skip) rows in
  if (limit <? 0)%Z then rest else firstn (Z.to_nat limit) rest.

(** Returns the page of results and the total count. *)
Definition get_results (db : Database) (user_id : Z) (skip limit : Z)
           (pattern_type : option string) : list ScanResult.row * Z :=
  let results :=
    page skip limit
      (newest_first
         (List.filter (selected user_id pattern_type) (scan_results db))) in
  let total :=
    len (List.filter (selected user_id pattern_type) (scan_results db)) in
  (results, total).

(** The dictionary returned by [get_status]; [last_scan] is a datetime
    rather than its ISO text. *)
Record Status : Type := mkStatus {
  symbols_monitored : Z;
  scans_today : Z;
  signals_today : Z;
  last_scan : option Z;
  is_running : bool;
  scan_interval_minutes : Z
}.

(** [func.date(created_at)] and [date.today()]: the day number of an
    instant. *)
Definition date_of (t : Z) : Z := (t / (24 * 3600 * 1000000))%Z.

(** [now] is the instant of [date.today()]. *)
Definition get_status (now : Z) (db : Database) (user_id : Z) : Status :=
  let symbols_count :=
    len (List.filter (fun w => (WatchlistItem.user_id w =? user_id)%Z &&
                               WatchlistItem.is_active w)
           (watchlist_items db)) in
  let today := date_of now in
  let scans_today :=
    len (List.filter (fun e => (ScanExecution.user_id e =? user_id)%Z &&
                               (date_of (ScanExecution.created_at e) =? today)%Z)
           (scan_executions db)) in
  let signals_today :=
    len (List.filter (fun r => (ScanResult.user_id r =? user_id)%Z &&
                               (date_of (ScanResult.created_at r) =? today)%Z)
           (scan_results db)) in
  let last_scan :=
    match sort_by (fun a b => (b <=? a)%Z)
            (List.map ScanExecution.created_at
               (List.filter (fun e => (ScanExecution.user_id e =? user_id)%Z)
                  (scan_executions db))) with
    | [] => None
    | t :: _ => Some t
    end in
  {| symbols_monitored := symbols_count;
     scans_today := scans_today;
     signals_today := signals_today;
     last_scan := last_scan;
     is_running := false;
     scan_interval_minutes := 5 |}.

(** [timedelta(days=d)] in microseconds. *)
Definition timedelta_days (d : Z) : Z := (d * 24 * 3600 * 1000000)%Z.

(** The store after [clear_old_results]; [now] is [datetime.now()]. *)
Definition clear_old_results (now : Z) (db : Database) (user_id : Z)
           (days : Z) : Database :=
  if (days =? 0)%Z then
    {| watchlist_items := watchlist_items db;
       scan_results :=
         List.filter (fun r => negb (ScanResult.user_id r =? user_id)%Z)
           (scan_results db);
       scan_executions := scan_executions db |}
  else
    let cutoff := (now - timedelta_days days)%Z in
    {| watchlist_items := watchlist_items db;
       scan_results :=
         List.filter (fun r => negb ((ScanResult.user_id r =? user_id)%Z &&
                                     (ScanResult.created_at r <? cutoff)%Z))
           (scan_results db);
       scan_executions := scan_executions db |}.

End Service.

(** ** The scheduler ([scanner/scheduler.py]) and its endpoints
       ([scanner/router.py]) *)

Module Scheduler.
Import Py.

(** One entry of the mailbox of new signals. *)
Record Entry : Type := mkEntry {
  e_id : Z;
  e_symbol : string;
  e_timeframe : string;
  e_pattern_type : string;
  e_level_price : Q;
  e_current_price : Q;
  e_message : option string;
  e_created_at : Z
}.

(** [job] is the interval of the APScheduler job 'auto_scanner' when it is
    registered; [scheduler_running] is [self.scheduler.running]. *)
Record ScannerScheduler : Type := mkScheduler {
  job : option Z;
  scheduler_running : bool;
  is_running : bool;
  interval_minutes : Z;
  last_scan_time : option Z;
  new_signals : gmap Z (list Entry)
}.

(** [ScannerScheduler.__init__] *)
Definition init : ScannerScheduler :=
  {| job := None; scheduler_running := false; is_running := false;
     interval_minutes := 5; last_scan_time := None; new_signals := ∅ |}.

Definition start (interval : Z) (self : ScannerScheduler) : ScannerScheduler :=
  if is_running self then self
  else
    {| job := Some interval;
       scheduler_running := true;
       is_running := true;
       interval_minutes := interval;
       last_scan_time := last_scan_time self;
       new_signals := new_signals self |}.

Definition stop (self : ScannerScheduler) : ScannerScheduler :=
  if negb (is_running self) then self
  else
    {| job := None;
       scheduler_running := scheduler_running self;
       is_running := false;
       interval_minutes := interval_minutes self;
       last_scan_time := last_scan_time self;
       new_signals := new_signals self |}.

Record Status : Type := mkStatus {
  st_is_running : bool;
  st_interval_minutes : Z;
  st_last_scan : option Z
}.

Definition get_status (self : ScannerScheduler) : Status :=
  {| st_is_running := is_running self;
     st_interval_minutes := interval_minutes self;
     st_last_scan := last_scan_time self |}.

(** [self.new_signals.pop(user_id, [])] under the lock: the signals and the
    scheduler after the call. *)
Definition get_new_signals (user_id : Z) (self : ScannerScheduler)
  : list Entry * ScannerScheduler :=
  (default [] (new_signals self !! user_id),
   {| job := job self;
      scheduler_running := scheduler_running self;
      is_running := is_running self;
      interval_minutes := interval_minutes self;
      last_scan_time := last_scan_time self;
      new_signals := delete user_id (new_signals self) |}).

Definition entry_of (r : ScanResult.row) : Entry :=
  {| e_id := ScanResult.id r;
     e_symbol := ScanResult.symbol r;
     e_timeframe := ScanResult.timeframe r;
     e_pattern_type := ScanResult.pattern_type r;
     e_level_price := ScanResult.level_price r;
     e_current_price := ScanResult.current_price r;
     e_message := ScanResult.message r;
     e_created_at := ScanResult.created_at r |}.

(** The [if results:] block of [_run_scan_for_all_users]: the results of one
    user are appended to that user's list. *)
Definition store_new_signals (user_id : Z) (results : list ScanResult.row)
           (self : ScannerScheduler) : ScannerScheduler :=
  match results with
  | [] => self
  | _ =>
      {| job := job self;
         scheduler_running := scheduler_running self;
         is_running := is_running self;
         interval_minutes := interval_minutes self;
         last_scan_time := last_scan_time self;
         new_signals :=
           <[user_id := default [] (new_signals self !! user_id)
                        ++ List.map entry_of results]> (new_signals self) |}
  end.

(** [POST /scanner/auto/start] *)
Definition start_auto_scanner (request_interval_minutes : Z)
           (scanner_scheduler : ScannerScheduler) : ScannerScheduler :=
  let interval := Z.max 1 (Z.min 60 request_interval_minutes) in
  start interval scanner_scheduler.

(** [POST /scanner/auto/stop] *)
Definition stop_auto_scanner (scanner_scheduler : ScannerScheduler)
  : ScannerScheduler :=
  stop scanner_scheduler.

(** [GET /scanner/auto/status] *)
Definition get_auto_scanner_status (scanner_scheduler : ScannerScheduler)
  : Status :=
  get_status scanner_scheduler.

(** [select(WatchlistItem.user_id).where(is_active == True).distinct()]:
    each user id once, here in the order of first occurrence. *)
Fixpoint distinct_from (seen ids : list Z) : list Z :=
  match ids with
  | [] => []
  | i :: rest =>
      if existsb (Z.eqb i) seen then distinct_from seen rest
      else i :: distinct_from (i :: seen) rest
  end.

Definition distinct (ids : list Z) : list Z := distinct_from [] ids.

Definition active_user_ids (db : Service.Database) : list Z :=
  distinct (List.map WatchlistItem.user_id
              (List.filter WatchlistItem.is_active (Service.watchlist_items db))).

Section Tick.
Variable get_klines_df : string -> string -> Z -> result BreakRetest.DataFrame.
Variable render_message :
  BreakRetest.PatternType -> string -> string -> Q -> Q -> Z -> string.
(** The clock; one tick is taken to read a single instant. *)
Variable now : Z.

(** The body of [for user_id in user_ids]: [run_scan(user_id=user_id)] with
    its defaults, then the mailbox. *)
Definition scan_user (state : Service.Database * ScannerScheduler)
           (user_id : Z) : Service.Database * ScannerScheduler :=
  let run := Service.run_scan get_klines_df render_message now (fst state)
               user_id None None "medium" in
  (snd run, store_new_signals user_id (fst run) (snd state)).

(** One tick: the store and the scheduler after it. *)
Definition _run_scan_for_all_users (db : Service.Database)
           (self : ScannerScheduler) : Service.Database * ScannerScheduler :=
  let user_ids := active_user_ids db in
  let state := fold_left scan_user user_ids (db, self) in
  (fst state,
   {| job := job (snd state);
      scheduler_running := scheduler_running (snd state);
      is_running := is_running (snd state);
      interval_minutes := interval_minutes (snd state);
      last_scan_time := Some now;
      new_signals := new_signals (snd state) |}).
End Tick.

(** [GET /scanner/auto/new-signals]: the signals, their count, and the
    scheduler after the call. *)
Definition get_new_signals_endpoint (user_id : Z)
           (scanner_scheduler : ScannerScheduler)
  : list Entry * Z * ScannerScheduler :=
  let taken := get_new_signals user_id scanner_scheduler in
  (fst taken, len (fst taken), snd taken).

End Scheduler.

(** ** The endpoints of the stored results ([scanner/router.py]) *)

Module Router.
Import Py.

(** [GET /scanner/results].  FastAPI validates the [Query] bounds
    ([skip >= 0], [1 <= limit <= 100]) before the handler runs and answers
    a request outside them with an error, here [None]. *)
Definition get_scan_results (db : Service.Database) (current_user_id : Z)
           (skip limit : Z) (pattern_type : option string)
  : option (list ScanResult.row * Z) :=
  if (0 <=? skip)%Z && (1 <=? limit)%Z && (limit <=? 100)%Z then
    Some (Service.get_results db current_user_id skip limit pattern_type)
  else None.

(** [DELETE /scanner/results] with its bounds [0 <= days <= 30]: the store
    after an accepted request; the text of the message is left out. *)
Definition clear_old_results (now : Z) (db : Service.Database)
           (current_user_id days : Z) : option Service.Database :=
  if (0 <=? days)%Z && (days <=? 30)%Z then
    Some (Service.clear_old_results now db current_user_id days)
  else None.

End Router.

(** ** Notions used to state the properties *)

Module Spec.
Import Py BreakRetest.

(** [xs[k]] for a position known to be inside the series. *)
Definition at_ (xs : list Q) (k : Z) : Q := nth (Z.to_nat k) xs 0%Q.

Definition high_at (df : DataFrame) (k : Z) : Q := at_ (List.map high df) k.
Definition low_at (df : DataFrame) (k : Z) : Q := at_ (List.map low df) k.
Definition close_at (df : DataFrame) (k : Z) : Q := at_ (List.map close df) k.

(** Position [i] of a pivot series holds a value (is not NaN). *)
Definition flagged (series : list (option Q)) (i : Z) : Prop :=
  (0 <= i)%Z /\ exists v, nth_error series (Z.to_nat i) = Some (Some v).

(** [i] is an interior index whose high is strictly above the [lookback]
    highs on either side. *)
Definition pivot_high_at (lookback : Z) (df : DataFrame) (i : Z) : Prop :=
  (lookback <= i < len df - lookback)%Z /\
  forall j, (1 <= j <= lookback)%Z ->
            (high_at df (i - j) < high_at df i)%Q /\
            (high_at df (i + j) < high_at df i)%Q.

Definition pivot_low_at (lookback : Z) (df : DataFrame) (i : Z) : Prop :=
  (lookback <= i < len df - lookback)%Z /\
  forall j, (1 <= j <= lookback)%Z ->
            (low_at df i < low_at df (i - j))%Q /\
            (low_at df i < low_at df (i + j))%Q.

(** [xs[i]] passes the comparison of the inner pivot loop for every offset
    in [js]; [worse a b] is the comparison that disqualifies. *)
Definition dominatesb (worse : Q -> Q -> bool) (xs : list Q) (i : Z)
           (js : list Z) : bool :=
  forallb (fun j => negb (worse (at_ xs i) (at_ xs (i - j))) &&
                    negb (worse (at_ xs i) (at_ xs (i + j)))) js.

(** [k] is visited by the outer pivot loop and qualifies. *)
Definition marked (lookback : Z) (worse : Q -> Q -> bool) (xs : list Q)
           (idxs : list Z) (k : nat) : bool :=
  existsb (Z.eqb (Z.of_nat k)) idxs &&
  dominatesb worse xs (Z.of_nat k) (range 1 (lookback + 1)).

(** The breakout condition at index [i], as the specification words it:
    the close is beyond the level by more than [min_breakout_pct] percent
    and the mean close of the up-to-5 preceding candles is on the other
    side of the level. *)
Definition breakout_condition (self : BreakRetestDetector) (df : DataFrame)
           (level : Level) (is_resistance : bool) (i : Z) : bool :=
  let before := List.map close (slice df (Z.max 0 (i - 5)) i) in
  if is_resistance then
    Qlt_bool (price level * (1 + min_breakout_pct self / 100)) (close_at df i) &&
    nan_lt (mean before) (price level)
  else
    Qlt_bool (close_at df i) (price level * (1 - min_breakout_pct self / 100)) &&
    nan_gt (mean before) (price level).

(** The stored row is for the same user, symbol, timeframe and pattern. *)
Definition same_target (user_id : Z) (symbol timeframe pattern_type : string)
           (r : ScanResult.row) : Prop :=
  ScanResult.user_id r = user_id /\ ScanResult.symbol r = symbol /\
  ScanResult.timeframe r = timeframe /\ ScanResult.pattern_type r = pattern_type.



(** *** The purge of duplicates *)

(** Two rows fall in the same group of the purge: same symbol, timeframe and
    pattern type, and level prices that round to equal values. *)
Definition same_group (round2 : Q -> Q) (a b : ScanResult.row) : Prop :=
  Service.key_eqb (Service.key_of round2 a) (Service.key_of round2 b) = true.

(** The rows that the loop of the purge marks for deletion, and those it
    leaves, as lists of rows. *)
Fixpoint dropped (round2 : Q -> Q) (l : list ScanResult.row)
         (seen : list (Service.Key * Z)) : list ScanResult.row :=
  match l with
  | [] => []
  | r :: t =>
      if Service.contains seen (Service.key_of round2 r)
      then r :: dropped round2 t seen
      else dropped round2 t (seen ++ [(Service.key_of round2 r, ScanResult.id r)])
  end.

Fixpoint retained (round2 : Q -> Q) (l : list ScanResult.row)
         (seen : list (Service.Key * Z)) : list ScanResult.row :=
  match l with
  | [] => []
  | r :: t =>
      if Service.contains seen (Service.key_of round2 r)
      then retained round2 t seen
      else r :: retained round2 t
                  (seen ++ [(Service.key_of round2 r, ScanResult.id r)])
  end.

(** The order of [order_by(created_at.asc())]. *)
Definition created_leb (a b : ScanResult.row) : bool :=
  (ScanResult.created_at a <=? ScanResult.created_at b)%Z.

(** *** Clustering *)

(** The detector with its clustering tolerance set to zero. *)
Definition zero_tolerance (self : BreakRetestDetector) : BreakRetestDetector :=
  {| pivot_lookback := pivot_lookback self;
     level_tolerance_pct := 0;
     min_touches := min_touches self;
     retest_tolerance_pct := retest_tolerance_pct self;
     min_breakout_pct := min_breakout_pct self;
     max_retest_candles := max_retest_candles self |}.

Definition with_min_touches (m : Z) (self : BreakRetestDetector)
  : BreakRetestDetector :=
  {| pivot_lookback := pivot_lookback self;
     level_tolerance_pct := level_tolerance_pct self;
     min_touches := m;
     retest_tolerance_pct := retest_tolerance_pct self;
     min_breakout_pct := min_breakout_pct self;
     max_retest_candles := max_retest_candles self |}.


(** The order of [sorted(levels, key=lambda x: x.price)]. *)
Definition price_leb (a b : Level) : bool := Qle_bool (price a) (price b).







(** *** Levels and signals *)

(** The number of flags that are set. *)
Definition count_used (flags : list bool) : nat :=
  List.length (List.filter (fun b => b) flags).

(** The sum of the strengths of a list of levels. *)
Definition total_strength (levels : list Level) : Z :=
  fold_right (fun L acc => (strength L + acc)%Z) 0%Z levels.

(** What every level built by the clustering loop satisfies. *)
Definition well_formed_level (self : BreakRetestDetector) (prices : list Q)
           (timestamps : list Z) (L : Level) : Prop :=
  (1 <= strength L)%Z /\ (min_touches self <= strength L)%Z /\
  (first_touch L <= last_touch L)%Z /\
  In (first_touch L) timestamps /\ In (last_touch L) timestamps /\
  (exists lo hi, In lo prices /\ In hi prices /\
                 (lo <= price L)%Q /\ (price L <= hi)%Q) /\
  is_broken L = false /\ break_direction L = None /\ break_time L = None.

Definition is_bullish (p : PatternType) : bool :=
  match p with
  | BULLISH_RETEST => true
  | BEARISH_RETEST => false
  end.

(** [s] is the signal that [detect] builds for one of [levels]: it carries
    the arguments of the call, the newest close and index entry of the
    frame, and the price and strength of a level whose breakout and retest
    checks both succeeded. *)
Definition signal_from (self : BreakRetestDetector)
           (render : PatternType -> string -> string -> Q -> Q -> Z -> string)
           (df : DataFrame) (sym tf : string) (levels : list Level)
           (pt : PatternType) (s : Signal) : Prop :=
  symbol s = sym /\ timeframe s = tf /\ pattern_type s = pt /\
  getitem (List.map close df) (-1) = Ok (current_price s) /\
  getitem (List.map open_time df) (-1) = Ok (timestamp s) /\
  distance_to_level_pct s = np_pct (current_price s) (level_price s) /\
  message s = render pt sym tf (level_price s) (current_price s) (sig_strength s) /\
  exists L idx,
    In L levels /\ level_price s = price L /\ sig_strength s = strength L /\
    check_breakout self df L (is_bullish pt) = Ok (Some idx) /\
    check_retest self df L idx (is_bullish pt) = Ok true.

(** The levels among which a signal of the given pattern is sought. *)
Definition levels_for (pt : PatternType) (res sup : list Level) : list Level :=
  if is_bullish pt then res else sup.

(** *** Scanning *)

(** The timeframes that [run_scan] scans for an item: [timeframes if
    timeframes else item.timeframes]. *)
Definition scanned_timeframes (timeframes : option (list string))
           (item : WatchlistItem.row) : list string :=
  match timeframes with
  | Some (_ :: _ as l) => l
  | _ => WatchlistItem.timeframes item
  end.

(** A detected signal has no similar stored signal. *)
Definition is_new (now : Z) (db : Service.Database) (user_id : Z) (s : Signal)
  : bool :=
  negb (Service._signal_exists now db user_id (symbol s) (timeframe s)
          (pattern_value (pattern_type s)) (level_price s)).

(** The stored row [r] records the signal [s] for the user. *)
Definition records (now user_id : Z) (s : Signal) (r : ScanResult.row) : Prop :=
  ScanResult.user_id r = user_id /\
  ScanResult.symbol r = symbol s /\
  ScanResult.timeframe r = timeframe s /\
  ScanResult.pattern_type r = pattern_value (pattern_type s) /\
  ScanResult.level_price r = level_price s /\
  ScanResult.current_price r = current_price s /\
  ScanResult.confidence_score r = (inject_Z (sig_strength s) / 10)%Q /\
  ScanResult.is_match r = true /\
  ScanResult.message r = Some (message s) /\
  ScanResult.created_at r = now.

(** The [ScanResult(...)] that [run_scan] builds from a signal. *)
Definition pending_of (user_id : Z) (s : Signal) : Service.Pending :=
  {| Service.p_user_id := user_id;
     Service.p_symbol := symbol s;
     Service.p_timeframe := timeframe s;
     Service.p_pattern_type := pattern_value (pattern_type s);
     Service.p_level_price := level_price s;
     Service.p_current_price := current_price s;
     Service.p_confidence_score := (inject_Z (sig_strength s) / 10)%Q;
     Service.p_is_match := true;
     Service.p_message := Some (message s) |}.

(** The signals of one pair of the watchlist: none when the provider or
    the detector raises. *)
Definition signals_of
           (get_klines_df : string -> string -> Z -> result DataFrame)
           (render : PatternType -> string -> string -> Q -> Q -> Z -> string)
           (detector : BreakRetestDetector) (item : WatchlistItem.row)
           (tf : string) : list Signal :=
  match (let* df := get_klines_df (WatchlistItem.symbol item) tf 500%Z in
         detect detector render df (WatchlistItem.symbol item) tf) with
  | Ok signals => signals
  | Raise _ => []
  end.

(** The results that one pair and one item of the watchlist add. *)
Definition pair_results
           (get_klines_df : string -> string -> Z -> result DataFrame)
           (render : PatternType -> string -> string -> Q -> Q -> Z -> string)
           (now : Z) (detector : BreakRetestDetector) (db : Service.Database)
           (user_id : Z) (item : WatchlistItem.row) (tf : string)
  : list Service.Pending :=
  List.map (pending_of user_id)
    (List.filter (is_new now db user_id)
       (signals_of get_klines_df render detector item tf)).

Definition item_results
           (get_klines_df : string -> string -> Z -> result DataFrame)
           (render : PatternType -> string -> string -> Q -> Q -> Z -> string)
           (now : Z) (detector : BreakRetestDetector) (db : Service.Database)
           (user_id : Z) (timeframes : option (list string))
           (item : WatchlistItem.row) : list Service.Pending :=
  flat_map (pair_results get_klines_df render now detector db user_id item)
    (scanned_timeframes timeframes item).

(** The signals that a scan stores, in the order of the scan. *)
Definition new_signals_of
           (get_klines_df : string -> string -> Z -> result DataFrame)
           (render : PatternType -> string -> string -> Q -> Q -> Z -> string)
           (now : Z) (db : Service.Database) (user_id : Z)
           (symbols timeframes : option (list string)) (sensitivity : string)
  : list Signal :=
  flat_map (fun item =>
    flat_map (fun tf =>
      List.filter (is_new now db user_id)
        (signals_of get_klines_df render (create_detector sensitivity) item tf))
      (scanned_timeframes timeframes item))
    (Service.active_watchlist db user_id symbols).

(** Primary keys grow along the table. *)
Definition id_lt (a b : ScanResult.row) : Prop :=
  (ScanResult.id a < ScanResult.id b)%Z.

(** The pair [(item, tf)] is scanned for the user. *)
Definition scanned (db : Service.Database) (user_id : Z)
           (symbols timeframes : option (list string))
           (item : WatchlistItem.row) (tf : string) : Prop :=
  In item (Service.active_watchlist db user_id symbols) /\
  In tf (scanned_timeframes timeframes item).

(** The signal [s] is detected on the candles served for the pair. *)
Definition detected_on
           (get_klines_df : string -> string -> Z -> result DataFrame)
           (render : PatternType -> string -> string -> Q -> Q -> Z -> string)
           (sensitivity : string) (item : WatchlistItem.row) (tf : string)
           (s : Signal) : Prop :=
  exists df signals,
    get_klines_df (WatchlistItem.symbol item) tf 500%Z = Ok df /\
    detect (create_detector sensitivity) render df (WatchlistItem.symbol item) tf
    = Ok signals /\
    In s signals.

(** *** Queries and clean-up *)

(** The order of [order_by(created_at.desc())]. *)
Definition created_geb (a b : ScanResult.row) : bool :=
  (ScanResult.created_at b <=? ScanResult.created_at a)%Z.

(** The row belongs to another user. *)
Definition of_other_user (user_id : Z) (r : ScanResult.row) : bool :=
  negb (ScanResult.user_id r =? user_id)%Z.

(** *** The scheduler *)

(** The user has an active watchlist item. *)
Definition has_active_item (db : Service.Database) (user_id : Z) : Prop :=
  exists w, In w (Service.watchlist_items db) /\
            WatchlistItem.is_active w = true /\
            WatchlistItem.user_id w = user_id.

(** The row is a row of the user. *)
Definition row_of_user (user_id : Z) (r : ScanResult.row) : bool :=
  (ScanResult.user_id r =? user_id)%Z.

(** One event in the life of the scheduler: a call of an endpoint, or a
    run of the job, which only a started underlying scheduler launches (a
    run may still end after [stop] has removed the job). *)
Inductive step : Scheduler.ScannerScheduler -> Scheduler.ScannerScheduler -> Prop :=
| step_start (minutes : Z) (s : Scheduler.ScannerScheduler) :
    step s (Scheduler.start_auto_scanner minutes s)
| step_stop (s : Scheduler.ScannerScheduler) :
    step s (Scheduler.stop_auto_scanner s)
| step_poll (user_id : Z) (s : Scheduler.ScannerScheduler) :
    step s (snd (Scheduler.get_new_signals_endpoint user_id s))
| step_tick (get_klines_df : string -> string -> Z -> result DataFrame)
            (render : PatternType -> string -> string -> Q -> Q -> Z -> string)
            (now : Z) (db : Service.Database) (s : Scheduler.ScannerScheduler) :
    Scheduler.scheduler_running s = true ->
    step s (snd (Scheduler._run_scan_for_all_users get_klines_df render now db s)).

(** The schedulers that the module-level instance can become. *)
Inductive reachable : Scheduler.ScannerScheduler -> Prop :=
| reachable_init : reachable Scheduler.init
| reachable_step (s s' : Scheduler.ScannerScheduler) :
    reachable s -> step s s' -> reachable s'.

End Spec.

(** ** Concrete inputs *)

Module Examples.
Import Py BreakRetest.

Definition flat (t : Z) (p : Q) : Candle :=
  {| open_time := t; open := p; high := p; low := p; close := p; volume := 1 |}.

Definition level_100 : Level :=
  {| price := 100; strength := 3; first_touch := 0; last_touch := 9;
     is_broken := false; break_direction := None; break_time := None |}.

(** Sixty candles: ten closes at 99, a breakout close at 102 on index 10,
    then forty-nine closes at 100.2. *)
Definition df_breakout : DataFrame :=
  List.map (fun t => flat t 99) (range 0 10) ++ [flat 10 102] ++
  List.map (fun t => flat t 100.2) (range 11 60).

Definition df_zigzag : DataFrame :=
  List.map (fun tp => flat (fst tp) (snd tp))
    [(0%Z, 1%Q); (1%Z, 3%Q); (2%Z, 2%Q); (3%Z, 5%Q); (4%Z, 4%Q)].

Definition detector_lookback_1 : BreakRetestDetector :=
  {| pivot_lookback := 1; level_tolerance_pct := 0.3; min_touches := 2;
     retest_tolerance_pct := 0.5; min_breakout_pct := 0.5;
     max_retest_candles := 3 |}.

Definition stored_signal (id created_at : Z) (level : Q) : ScanResult.row :=
  {| ScanResult.id := id; ScanResult.user_id := 7;
     ScanResult.symbol := "BTCUSDT"; ScanResult.timeframe := "1h";
     ScanResult.pattern_type := "bullish_retest";
     ScanResult.level_price := level; ScanResult.current_price := level;
     ScanResult.confidence_score := 0.3; ScanResult.is_match := true;
     ScanResult.message := None; ScanResult.created_at := created_at |}.

Definition db_of (rows : list ScanResult.row) : Service.Database :=
  {| Service.watchlist_items := []; Service.scan_results := rows;
     Service.scan_executions := [] |}.

(** A watchlist in which user 7 follows ETHUSDT, has BTCUSDT switched off,
    and user 8 follows BTCUSDT. *)
Definition db_watchlist : Service.Database :=
  {| Service.watchlist_items :=
       [ {| WatchlistItem.id := 1; WatchlistItem.user_id := 7;
            WatchlistItem.symbol := "ETHUSDT";
            WatchlistItem.timeframes := ["1h"; "4h"];
            WatchlistItem.is_active := true |};
         {| WatchlistItem.id := 2; WatchlistItem.user_id := 7;
            WatchlistItem.symbol := "BTCUSDT";
            WatchlistItem.timeframes := ["1h"];
            WatchlistItem.is_active := false |};
         {| WatchlistItem.id := 3; WatchlistItem.user_id := 8;
            WatchlistItem.symbol := "BTCUSDT";
            WatchlistItem.timeframes := ["1h"];
            WatchlistItem.is_active := true |} ];
     Service.scan_results := [stored_signal 1 0 100];
     Service.scan_executions := [] |}.

(** Seven candles: a resistance at 100 touched twice, a breakout close at
    102, and a newest candle back at 100.3. *)
Definition df_retest : DataFrame :=
  List.map (fun tp => flat (fst tp) (snd tp))
    [(0%Z, 99%Q); (1%Z, 100%Q); (2%Z, 99%Q); (3%Z, 100%Q); (4%Z, 99%Q);
     (5%Z, 102%Q); (6%Z, 100.3%Q)].

(** No candles are ever served. *)
Definition no_provider (_ _ : string) (_ : Z) : result DataFrame :=
  Raise ProviderError.

(** Three stored signals of user 7: two of one group, created at 5 and 3,
    and one of another level. *)
Definition db_duplicates : Service.Database :=
  db_of [stored_signal 1 5 100.001; stored_signal 2 3 100.004;
         stored_signal 3 4 250].



(** 25 hours, in microseconds. *)
Definition now_25h : Z := 90000000000.

(** The medium preset with one more candle in its retest window. *)
Definition detector_window_51 : BreakRetestDetector :=
  {| pivot_lookback := 10; level_tolerance_pct := 0.3; min_touches := 2;
     retest_tolerance_pct := 0.5; min_breakout_pct := 0.5;
     max_retest_candles := 51 |}.

(** A detector whose tolerance is negative: nothing is ever merged. *)
Definition detector_negative_tolerance : BreakRetestDetector :=
  {| pivot_lookback := 10; level_tolerance_pct := -1; min_touches := 1;
     retest_tolerance_pct := 0.5; min_breakout_pct := 0.5;
     max_retest_candles := 50 |}.

Definition no_message (_ : PatternType) (_ _ : string) (_ _ : Q) (_ : Z)
  : string := EmptyString.

(** The signal that [detect] reports on [df_retest] with
    [detector_lookback_1]. *)
Definition signal_retest : Signal :=
  {| symbol := "BTCUSDT"; timeframe := "1h";
     pattern_type := BULLISH_RETEST;
     level_price := 200 # 2;
     current_price := 100.3;
     distance_to_level_pct := np_pct 100.3 (200 # 2);
     timestamp := 6;
     sig_strength := 2;
     message := EmptyString |}.

(** Ninety candles at 99 with a resistance at 100 touched on indices 10 and
    21, a breakout close at 102 on index 45, closes at 100.2 after it and a
    newest candle at 100.3. *)
Definition df_retest_90 : DataFrame :=
  List.map (fun t => flat t 99) (range 0 10) ++ [flat 10 100] ++
  List.map (fun t => flat t 99) (range 11 21) ++ [flat 21 100] ++
  List.map (fun t => flat t 99) (range 22 45) ++ [flat 45 102] ++
  List.map (fun t => flat t 100.2) (range 46 89) ++ [flat 89 100.3].

(** A provider that serves [df_retest_90] for every pair. *)
Definition retest_provider (_ _ : string) (_ : Z) : result DataFrame :=
  Ok df_retest_90.

(** One hour, in microseconds. *)
Definition one_hour : Z := 3600000000.

End Examples.

(** ** Properties *)

Import Py BreakRetest Spec.

(** *** Auxiliary facts about the Python primitives *)

Lemma Qlt_bool_iff (x y : Q) : Qlt_bool x y = true <-> (x < y)%Q.
Proof.
  unfold Qlt_bool. rewrite negb_true_iff. split.
  - intros H. apply Qnot_le_lt. intros Hle. apply Qle_bool_iff in Hle. congruence.
  - intros H. destruct (Qle_bool y x) eqn:E; [|reflexivity].
    apply Qle_bool_iff in E. exfalso. exact (Qlt_not_le _ _ H E).
Qed.

Lemma Qle_bool_false_iff (x y : Q) : Qle_bool x y = false <-> (y < x)%Q.
Proof.
  rewrite <- Qlt_bool_iff. unfold Qlt_bool. rewrite negb_true_iff. reflexivity.
Qed.

Lemma len_nonneg {A} (l : list A) : (0 <= len l)%Z.
Proof. unfold len. lia. Qed.

Lemma getitem_inbounds {A} (l : list A) (k : Z) (d : A) :
  (0 <= k < len l)%Z -> getitem l k = Ok (nth (Z.to_nat k) l d).
Proof.
  intros [H0 H1]. unfold getitem.
  destruct (k <? 0)%Z eqn:E; [apply Z.ltb_lt in E; lia|]. rewrite E.
  destruct (nth_error l (Z.to_nat k)) eqn:En.
  - f_equal. symmetry. apply nth_error_nth. exact En.
  - apply nth_error_None in En. unfold len in H1. lia.
Qed.

Lemma update_length {A} (l : list A) k v : List.length (update l k v) = List.length l.
Proof.
  revert k. induction l as [|h t IH]; intros [|k]; simpl; auto.
Qed.

Lemma nth_error_update {A} (l : list A) k v k' :
  nth_error (update l k v) k' =
  if Nat.eqb k k' then (if Nat.ltb k (List.length l) then Some v else None)
  else nth_error l k'.
Proof.
  revert k k'. induction l as [|h t IH]; intros k k'.
  - destruct k, k'; simpl; try reflexivity.
    destruct (Nat.eqb k k'); reflexivity.
  - destruct k, k'; simpl; try reflexivity.
    rewrite IH. destruct (Nat.eqb k k'); [|reflexivity].
    reflexivity.
Qed.

Lemma setitem_inbounds {A} (l : list A) (k : Z) v :
  (0 <= k < len l)%Z -> setitem l k v = Ok (update l (Z.to_nat k) v).
Proof.
  intros [H0 H1]. unfold setitem.
  destruct (k <? 0)%Z eqn:E; [apply Z.ltb_lt in E; lia|]. rewrite E.
  destruct (k <? len l)%Z eqn:E2; [reflexivity|]. apply Z.ltb_ge in E2. lia.
Qed.

Lemma in_range a b k : In k (range a b) <-> (a <= k < b)%Z.
Proof.
  unfold range. rewrite in_map_iff. split.
  - intros [n [<- Hn]]. apply in_seq in Hn. lia.
  - intros H. exists (Z.to_nat (k - a)). split; [lia|]. apply in_seq. lia.
Qed.

Lemma in_range_down a b k : In k (range_down a b) <-> (b < k <= a)%Z.
Proof.
  unfold range_down. rewrite in_map_iff. split.
  - intros [n [<- Hn]]. apply in_seq in Hn. lia.
  - intros H. exists (Z.to_nat (a - k)). split; [lia|]. apply in_seq. lia.
Qed.

(** *** Pivots *)

Section PivotFacts.
Variable self : BreakRetestDetector.
Variable worse : Q -> Q -> bool.
Variable xs : list Q.

Abbreviation dominatesb := (Spec.dominatesb worse xs).
Abbreviation marked := (Spec.marked (pivot_lookback self) worse xs).

Lemma is_pivot_total (i : Z) (js : list Z) :
    (forall j, In j js -> (0 <= i - j < len xs)%Z /\ (0 <= i + j < len xs)%Z) ->
    (0 <= i < len xs)%Z ->
    is_pivot worse xs i js = Ok (dominatesb i js).
  Proof.
    intros Hjs Hi. induction js as [|j js IH]; [reflexivity|].
    destruct (Hjs j (or_introl eq_refl)) as [Hl Hr].
    cbn [is_pivot dominatesb forallb].
    rewrite (getitem_inbounds xs i 0%Q Hi).
    rewrite (getitem_inbounds xs (i - j) 0%Q Hl).
    rewrite (getitem_inbounds xs (i + j) 0%Q Hr).
    cbn [bind]. fold (at_ xs i) (at_ xs (i - j)) (at_ xs (i + j)).
    destruct (worse (at_ xs i) (at_ xs (i - j))); [reflexivity|].
    destruct (worse (at_ xs i) (at_ xs (i + j))); [reflexivity|].
    cbn [negb andb]. apply IH. intros j' Hj'. apply Hjs. right. exact Hj'.
  Qed.

Lemma pivot_loop_spec (idxs : list Z) :
    (1 <= pivot_lookback self)%Z ->
    (forall i, In i idxs ->
       (pivot_lookback self <= i < len xs - pivot_lookback self)%Z) ->
    forall s, List.length s = List.length xs ->
    exists s', pivot_loop self worse xs idxs s = Ok s' /\
               List.length s' = List.length xs /\
               forall k, nth_error s' k =
                         if marked idxs k then Some (Some (at_ xs (Z.of_nat k)))
                         else nth_error s k.
  Proof.
    intros Hlb. induction idxs as [|i idxs IH]; intros Hin s Hs.
    - exists s. repeat split; auto.
    - assert (Hi : (pivot_lookback self <= i < len xs - pivot_lookback self)%Z)
        by (apply Hin; left; reflexivity).
      assert (Hin' : forall i', In i' idxs ->
                (pivot_lookback self <= i' < len xs - pivot_lookback self)%Z)
        by (intros i' H'; apply Hin; right; exact H').
      cbn [pivot_loop].
      rewrite is_pivot_total; [|intros j Hj; apply in_range in Hj; lia|lia].
      cbn [bind].
      destruct (dominatesb i (range 1 (pivot_lookback self + 1))) eqn:Edom.
      + rewrite (getitem_inbounds xs i 0%Q) by lia. cbn [bind].
        rewrite setitem_inbounds by (unfold len in *; lia). cbn [bind].
        destruct (IH Hin' (update s (Z.to_nat i) (Some (nth (Z.to_nat i) xs 0%Q))))
          as [s' [Hrun [Hlen Hnth]]].
        { rewrite update_length. exact Hs. }
        exists s'. split; [exact Hrun|]. split; [exact Hlen|].
        intros k. rewrite Hnth. unfold marked. cbn [existsb].
        destruct (existsb (Z.eqb (Z.of_nat k)) idxs &&
                  dominatesb (Z.of_nat k) (range 1 (pivot_lookback self + 1))) eqn:E.
        * apply andb_prop in E. destruct E as [E1 E2]. rewrite E1, E2.
          rewrite orb_true_r. reflexivity.
        * rewrite nth_error_update.
          destruct (Z.eqb (Z.of_nat k) i) eqn:Ek.
          -- apply Z.eqb_eq in Ek. subst i. rewrite Nat2Z.id.
             rewrite Nat.eqb_refl. cbn [orb andb]. rewrite Edom.
             assert (Hlt : (k < List.length s)%nat) by (unfold len in *; lia).
             apply Nat.ltb_lt in Hlt. rewrite Hlt. unfold at_. rewrite Nat2Z.id.
             reflexivity.
          -- apply Z.eqb_neq in Ek.
             assert (Hne : Nat.eqb (Z.to_nat i) k = false)
               by (apply Nat.eqb_neq; lia).
             rewrite Hne. cbn [orb]. rewrite E. reflexivity.
      + destruct (IH Hin' s Hs) as [s' [Hrun [Hlen Hnth]]].
        exists s'. split; [exact Hrun|]. split; [exact Hlen|].
        intros k. rewrite Hnth. unfold marked. cbn [existsb].
        destruct (Z.eqb (Z.of_nat k) i) eqn:Ek; [|reflexivity].
        apply Z.eqb_eq in Ek. subst i. rewrite Edom. cbn [orb].
        rewrite andb_false_r.
        destruct (existsb (Z.eqb (Z.of_nat k)) idxs); reflexivity.
  Qed.

Lemma existsb_range (k : nat) (a b : Z) :
    existsb (Z.eqb (Z.of_nat k)) (range a b) = true <-> (a <= Z.of_nat k < b)%Z.
  Proof.
    rewrite existsb_exists. split.
    - intros [x [Hx Hk]]. apply Z.eqb_eq in Hk. subst x.
      apply in_range in Hx. exact Hx.
    - intros H. exists (Z.of_nat k). split; [apply in_range; exact H|].
      apply Z.eqb_refl.
  Qed.

Lemma dominatesb_range (i lb : Z) :
    dominatesb i (range 1 (lb + 1)) = true <->
    forall j, (1 <= j <= lb)%Z ->
              worse (at_ xs i) (at_ xs (i - j)) = false /\
              worse (at_ xs i) (at_ xs (i + j)) = false.
  Proof.
    unfold dominatesb. rewrite forallb_forall. split.
    - intros H j Hj. assert (Hin : In j (range 1 (lb + 1))) by (apply in_range; lia).
      specialize (H j Hin). apply andb_prop in H. destruct H as [H1 H2].
      apply negb_true_iff in H1, H2. split; assumption.
    - intros H j Hj. apply in_range in Hj.
      destruct (H j) as [H1 H2]; [lia|]. rewrite H1, H2. reflexivity.
  Qed.

Lemma find_pivots_spec :
    (1 <= pivot_lookback self)%Z ->
    exists s, find_pivots self worse xs = Ok s /\
              List.length s = List.length xs /\
              forall k, nth_error s k =
                        if marked (range (pivot_lookback self)
                                     (len xs - pivot_lookback self)) k
                        then Some (Some (at_ xs (Z.of_nat k)))
                        else nth_error (repeat None (List.length xs)) k.
  Proof.
    intros Hlb. unfold find_pivots. apply pivot_loop_spec; [exact Hlb| |].
    - intros i Hi. apply in_range in Hi. exact Hi.
    - apply repeat_length.
  Qed.
End PivotFacts.


Lemma pivot_series_flagged (lookback : Z) (worse : Q -> Q -> bool)
      (xs : list Q) (s : list (option Q)) :
  (0 <= lookback)%Z ->
  List.length s = List.length xs ->
  (forall k, nth_error s k =
             if Spec.marked lookback worse xs (range lookback (len xs - lookback)) k
             then Some (Some (at_ xs (Z.of_nat k)))
             else nth_error (repeat None (List.length xs)) k) ->
  forall i, flagged s i <->
            (lookback <= i < len xs - lookback)%Z /\
            forall j, (1 <= j <= lookback)%Z ->
                      worse (at_ xs i) (at_ xs (i - j)) = false /\
                      worse (at_ xs i) (at_ xs (i + j)) = false.
Proof.
  intros Hlb Hlen Hnth i. unfold flagged. split.
  - intros [H0 [v Hv]]. rewrite Hnth in Hv.
    destruct (Spec.marked _ _ _ _ _) eqn:E.
    + unfold Spec.marked in E. apply andb_prop in E. destruct E as [E1 E2].
      rewrite Z2Nat.id in E1, E2 by lia.
      split.
      * rewrite <- (Z2Nat.id i) by lia. apply existsb_range.
        rewrite Z2Nat.id by lia. exact E1.
      * apply dominatesb_range. exact E2.
    + apply nth_error_In in Hv. apply repeat_spec in Hv. discriminate.
  - intros [Hr Hd].
    split; [unfold len in *; lia|].
    exists (at_ xs i). rewrite Hnth.
    assert (E : Spec.marked lookback worse xs
                  (range lookback (len xs - lookback)) (Z.to_nat i) = true).
    { unfold Spec.marked. rewrite Z2Nat.id by (unfold len in *; lia).
      apply andb_true_intro. split.
      - rewrite <- (Z2Nat.id i) by (unfold len in *; lia).
        apply existsb_range. rewrite Z2Nat.id by (unfold len in *; lia). exact Hr.
      - apply dominatesb_range. exact Hd. }
    rewrite E. rewrite Z2Nat.id by (unfold len in *; lia). reflexivity.
Qed.

Lemma pivot_series_value (lookback : Z) (worse : Q -> Q -> bool)
      (xs : list Q) (s : list (option Q)) :
  (forall k, nth_error s k =
             if Spec.marked lookback worse xs (range lookback (len xs - lookback)) k
             then Some (Some (at_ xs (Z.of_nat k)))
             else nth_error (repeat None (List.length xs)) k) ->
  forall i, flagged s i -> nth_error s (Z.to_nat i) = Some (Some (at_ xs i)).
Proof.
  intros Hnth i [H0 [v Hv]]. rewrite Hnth in Hv |- *.
  destruct (Spec.marked _ _ _ _ _).
  - rewrite Z2Nat.id by lia. reflexivity.
  - apply nth_error_In in Hv. apply repeat_spec in Hv. discriminate.
Qed.

Lemma find_pivots_short (self : BreakRetestDetector) (worse : Q -> Q -> bool)
      (xs : list Q) :
  (len xs < 2 * pivot_lookback self + 1)%Z ->
  find_pivots self worse xs = Ok (repeat None (List.length xs)).
Proof.
  intros H. unfold find_pivots, range.
  replace (Z.to_nat (len xs - pivot_lookback self - pivot_lookback self))
    with 0%nat by lia.
  reflexivity.
Qed.

Lemma len_map {A B : Type} (f : A -> B) (l : list A) : len (List.map f l) = len l.
Proof. unfold len. rewrite length_map. reflexivity. Qed.

(** C2. With a lookback of at least 1, [find_pivot_highs] returns a series
    in which index [i] carries a value exactly when [i] is an interior index
    ([lookback <= i < n - lookback]) whose high is strictly greater than the
    highs at [i - j] and [i + j] for every [j] in [1, lookback]; the value is
    that high.  [find_pivot_lows] is the strict-less-than mirror on lows, and
    a series shorter than [2 * lookback + 1] has no pivot. *)
Theorem find_pivots_characterised (self : BreakRetestDetector) (df : DataFrame) :
  (1 <= pivot_lookback self)%Z ->
  (exists s, find_pivot_highs self df = Ok s /\
             List.length s = List.length df /\
             (forall i, flagged s i <-> pivot_high_at (pivot_lookback self) df i) /\
             (forall i, flagged s i ->
                        nth_error s (Z.to_nat i) = Some (Some (high_at df i)))) /\
  (exists s, find_pivot_lows self df = Ok s /\
             List.length s = List.length df /\
             (forall i, flagged s i <-> pivot_low_at (pivot_lookback self) df i) /\
             (forall i, flagged s i ->
                        nth_error s (Z.to_nat i) = Some (Some (low_at df i)))) /\
  ((len df < 2 * pivot_lookback self + 1)%Z ->
   find_pivot_highs self df = Ok (repeat None (List.length df)) /\
   find_pivot_lows self df = Ok (repeat None (List.length df))).
Proof.
  intros Hlb. split; [|split].
  - destruct (find_pivots_spec self Qle_bool (List.map high df) Hlb)
      as [s [Hrun [Hlen Hnth]]].
    exists s. split; [exact Hrun|]. rewrite length_map in Hlen.
    split; [exact Hlen|]. split.
    + intros i. unfold pivot_high_at, high_at. rewrite <- (len_map high).
      rewrite (pivot_series_flagged (pivot_lookback self) Qle_bool
                 (List.map high df) s); [| lia | rewrite length_map; exact Hlen | exact Hnth].
      split; intros [Hr Hd]; (split; [exact Hr|]); intros j Hj;
        destruct (Hd j Hj) as [H1 H2]; split;
        first [ apply Qle_bool_false_iff; assumption
              | apply Qle_bool_false_iff in H1; assumption
              | apply Qle_bool_false_iff in H2; assumption ].
    + intros i Hi. exact (pivot_series_value _ _ _ _ Hnth i Hi).
  - destruct (find_pivots_spec self (fun a b => Qle_bool b a) (List.map low df) Hlb)
      as [s [Hrun [Hlen Hnth]]].
    exists s. split; [exact Hrun|]. rewrite length_map in Hlen.
    split; [exact Hlen|]. split.
    + intros i. unfold pivot_low_at, low_at. rewrite <- (len_map low).
      rewrite (pivot_series_flagged (pivot_lookback self) (fun a b => Qle_bool b a)
                 (List.map low df) s); [| lia | rewrite length_map; exact Hlen | exact Hnth].
      split; intros [Hr Hd]; (split; [exact Hr|]); intros j Hj;
        destruct (Hd j Hj) as [H1 H2]; split;
        first [ apply Qle_bool_false_iff; assumption
              | apply Qle_bool_false_iff in H1; assumption
              | apply Qle_bool_false_iff in H2; assumption ].
    + intros i Hi. exact (pivot_series_value _ _ _ _ Hnth i Hi).
  - intros Hshort. unfold find_pivot_highs, find_pivot_lows. split.
    + rewrite find_pivots_short by (rewrite len_map; exact Hshort).
      rewrite length_map. reflexivity.
    + rewrite find_pivots_short by (rewrite len_map; exact Hshort).
      rewrite length_map. reflexivity.
Qed.

Lemma find_pivots_characterised_witness :
  (exists s, find_pivot_highs Examples.detector_lookback_1 Examples.df_zigzag = Ok s /\
             flagged s 3 /\ ~ flagged s 2) /\
  (exists s, find_pivot_lows Examples.detector_lookback_1 Examples.df_zigzag = Ok s /\
             flagged s 2 /\ ~ flagged s 3).
Proof.
  assert (Hlb : (1 <= pivot_lookback Examples.detector_lookback_1)%Z)
    by (vm_compute; discriminate).
  destruct (find_pivots_characterised Examples.detector_lookback_1
              Examples.df_zigzag Hlb) as [[s [Hs [_ [Hiff _]]]] [[t [Ht [_ [Hiff' _]]]] _]].
  split.
  - exists s. split; [exact Hs|].
    vm_compute in Hs. injection Hs as <-. split.
    + split; [lia|]. eexists. reflexivity.
    + intros [_ [v Hv]]. vm_compute in Hv. discriminate.
  - exists t. split; [exact Ht|].
    vm_compute in Ht. injection Ht as <-. split.
    + split; [lia|]. eexists. reflexivity.
    + intros [_ [v Hv]]. vm_compute in Hv. discriminate.
Defined.

(** *** The length guard of [detect] *)

(** C1. On a candle series with fewer than
    [2 * pivot_lookback + max_retest_candles] candles, [detect] returns the
    empty list of signals, whatever the symbol and the timeframe. *)
Theorem detect_short_series (self : BreakRetestDetector)
        (render : PatternType -> string -> string -> Q -> Q -> Z -> string)
        (df : DataFrame) (sym tf : string) :
  (len df < 2 * pivot_lookback self + max_retest_candles self)%Z ->
  detect self render df sym tf = Ok [].
Proof.
  intros H. unfold detect.
  destruct (len df <? pivot_lookback self * 2 + max_retest_candles self)%Z eqn:E.
  - reflexivity.
  - apply Z.ltb_ge in E. lia.
Qed.

Lemma detect_short_series_witness :
  (len Examples.df_breakout
   < 2 * pivot_lookback config_medium + max_retest_candles config_medium)%Z /\
  detect config_medium Examples.no_message Examples.df_breakout "BTCUSDT" "1h"
  = Ok [].
Proof.
  split.
  - vm_compute. reflexivity.
  - apply (detect_short_series config_medium Examples.no_message
             Examples.df_breakout "BTCUSDT" "1h").
    vm_compute. reflexivity.
Defined.

(** On a long enough series the detector goes on: [df_retest] has a
    resistance at 100 touched twice, broken on index 5 and retested by the
    newest candle, and [detect] reports that one bullish retest. *)
Example detect_emits_bullish_retest :
  detect Examples.detector_lookback_1 Examples.no_message Examples.df_retest
    "BTCUSDT" "1h"
  = Ok [ {| symbol := "BTCUSDT"; timeframe := "1h";
            pattern_type := BULLISH_RETEST;
            level_price := 200 # 2;
            current_price := 100.3;
            distance_to_level_pct := np_pct 100.3 (200 # 2);
            timestamp := 6;
            sig_strength := 2;
            message := EmptyString |} ].
Proof. vm_compute. reflexivity. Qed.

(** *** Retest *)

(** C9. [check_retest] returns [False] whenever
    [breakout_idx >= len(df) - 1], for every series, level and direction;
    in particular for a breakout on the newest candle. *)
Theorem check_retest_recent_breakout (self : BreakRetestDetector)
        (df : DataFrame) (level : Level) (breakout_idx : Z) (is_bullish : bool) :
  (breakout_idx >= len df - 1)%Z ->
  check_retest self df level breakout_idx is_bullish = Ok false.
Proof.
  intros H. unfold check_retest.
  destruct (len df - 1 <=? breakout_idx)%Z eqn:E.
  - reflexivity.
  - apply Z.leb_gt in E. lia.
Qed.

Lemma check_retest_recent_breakout_witness :
  (59 >= len Examples.df_breakout - 1)%Z /\
  check_retest config_medium Examples.df_breakout Examples.level_100 59 true
  = Ok false.
Proof.
  split.
  - vm_compute. discriminate.
  - apply (check_retest_recent_breakout config_medium Examples.df_breakout
             Examples.level_100 59 true).
    vm_compute. discriminate.
Defined.

(** *** Breakout *)

Lemma guarded_mean (prev : list Candle) (p : Q) (cmp : option Q -> Q -> bool) :
  cmp None p = false ->
  (0 <? len prev)%Z && cmp (mean (List.map close prev)) p
  = cmp (mean (List.map close prev)) p.
Proof.
  intros Hnone. destruct prev as [|c prev].
  - cbn. rewrite Hnone. reflexivity.
  - unfold len. cbn [List.length]. 
    replace (0 <? Z.of_nat (S (List.length prev)))%Z with true
      by (symmetry; apply Z.ltb_lt; lia).
    reflexivity.
Qed.

Lemma breaks_at_inbounds (self : BreakRetestDetector) (df : DataFrame)
      (level : Level) (is_resistance : bool) (i : Z) :
  (0 <= i < len df)%Z ->
  breaks_at self df level is_resistance i
  = Ok (breakout_condition self df level is_resistance i).
Proof.
  intros Hi. unfold breaks_at, breakout_condition, close_at, at_.
  set (d := {| open_time := 0; open := 0; high := 0; low := 0; close := 0;
               volume := 0 |}).
  rewrite (getitem_inbounds df i d Hi). cbn [bind].
  change 0%Q with (close d). rewrite map_nth.
  destruct is_resistance.
  - destruct (Qlt_bool _ (close (nth (Z.to_nat i) df d))).
    + rewrite (guarded_mean _ _ nan_lt) by reflexivity. reflexivity.
    + reflexivity.
  - destruct (Qlt_bool (close (nth (Z.to_nat i) df d)) _).
    + rewrite (guarded_mean _ _ nan_gt) by reflexivity. reflexivity.
    + reflexivity.
Qed.

Lemma breakout_loop_find (self : BreakRetestDetector) (df : DataFrame)
      (level : Level) (is_resistance : bool) (idxs : list Z) :
  (forall i, In i idxs -> (0 <= i < len df)%Z) ->
  breakout_loop self df level is_resistance idxs
  = Ok (List.find (breakout_condition self df level is_resistance) idxs).
Proof.
  induction idxs as [|i idxs IH]; intros Hin; [reflexivity|].
  cbn [breakout_loop List.find].
  rewrite breaks_at_inbounds by (apply Hin; left; reflexivity). cbn [bind].
  destruct (breakout_condition self df level is_resistance i); [reflexivity|].
  apply IH. intros k Hk. apply Hin. right. exact Hk.
Qed.

Lemma range_down_step (a b : Z) :
  (b < a)%Z -> range_down a b = a :: range_down (a - 1) b.
Proof.
  intros H. unfold range_down.
  replace (Z.to_nat (a - b)) with (S (Z.to_nat (a - 1 - b))) by lia.
  cbn [seq List.map]. f_equal; [lia|].
  rewrite <- seq_shift, List.map_map. apply List.map_ext. intros k. lia.
Qed.

Lemma range_down_empty (a b : Z) : (a <= b)%Z -> range_down a b = [].
Proof.
  intros H. unfold range_down. replace (Z.to_nat (a - b)) with 0%nat by lia.
  reflexivity.
Qed.

Lemma find_range_down (f : Z -> bool) (n : nat) :
  forall a b, Z.to_nat (a - b) = n ->
  match List.find f (range_down a b) with
  | Some i => (b < i <= a)%Z /\ f i = true /\
              forall k, (i < k <= a)%Z -> f k = false
  | None => forall k, (b < k <= a)%Z -> f k = false
  end.
Proof.
  induction n as [|n IH]; intros a b Hn.
  - rewrite range_down_empty by lia. cbn. intros k Hk. lia.
  - rewrite range_down_step by lia. cbn [List.find].
    destruct (f a) eqn:Ea.
    + split; [lia|]. split; [exact Ea|]. intros k Hk. lia.
    + specialize (IH (a - 1)%Z b ltac:(lia)).
      destruct (List.find f (range_down (a - 1) b)) as [i|].
      * destruct IH as [Hr [Hf Hk]]. split; [lia|]. split; [exact Hf|].
        intros k Hk'. destruct (Z.eq_dec k a) as [->|Hne]; [exact Ea|].
        apply Hk. lia.
      * intros k Hk. destruct (Z.eq_dec k a) as [->|Hne]; [exact Ea|].
        apply IH. lia.
Qed.

(** What [check_breakout] computes on a non-empty series: the greatest
    index satisfying the breakout condition among those strictly above
    [max(0, n - max_retest_candles)], or [None]. *)
Lemma check_breakout_window (self : BreakRetestDetector) (df : DataFrame)
      (level : Level) (is_resistance : bool) :
  df <> [] ->
  exists r, check_breakout self df level is_resistance = Ok r /\
    match r with
    | Some i =>
        (Z.max 0 (len df - max_retest_candles self) < i <= len df - 1)%Z /\
        breakout_condition self df level is_resistance i = true /\
        forall k, (i < k <= len df - 1)%Z ->
                  breakout_condition self df level is_resistance k = false
    | None =>
        forall k, (Z.max 0 (len df - max_retest_candles self) < k <= len df - 1)%Z ->
                  breakout_condition self df level is_resistance k = false
    end.
Proof.
  intros Hne. unfold check_breakout.
  assert (Hlen : (0 < len df)%Z).
  { destruct df; [congruence|]. unfold len. cbn [List.length]. lia. }
  assert (Hlast : exists c, getitem (List.map close df) (-1) = Ok c).
  { unfold getitem. cbn [Z.ltb Z.compare]. rewrite len_map.
    destruct (-1 + len df <? 0)%Z eqn:E; [apply Z.ltb_lt in E; lia|].
    destruct (nth_error (List.map close df) (Z.to_nat (-1 + len df))) eqn:En.
    - eexists. reflexivity.
    - apply nth_error_None in En. rewrite length_map in En. unfold len in *. lia. }
  destruct Hlast as [c Hc]. rewrite Hc. cbn [bind].
  rewrite breakout_loop_find
    by (intros i Hi; apply in_range_down in Hi; lia).
  eexists. split; [reflexivity|].
  apply (find_range_down _ _ _ _ eq_refl).
Qed.

(** C3, evaluated where the code departs from it.  In [df_breakout] (60
    candles, [max_retest_candles = 50]) index 10 is the first of the last 50
    candles and the only index that satisfies the breakout condition, yet
    [check_breakout] returns [None]: its backward [range] stops before
    [len(df) - max_retest_candles], so that index is never examined. *)
Theorem check_breakout_skips_window_start :
  (len Examples.df_breakout - max_retest_candles config_medium <= 10
   < len Examples.df_breakout)%Z /\
  breakout_condition config_medium Examples.df_breakout Examples.level_100 true 10
  = true /\
  breaks_at config_medium Examples.df_breakout Examples.level_100 true 10
  = Ok true /\
  forallb (fun k => negb (breakout_condition config_medium Examples.df_breakout
                            Examples.level_100 true k)) (range 11 60) = true /\
  check_breakout config_medium Examples.df_breakout Examples.level_100 true
  = Ok None.
Proof.
  split; [vm_compute; split; [discriminate|reflexivity]|].
  split; [vm_compute; reflexivity|].
  split; [vm_compute; reflexivity|].
  split; vm_compute; reflexivity.
Qed.


(** The same breakout is found once the window is one candle longer, and the
    retest check accepts it: the series is a break and retest that the
    medium preset misses by one index. *)
Example check_breakout_one_candle_more :
  check_breakout Examples.detector_window_51 Examples.df_breakout
    Examples.level_100 true = Ok (Some 10%Z) /\
  check_retest config_medium Examples.df_breakout Examples.level_100 10 true
  = Ok true.
Proof. split; vm_compute; reflexivity. Qed.

(** *** The duplicate guard *)

Lemma similar_iff (cutoff : Z) (lo hi : Q) (u : Z) (s t p : string)
      (r : ScanResult.row) :
  Service.similar cutoff lo hi u s t p r = true <->
  same_target u s t p r /\
  (lo <= ScanResult.level_price r)%Q /\ (ScanResult.level_price r <= hi)%Q /\
  (cutoff <= ScanResult.created_at r)%Z.
Proof.
  unfold Service.similar, same_target.
  rewrite !andb_true_iff, Z.eqb_eq, !String.eqb_eq, !Qle_bool_iff, Z.leb_le.
  tauto.
Qed.


Lemma count_positive {A : Type} (f : A -> bool) (l : list A) :
  (0 <? len (List.filter f l))%Z = true <-> exists x, In x l /\ f x = true.
Proof.
  rewrite Z.ltb_lt. unfold len. split.
  - intros H. destruct (List.filter f l) as [|x t] eqn:E; [cbn in H; lia|].
    exists x. apply filter_In. rewrite E. left. reflexivity.
  - intros [x Hx]. apply filter_In in Hx.
    destruct (List.filter f l); [destruct Hx|cbn [List.length]; lia].
Qed.



(** *** The queue of new signals *)

(** C7. [get_new_signals] returns the whole list queued for the user, in
    queue order (the empty list if there is none), and leaves no queue for
    that user; the queues of the other users and the other fields of the
    scheduler are unchanged, and taking again at once returns the empty
    list. *)
Theorem get_new_signals_drains (user_id : Z) (self : Scheduler.ScannerScheduler) :
  let signals := fst (Scheduler.get_new_signals user_id self) in
  let self' := snd (Scheduler.get_new_signals user_id self) in
  signals = match Scheduler.new_signals self !! user_id with
            | Some queued => queued
            | None => []
            end /\
  (forall results,
     fst (Scheduler.get_new_signals user_id
            (Scheduler.store_new_signals user_id results self))
     = signals ++ List.map Scheduler.entry_of results) /\
  Scheduler.new_signals self' !! user_id = None /\
  (forall other, other <> user_id ->
     Scheduler.new_signals self' !! other = Scheduler.new_signals self !! other) /\
  fst (Scheduler.get_new_signals user_id self') = [] /\
  Scheduler.get_status self' = Scheduler.get_status self.
Proof.
  cbn [Scheduler.get_new_signals fst snd Scheduler.new_signals].
  split; [destruct (Scheduler.new_signals self !! user_id); reflexivity|].
  split.
  - intros results. unfold Scheduler.store_new_signals.
    destruct results as [|r results].
    + cbn [List.map]. rewrite app_nil_r. reflexivity.
    + cbn [Scheduler.new_signals]. rewrite lookup_insert_eq. reflexivity.
  - split; [apply lookup_delete_eq|]. split.
    + intros other Hne. apply lookup_delete_ne. congruence.
    + split; [rewrite lookup_delete_eq; reflexivity|reflexivity].
Qed.

(** *** The start/stop state machine *)

(** C8. The scheduler has two states.  Starting it through the endpoint
    when stopped makes it running with the requested interval clamped to
    [1, 60] (the scheduler's own [start] keeps the interval it is handed,
    the endpoint clamps it first); starting it when running changes nothing;
    stopping it when running makes it stopped.  From the initial scheduler, start(5) gives
    the status running with interval 5, and a following stop gives the
    status not running. *)
Theorem scheduler_state_machine :
  (forall s minutes,
     Scheduler.is_running s = false ->
     let s' := Scheduler.start_auto_scanner minutes s in
     Scheduler.is_running s' = true /\
     (1 <= Scheduler.interval_minutes s' <= 60)%Z /\
     Scheduler.interval_minutes s' = Z.max 1 (Z.min 60 minutes) /\
     ((1 <= minutes <= 60)%Z -> Scheduler.interval_minutes s' = minutes) /\
     Scheduler.job s' = Some (Scheduler.interval_minutes s')) /\
  (forall s minutes,
     Scheduler.is_running s = false ->
     Scheduler.is_running (Scheduler.start minutes s) = true /\
     Scheduler.interval_minutes (Scheduler.start minutes s) = minutes) /\
  (forall s minutes,
     Scheduler.is_running s = true ->
     Scheduler.start_auto_scanner minutes s = s /\ Scheduler.start minutes s = s) /\
  (forall s,
     Scheduler.is_running s = true ->
     Scheduler.is_running (Scheduler.stop s) = false /\
     Scheduler.job (Scheduler.stop s) = None) /\
  (forall s, Scheduler.is_running s = false -> Scheduler.stop s = s) /\
  (let s1 := Scheduler.start 5 Scheduler.init in
   Scheduler.st_is_running (Scheduler.get_status s1) = true /\
   Scheduler.st_interval_minutes (Scheduler.get_status s1) = 5%Z /\
   Scheduler.st_is_running (Scheduler.get_status (Scheduler.stop s1)) = false) /\
  (let s1 := Scheduler.start_auto_scanner 5 Scheduler.init in
   Scheduler.st_is_running (Scheduler.get_auto_scanner_status s1) = true /\
   Scheduler.st_interval_minutes (Scheduler.get_auto_scanner_status s1) = 5%Z /\
   Scheduler.st_is_running
     (Scheduler.get_auto_scanner_status (Scheduler.stop_auto_scanner s1)) = false).
Proof.
  split; [|split; [|split; [|split; [|split; [|split]]]]].
  - intros s minutes Hs. unfold Scheduler.start_auto_scanner, Scheduler.start.
    rewrite Hs. cbn. repeat split; lia.
  - intros s minutes Hs. unfold Scheduler.start. rewrite Hs. split; reflexivity.
  - intros s minutes Hs. unfold Scheduler.start_auto_scanner, Scheduler.start.
    rewrite Hs. split; reflexivity.
  - intros s Hs. unfold Scheduler.stop. rewrite Hs. cbn. split; reflexivity.
  - intros s Hs. unfold Scheduler.stop. rewrite Hs. reflexivity.
  - cbn. repeat split; reflexivity.
  - cbn. repeat split; reflexivity.
Qed.

(** *** Scanning an empty watchlist *)

(** C10. When the filtered active watchlist of the user is empty,
    [run_scan] returns the empty list and the store it leaves is the store
    it was given: no scan result and no scan execution is added. *)
Theorem run_scan_empty_watchlist
        (get_klines_df : string -> string -> Z -> result DataFrame)
        (render : PatternType -> string -> string -> Q -> Q -> Z -> string)
        (now : Z) (db : Service.Database) (user_id : Z)
        (symbols timeframes : option (list string)) (sensitivity : string) :
  Service.active_watchlist db user_id symbols = [] ->
  Service.run_scan get_klines_df render now db user_id symbols timeframes
    sensitivity = ([], db).
Proof.
  intros H. unfold Service.run_scan. rewrite H. reflexivity.
Qed.

Lemma run_scan_empty_watchlist_witness :
  Service.active_watchlist Examples.db_watchlist 7 (Some ["btcusdt"]) = [] /\
  Service.run_scan Examples.no_provider Examples.no_message 1000
    Examples.db_watchlist 7 (Some ["btcusdt"]) None "high"
  = ([], Examples.db_watchlist).
Proof.
  split.
  - reflexivity.
  - apply (run_scan_empty_watchlist Examples.no_provider Examples.no_message
             1000 Examples.db_watchlist 7 (Some ["btcusdt"]) None "high").
    reflexivity.
Defined.

(** By contrast, a scan over a non-empty watchlist records its execution
    even when every pair fails and no signal is found. *)
Example run_scan_records_execution :
  Service.run_scan Examples.no_provider Examples.no_message 1000
    Examples.db_watchlist 7 None None "high"
  = ([],
     {| Service.watchlist_items := Service.watchlist_items Examples.db_watchlist;
        Service.scan_results := Service.scan_results Examples.db_watchlist;
        Service.scan_executions :=
          [ {| ScanExecution.id := 1; ScanExecution.user_id := 7;
               ScanExecution.symbols_scanned := 1;
               ScanExecution.signals_found := 0;
               ScanExecution.sensitivity := "high";
               ScanExecution.created_at := 1000 |} ] |}).
Proof. vm_compute. reflexivity. Qed.

(** *** Sorting *)

Lemma insert_sorted_perm {A : Type} (leb : A -> A -> bool) (x : A) (l : list A) :
  Permutation (insert_sorted leb x l) (x :: l).
Proof.
  induction l as [|y t IH]; cbn [insert_sorted]; [reflexivity|].
  destruct (leb x y); [reflexivity|].
  rewrite IH. apply perm_swap.
Qed.

Lemma sort_by_perm {A : Type} (leb : A -> A -> bool) (l : list A) :
  Permutation (sort_by leb l) l.
Proof.
  induction l as [|x t IH]; [reflexivity|].
  cbn [sort_by fold_right]. fold (sort_by leb t).
  rewrite insert_sorted_perm. apply perm_skip. exact IH.
Qed.

Lemma insert_sorted_sorted {A : Type} (leb : A -> A -> bool) :
  (forall a b, leb a b = false -> leb b a = true) ->
  (forall a b c, leb a b = true -> leb b c = true -> leb a c = true) ->
  forall x l, StronglySorted (fun a b => leb a b = true) l ->
              StronglySorted (fun a b => leb a b = true) (insert_sorted leb x l).
Proof.
  intros Htot Htrans x l. induction l as [|y t IH]; intros Hs; cbn [insert_sorted].
  - constructor; [constructor|constructor].
  - apply StronglySorted_inv in Hs. destruct Hs as [Ht Hy].
    destruct (leb x y) eqn:E.
    + constructor; [constructor; assumption|].
      constructor; [exact E|].
      rewrite List.Forall_forall in Hy |- *. intros z Hz.
      apply (Htrans x y z E). apply Hy. exact Hz.
    + constructor; [apply IH; exact Ht|].
      rewrite List.Forall_forall in Hy |- *. intros z Hz.
      apply (Permutation_in _ (insert_sorted_perm leb x t)) in Hz.
      destruct Hz as [<-|Hz]; [apply Htot; exact E|apply Hy; exact Hz].
Qed.

Lemma sort_by_sorted {A : Type} (leb : A -> A -> bool) :
  (forall a b, leb a b = false -> leb b a = true) ->
  (forall a b c, leb a b = true -> leb b c = true -> leb a c = true) ->
  forall l, StronglySorted (fun a b => leb a b = true) (sort_by leb l).
Proof.
  intros Htot Htrans l. induction l as [|x t IH]; [constructor|].
  cbn [sort_by fold_right]. fold (sort_by leb t).
  apply insert_sorted_sorted; assumption.
Qed.


(** *** The purge of duplicates *)

Lemma key_eqb_refl (k : Service.Key) : Service.key_eqb k k = true.
Proof.
  destruct k as [[[s t] p] l]. cbn.
  rewrite !String.eqb_refl. cbn. apply Qeq_bool_iff. reflexivity.
Qed.

Lemma key_eqb_sym (a b : Service.Key) :
  Service.key_eqb a b = true -> Service.key_eqb b a = true.
Proof.
  destruct a as [[[s t] p] l], b as [[[s' t'] p'] l']. cbn.
  rewrite !andb_true_iff, !String.eqb_eq, !Qeq_bool_iff.
  intros [[[-> ->] ->] H]. repeat split. symmetry. exact H.
Qed.

Lemma key_eqb_trans (a b c : Service.Key) :
  Service.key_eqb a b = true -> Service.key_eqb b c = true ->
  Service.key_eqb a c = true.
Proof.
  destruct a as [[[s t] p] l], b as [[[s' t'] p'] l'], c as [[[s'' t''] p''] l''].
  cbn. rewrite !andb_true_iff, !String.eqb_eq, !Qeq_bool_iff.
  intros [[[-> ->] ->] H] [[[-> ->] ->] H']. repeat split.
  rewrite H. exact H'.
Qed.

Lemma contains_app (seen : list (Service.Key * Z)) (e : Service.Key * Z)
      (k : Service.Key) :
  Service.contains (seen ++ [e]) k
  = Service.contains seen k || Service.key_eqb (fst e) k.
Proof.
  unfold Service.contains. rewrite existsb_app. cbn. rewrite orb_false_r.
  reflexivity.
Qed.

Section PurgeFacts.
Variable round2 : Q -> Q.
Abbreviation key := (Service.key_of round2).
Abbreviation keq := (same_group round2).

Lemma mark_duplicates_dropped (l : list ScanResult.row) :
  forall seen d,
    Service.mark_duplicates round2 l seen d
    = d ++ List.map ScanResult.id (dropped round2 l seen).
Proof.
  induction l as [|r t IH]; intros seen d; cbn [Service.mark_duplicates dropped].
  - cbn. rewrite app_nil_r. reflexivity.
  - destruct (Service.contains seen (key r)).
    + rewrite IH. cbn [List.map]. rewrite <- app_assoc. reflexivity.
    + apply IH.
Qed.

Lemma split_perm (l : list ScanResult.row) :
  forall seen, Permutation l (retained round2 l seen ++ dropped round2 l seen).
Proof.
  induction l as [|r t IH]; intros seen; cbn [retained dropped]; [reflexivity|].
  destruct (Service.contains seen (key r)).
  - rewrite <- Permutation_middle. apply perm_skip. apply IH.
  - cbn [app]. apply perm_skip. apply IH.
Qed.

Lemma retained_unseen (l : list ScanResult.row) :
  forall seen y, In y (retained round2 l seen) ->
                 Service.contains seen (key y) = false.
Proof.
  induction l as [|r t IH]; intros seen y Hy; cbn [retained] in Hy; [destruct Hy|].
  destruct (Service.contains seen (key r)) eqn:E.
  - apply IH. exact Hy.
  - destruct Hy as [<-|Hy]; [exact E|].
    apply IH in Hy. rewrite contains_app in Hy.
    apply orb_false_iff in Hy. apply Hy.
Qed.

Lemma retained_fresh (l : list ScanResult.row) :
  forall seen e y, In y (retained round2 l (seen ++ [e])) ->
                   Service.key_eqb (fst e) (key y) = false.
Proof.
  intros seen e y Hy. apply retained_unseen in Hy.
  rewrite contains_app in Hy. apply orb_false_iff in Hy. apply Hy.
Qed.

Lemma retained_in (l : list ScanResult.row) :
  forall seen y, In y (retained round2 l seen) -> In y l.
Proof.
  intros seen y Hy. apply (Permutation_in _ (Permutation_sym (split_perm l seen))).
  apply in_or_app. left. exact Hy.
Qed.

Lemma dropped_in (l : list ScanResult.row) :
  forall seen y, In y (dropped round2 l seen) -> In y l.
Proof.
  intros seen y Hy. apply (Permutation_in _ (Permutation_sym (split_perm l seen))).
  apply in_or_app. right. exact Hy.
Qed.

(** A group keeps at most one row. *)
Lemma retained_unique (l : list ScanResult.row) :
  forall seen x y,
    In x (retained round2 l seen) -> In y (retained round2 l seen) ->
    keq x y -> List.NoDup l -> x = y.
Proof.
  induction l as [|r t IH]; intros seen x y Hx Hy Hk Hnd;
    cbn [retained] in Hx, Hy; [destruct Hx|].
  apply List.NoDup_cons_iff in Hnd. destruct Hnd as [Hr Hnd].
  destruct (Service.contains seen (key r)) eqn:E.
  - exact (IH _ _ _ Hx Hy Hk Hnd).
  - destruct Hx as [<-|Hx], Hy as [<-|Hy].
    + reflexivity.
    + apply retained_fresh in Hy. cbn [fst] in Hy.
      unfold same_group in Hk. congruence.
    + apply retained_fresh in Hx. cbn [fst] in Hx.
      apply key_eqb_sym in Hk. unfold same_group in Hk. congruence.
    + exact (IH _ _ _ Hx Hy Hk Hnd).
Qed.

(** Every row whose key is not seen yet has a retained row of its group
    that was created no later. *)
Lemma retained_earliest (l : list ScanResult.row) :
  StronglySorted (fun a b => created_leb a b = true) l ->
  forall seen x, In x l -> Service.contains seen (key x) = false ->
    exists y, In y (retained round2 l seen) /\ keq y x /\
              (ScanResult.created_at y <= ScanResult.created_at x)%Z.
Proof.
  induction l as [|r t IH]; intros Hs seen x Hx Hc; [destruct Hx|].
  apply StronglySorted_inv in Hs. destruct Hs as [Ht Hr].
  cbn [retained].
  destruct (Service.contains seen (key r)) eqn:E.
  - destruct Hx as [->|Hx]; [congruence|]. exact (IH Ht seen x Hx Hc).
  - destruct Hx as [->|Hx].
    + exists x. split; [left; reflexivity|]. split; [apply key_eqb_refl|lia].
    + destruct (Service.key_eqb (key r) (key x)) eqn:Ek.
      * exists r. split; [left; reflexivity|]. split; [exact Ek|].
        rewrite List.Forall_forall in Hr. specialize (Hr x Hx).
        unfold created_leb in Hr. apply Z.leb_le in Hr. exact Hr.
      * destruct (IH Ht (seen ++ [(key r, ScanResult.id r)]) x Hx)
          as [y [Hy [Hk Hle]]].
        { rewrite contains_app. cbn [fst]. rewrite Hc, Ek. reflexivity. }
        exists y. split; [right; exact Hy|]. split; assumption.
Qed.
End PurgeFacts.

Lemma same_id_same_row (rows : list ScanResult.row) (x y : ScanResult.row) :
  List.NoDup (List.map ScanResult.id rows) ->
  In x rows -> In y rows -> ScanResult.id x = ScanResult.id y -> x = y.
Proof.
  induction rows as [|r t IH]; intros Hnd Hx Hy Hid; [destruct Hx|].
  cbn [List.map] in Hnd. apply List.NoDup_cons_iff in Hnd.
  destruct Hnd as [Hr Hnd].
  destruct Hx as [<-|Hx], Hy as [<-|Hy].
  - reflexivity.
  - exfalso. apply Hr. rewrite Hid. apply in_map. exact Hy.
  - exfalso. apply Hr. rewrite <- Hid. apply in_map. exact Hx.
  - exact (IH Hnd Hx Hy Hid).
Qed.

Lemma delete_ids_in (ids : list Z) (rows : list ScanResult.row) (r : ScanResult.row) :
  In r (Service.delete_ids ids rows) <-> In r rows /\ ~ In (ScanResult.id r) ids.
Proof.
  unfold Service.delete_ids. rewrite filter_In, negb_true_iff.
  split; intros [Hin H]; (split; [exact Hin|]).
  - intros Hid. assert (E : existsb (Z.eqb (ScanResult.id r)) ids = true).
    { apply existsb_exists. exists (ScanResult.id r). split; [exact Hid|apply Z.eqb_refl]. }
    congruence.
  - destruct (existsb (Z.eqb (ScanResult.id r)) ids) eqn:E; [|reflexivity].
    apply existsb_exists in E. destruct E as [i [Hi Heq]].
    apply Z.eqb_eq in Heq. subst i. contradiction.
Qed.

Lemma filter_split_length {A : Type} (f : A -> bool) (l : list A) :
  List.length l
  = (List.length (List.filter (fun x => negb (f x)) l)
     + List.length (List.filter f l))%nat.
Proof.
  induction l as [|x t IH]; [reflexivity|].
  cbn [List.filter]. destruct (f x); cbn [negb List.length]; lia.
Qed.

Lemma purge_store (round2 : Q -> Q) (all_signals : list ScanResult.row)
      (db : Service.Database) :
  Service.purge round2 all_signals db
  = (len (Service.mark_duplicates round2 all_signals [] []),
     {| Service.watchlist_items := Service.watchlist_items db;
        Service.scan_results :=
          Service.delete_ids (Service.mark_duplicates round2 all_signals [] [])
            (Service.scan_results db);
        Service.scan_executions := Service.scan_executions db |}).
Proof.
  unfold Service.purge.
  destruct (Service.mark_duplicates round2 all_signals [] []) as [|i ids] eqn:E;
    [|reflexivity].
  destruct db as [w rows e]. cbn. f_equal. f_equal.
  unfold Service.delete_ids. cbn [existsb negb].
  induction rows as [|r t IH]; [reflexivity|]. cbn [List.filter]. congruence.
Qed.

(** The purge after any query result [S] that lists the rows of the user,
    each once, by ascending creation time; rows created at the same time may
    come in any order. *)
Lemma purge_keeps_earliest (round2 : Q -> Q) (db : Service.Database)
      (user_id : Z) (S : list ScanResult.row) :
  List.NoDup (List.map ScanResult.id (Service.scan_results db)) ->
  (forall x, In x S <->
             In x (Service.scan_results db) /\ ScanResult.user_id x = user_id) ->
  List.NoDup S ->
  StronglySorted (fun a b => created_leb a b = true) S ->
  let count := fst (Service.purge round2 S db) in
  let db' := snd (Service.purge round2 S db) in
  (exists keep, Service.scan_results db'
                = List.filter keep (Service.scan_results db)) /\
  (forall r, In r (Service.scan_results db) -> ScanResult.user_id r <> user_id ->
             In r (Service.scan_results db')) /\
  (forall r, In r (Service.scan_results db) -> ScanResult.user_id r = user_id ->
     exists kept,
       In kept (Service.scan_results db') /\
       ScanResult.user_id kept = user_id /\
       same_group round2 kept r /\
       (forall x, In x (Service.scan_results db) ->
                  ScanResult.user_id x = user_id -> same_group round2 x r ->
                  (ScanResult.created_at kept <= ScanResult.created_at x)%Z) /\
       (forall x, In x (Service.scan_results db') ->
                  ScanResult.user_id x = user_id -> same_group round2 x r ->
                  x = kept)) /\
  count = (len (Service.scan_results db) - len (Service.scan_results db'))%Z /\
  Service.watchlist_items db' = Service.watchlist_items db /\
  Service.scan_executions db' = Service.scan_executions db.
Proof.
  intros Hids HS HndS Hsorted.
  rewrite purge_store. cbn [fst snd Service.scan_results Service.watchlist_items
                             Service.scan_executions].
  rewrite mark_duplicates_dropped. cbn [app].
  set (rows := Service.scan_results db) in *.
  set (D := List.map ScanResult.id (dropped round2 S [])).
  assert (Hrows : List.NoDup rows) by (exact (List.NoDup_map_inv _ _ Hids)).
  assert (Hsplit : List.NoDup (retained round2 S [] ++ dropped round2 S []))
    by (exact (Permutation_NoDup (split_perm round2 S []) HndS)).
  assert (HD : forall x, In x rows ->
                         (In (ScanResult.id x) D <-> In x (dropped round2 S []))).
  { intros x Hx. unfold D. split.
    - intros Hid. apply in_map_iff in Hid. destruct Hid as [y [Hid Hy]].
      assert (Hy' : In y rows) by (apply HS; apply (dropped_in round2 S [] y Hy)).
      rewrite <- (same_id_same_row rows y x Hids Hy' Hx Hid). exact Hy.
    - intros Hd. apply in_map. exact Hd. }
  assert (Hdisj : forall x, In x (retained round2 S []) ->
                            ~ In x (dropped round2 S [])).
  { intros x Hr Hd. apply List.NoDup_app_remove_l in Hsplit as Hnd.
    destruct (in_split _ _ Hr) as [l1 [l2 El]]. rewrite El in Hsplit.
    rewrite <- app_assoc in Hsplit. apply List.NoDup_remove_2 in Hsplit.
    apply Hsplit. apply in_or_app. right. apply in_or_app. right. exact Hd. }
  split; [eexists; reflexivity|]. split; [|split; [|split; [|split; reflexivity]]].
  - intros r Hr Hu. apply delete_ids_in. split; [exact Hr|].
    intros Hid. apply (HD r Hr) in Hid. apply dropped_in in Hid.
    apply HS in Hid. destruct Hid as [_ Hid]. contradiction.
  - intros r Hr Hu.
    assert (HrS : In r S) by (apply HS; split; assumption).
    destruct (retained_earliest round2 S Hsorted [] r HrS eq_refl)
      as [kept [Hk [Hg Hle]]].
    assert (HkS : In kept S) by (exact (retained_in round2 S [] kept Hk)).
    pose proof (proj1 (HS kept) HkS) as [Hkrows Hku].
    exists kept. split; [|split; [exact Hku|split; [exact Hg|split]]].
    + apply delete_ids_in. split; [exact Hkrows|].
      intros Hid. apply (HD kept Hkrows) in Hid. exact (Hdisj kept Hk Hid).
    + intros x Hx Hxu Hxg.
      assert (HxS : In x S) by (apply HS; split; assumption).
      destruct (retained_earliest round2 S Hsorted [] x HxS eq_refl)
        as [y [Hy [Hyg Hyle]]].
      assert (Hyk : y = kept).
      { apply (retained_unique round2 S [] y kept Hy Hk); [|exact HndS].
        unfold same_group in *.
        apply (key_eqb_trans _ _ _ Hyg).
        apply (key_eqb_trans _ _ _ Hxg). apply key_eqb_sym. exact Hg. }
      subst y. exact Hyle.
    + intros x Hx Hxu Hxg. apply delete_ids_in in Hx. destruct Hx as [Hx Hnid].
      assert (HxS : In x S) by (apply HS; split; assumption).
      apply (Permutation_in _ (split_perm round2 S [])) in HxS.
      apply in_app_or in HxS. destruct HxS as [Hxr|Hxd].
      * apply (retained_unique round2 S [] x kept Hxr Hk); [|exact HndS].
        unfold same_group in *.
        apply (key_eqb_trans _ _ _ Hxg). apply key_eqb_sym. exact Hg.
      * exfalso. apply Hnid. apply (HD x Hx). exact Hxd.
  - unfold Service.delete_ids.
    pose proof (filter_split_length
                  (fun r => existsb (Z.eqb (ScanResult.id r)) D) rows) as Hlen.
    assert (Hsame : List.length (List.filter
                      (fun r => existsb (Z.eqb (ScanResult.id r)) D) rows)
                    = List.length D).
    { unfold D at 2. rewrite length_map. apply Permutation_length.
      apply Permutation.NoDup_Permutation.
      - apply List.NoDup_filter. exact Hrows.
      - exact (List.NoDup_app_remove_l _ _ Hsplit).
      - intros x. rewrite filter_In, existsb_exists. split.
        + intros [Hx [i [Hi Heq]]]. apply Z.eqb_eq in Heq. subst i.
          apply (HD x Hx). exact Hi.
        + intros Hd. assert (Hx : In x rows)
            by (apply HS; exact (dropped_in round2 S [] x Hd)).
          split; [exact Hx|]. exists (ScanResult.id x).
          split; [apply (HD x Hx); exact Hd|apply Z.eqb_refl]. }
    unfold len. lia.
Qed.

(** C6. With unique row ids, [clear_duplicate_signals] keeps a selection of
    the stored rows: every row of another user stays; for every group
    (symbol, timeframe, pattern_type, round(level_price, 2)) of the user
    exactly one row remains, and it is a row of the group with the least
    creation time; no time window is involved.  The number returned is the
    number of rows deleted, and the other tables are untouched. *)
Theorem clear_duplicate_signals_keeps_earliest (round2 : Q -> Q)
        (db : Service.Database) (user_id : Z) :
  List.NoDup (List.map ScanResult.id (Service.scan_results db)) ->
  let count := fst (Service.clear_duplicate_signals round2 db user_id) in
  let db' := snd (Service.clear_duplicate_signals round2 db user_id) in
  (exists keep, Service.scan_results db'
                = List.filter keep (Service.scan_results db)) /\
  (forall r, In r (Service.scan_results db) -> ScanResult.user_id r <> user_id ->
             In r (Service.scan_results db')) /\
  (forall r, In r (Service.scan_results db) -> ScanResult.user_id r = user_id ->
     exists kept,
       In kept (Service.scan_results db') /\
       ScanResult.user_id kept = user_id /\
       same_group round2 kept r /\
       (forall x, In x (Service.scan_results db) ->
                  ScanResult.user_id x = user_id -> same_group round2 x r ->
                  (ScanResult.created_at kept <= ScanResult.created_at x)%Z) /\
       (forall x, In x (Service.scan_results db') ->
                  ScanResult.user_id x = user_id -> same_group round2 x r ->
                  x = kept)) /\
  count = (len (Service.scan_results db) - len (Service.scan_results db'))%Z /\
  Service.watchlist_items db' = Service.watchlist_items db /\
  Service.scan_executions db' = Service.scan_executions db.
Proof.
  intros Hids. unfold Service.clear_duplicate_signals.
  assert (Hrows : List.NoDup (Service.scan_results db))
    by (exact (List.NoDup_map_inv _ _ Hids)).
  apply purge_keeps_earliest.
  - exact Hids.
  - intros x. unfold Service.signals_of_user. split.
    + intros Hx. apply (Permutation_in _ (sort_by_perm _ _)) in Hx.
      apply filter_In in Hx. destruct Hx as [Hx Hu]. apply Z.eqb_eq in Hu.
      split; assumption.
    + intros [Hx Hu].
      apply (Permutation_in _ (Permutation_sym (sort_by_perm _ _))).
      apply filter_In. split; [exact Hx|]. apply Z.eqb_eq. exact Hu.
  - unfold Service.signals_of_user.
    apply (Permutation_NoDup (Permutation_sym (sort_by_perm _ _))).
    apply List.NoDup_filter. exact Hrows.
  - unfold Service.signals_of_user. apply (sort_by_sorted created_leb).
    + intros a b H. apply Z.leb_gt in H. apply Z.leb_le. lia.
    + intros a b c H1 H2. apply Z.leb_le in H1, H2. apply Z.leb_le. lia.
Qed.

Lemma clear_duplicate_signals_keeps_earliest_witness :
  List.NoDup (List.map ScanResult.id (Service.scan_results Examples.db_duplicates)) /\
  fst (Service.clear_duplicate_signals Service.round2_half_even Examples.db_duplicates 7)
  = (len (Service.scan_results Examples.db_duplicates)
     - len (Service.scan_results
              (snd (Service.clear_duplicate_signals Service.round2_half_even
                      Examples.db_duplicates 7))))%Z.
Proof.
  assert (Hids : List.NoDup
                   (List.map ScanResult.id
                      (Service.scan_results Examples.db_duplicates))).
  { cbn. repeat constructor; cbn; intuition discriminate. }
  split; [exact Hids|].
  apply (clear_duplicate_signals_keeps_earliest Service.round2_half_even
           Examples.db_duplicates 7 Hids).
Defined.

(** On [db_duplicates] the row created at 5 goes and the one created at 3
    stays. *)
Example clear_duplicate_signals_run :
  Service.clear_duplicate_signals Service.round2_half_even Examples.db_duplicates 7
  = (1%Z, Examples.db_of [Examples.stored_signal 2 3 100.004;
                          Examples.stored_signal 3 4 250]).
Proof. vm_compute. reflexivity. Qed.


(** *** Clustering *)






Lemma getitem_nat {A : Type} (l : list A) (j : nat) (d : A) :
  (j < List.length l)%nat -> getitem l (Z.of_nat j) = Ok (nth j l d).
Proof.
  intros H. rewrite (getitem_inbounds l (Z.of_nat j) d) by (unfold len; lia).
  rewrite Nat2Z.id. reflexivity.
Qed.


Section Recluster.
Variable self : BreakRetestDetector.
Variable cs : list Q.
Variable ts : list Z.
Hypothesis Htol : (level_tolerance_pct self == 0)%Q.
Hypothesis Hpos : forall p, In p cs -> (0 < p)%Q.
Hypothesis Hasc : StronglySorted Qlt cs.
Hypothesis Hts : List.length ts = List.length cs.



End Recluster.







Lemma Qsum_between (lo hi : Q) (l : list Q) :
  (forall m, In m l -> (lo <= m)%Q /\ (m <= hi)%Q) ->
  (lo * inject_Z (len l) <= Qsum l)%Q /\ (Qsum l <= hi * inject_Z (len l))%Q.
Proof.
  induction l as [|x t IH]; intros H.
  - unfold len. cbn [List.length Qsum fold_right].
    change (inject_Z (Z.of_nat 0)) with 0%Q. split; lra.
  - destruct (H x (or_introl eq_refl)) as [H1 H2].
    destruct IH as [IH1 IH2]; [intros m Hm; apply H; right; exact Hm|].
    unfold len in *. cbn [List.length Qsum fold_right].
    rewrite Nat2Z.inj_succ, <- Z.add_1_r, inject_Z_plus.
    unfold Qsum in IH1, IH2. change (inject_Z 1) with 1%Q. split; lra.
Qed.

Lemma len_pos {A : Type} (l : list A) : l <> [] -> (0 < inject_Z (len l))%Q.
Proof.
  intros H. destruct l; [congruence|]. unfold len. cbn [List.length].
  change 0%Q with (inject_Z 0). rewrite <- Zlt_Qlt. lia.
Qed.



Lemma mean_between (lo hi : Q) (l : list Q) (avg : Q) :
  mean l = Some avg -> (forall m, In m l -> (lo <= m)%Q /\ (m <= hi)%Q) ->
  (lo <= avg)%Q /\ (avg <= hi)%Q.
Proof.
  intros Hm H. destruct l as [|x t]; [discriminate|].
  injection Hm as <-. destruct (Qsum_between lo hi (x :: t) H) as [H1 H2].
  split.
  - apply Qle_shift_div_l; [apply len_pos; discriminate|exact H1].
  - apply Qle_shift_div_r; [apply len_pos; discriminate|exact H2].
Qed.

Lemma nth_update {A : Type} (l : list A) (j k : nat) (v d : A) :
  nth k (update l j v) d
  = if Nat.eqb j k then (if Nat.ltb j (List.length l) then v else d)
    else nth k l d.
Proof.
  revert j k. induction l as [|h t IH]; intros j k.
  - destruct j, k; cbn; try reflexivity. destruct (Nat.eqb j k); reflexivity.
  - destruct j, k; cbn [update nth List.length]; try reflexivity.
    rewrite IH. destruct (Nat.eqb (S j) (S k)) eqn:E; cbn in E; rewrite E; reflexivity.
Qed.

Lemma update_keeps_true (l : list bool) (j k : nat) :
  nth k l false = true -> nth k (update l j true) false = true.
Proof.
  intros H. rewrite nth_update. destruct (Nat.eqb j k) eqn:E; [|exact H].
  apply Nat.eqb_eq in E. subst k.
  destruct (Nat.ltb_spec j (List.length l)) as [Hl|Hl]; [reflexivity|].
  rewrite nth_overflow in H by exact Hl. discriminate.
Qed.




Section ClusterInvariant.
Variable self : BreakRetestDetector.
Variable ps : list Q.
Variable ts : list Z.
Hypothesis Hpos : forall p, In p ps -> (0 < p)%Q.
Hypothesis Htol : (0 <= level_tolerance_pct self)%Q.

Abbreviation tol := (level_tolerance_pct self).
Abbreviation n := (List.length ps).




End ClusterInvariant.










(** Why the amended statement asks for a non-negative tolerance and positive
    prices.  Under a negative tolerance two equal prices stay two levels, and
    zero tolerance then merges their centroids into one; a negative seed
    price makes every relative distance non-positive, so its cluster takes
    every later centroid. *)
Example recluster_outside_hypotheses :
  List.map price
    match cluster_levels Examples.detector_negative_tolerance
            [100; 100]%Q [1; 2]%Z with
    | Ok levels => levels
    | Raise _ => []
    end = [100; 100]%Q /\
  List.map strength
    match cluster_levels (zero_tolerance Examples.detector_negative_tolerance)
            [100; 100]%Q [1; 2]%Z with
    | Ok levels => levels
    | Raise _ => []
    end = [2%Z] /\
  List.map price
    match cluster_levels (with_min_touches 1 config_medium)
            [100; -100; -200]%Q [1; 2; 3]%Z with
    | Ok levels => levels
    | Raise _ => []
    end = [-300 # 2; 100]%Q /\
  List.map strength
    match cluster_levels (zero_tolerance (with_min_touches 1 config_medium))
            [-300 # 2; 100]%Q [1; 2]%Z with
    | Ok levels => levels
    | Raise _ => []
    end = [2%Z].
Proof. repeat split; vm_compute; reflexivity. Qed.

(** ** Further properties of the detector *)

(** *** The shape of the levels *)

Lemma count_used_update (flags : list bool) (j : nat) :
  (j < List.length flags)%nat -> nth j flags false = false ->
  count_used (update flags j true) = S (count_used flags).
Proof.
  revert j. induction flags as [|b t IH]; intros j Hj Hn; [cbn in Hj; lia|].
  destruct j as [|j].
  - cbn in Hn. subst b. reflexivity.
  - cbn [update]. cbn [nth] in Hn. cbn [List.length] in Hj.
    unfold count_used in *. cbn [List.filter].
    destruct b; cbn [List.length]; rewrite IH by (assumption || lia); reflexivity.
Qed.

Lemma count_used_le (flags : list bool) :
  (count_used flags <= List.length flags)%nat.
Proof. unfold count_used. apply filter_length_le. Qed.

Lemma min_time_spec (t0 : Z) (ts : list Z) :
  In (min_time t0 ts) (t0 :: ts) /\ (min_time t0 ts <= t0)%Z.
Proof.
  unfold min_time. revert t0. induction ts as [|t ts IH]; intros t0.
  - cbn. split; [left; reflexivity|lia].
  - cbn [fold_left]. destruct (IH (Z.min t0 t)) as [Hin Hle]. split; [|lia].
    destruct Hin as [Hin|Hin]; [|right; right; exact Hin].
    rewrite <- Hin. destruct (Z.min_spec t0 t) as [[_ ->]|[_ ->]];
      [left; reflexivity|right; left; reflexivity].
Qed.

Lemma max_time_spec (t0 : Z) (ts : list Z) :
  In (max_time t0 ts) (t0 :: ts) /\ (t0 <= max_time t0 ts)%Z.
Proof.
  unfold max_time. revert t0. induction ts as [|t ts IH]; intros t0.
  - cbn. split; [left; reflexivity|lia].
  - cbn [fold_left]. destruct (IH (Z.max t0 t)) as [Hin Hle]. split; [|lia].
    destruct Hin as [Hin|Hin]; [|right; right; exact Hin].
    rewrite <- Hin. destruct (Z.max_spec t0 t) as [[_ ->]|[_ ->]];
      [right; left; reflexivity|left; reflexivity].
Qed.

Lemma least_member (l : list Q) :
  l <> [] -> exists lo, In lo l /\ forall m, In m l -> (lo <= m)%Q.
Proof.
  induction l as [|x t IH]; intros Hne; [congruence|].
  destruct t as [|y t'].
  - exists x. split; [left; reflexivity|]. intros m [<-|[]]. apply Qle_refl.
  - destruct IH as [lo [Hin Hlo]]; [discriminate|].
    destruct (Qlt_le_dec x lo) as [H|H].
    + exists x. split; [left; reflexivity|]. intros m [<-|Hm]; [apply Qle_refl|].
      apply Qlt_le_weak. apply (Qlt_le_trans _ lo); [exact H|apply Hlo; exact Hm].
    + exists lo. split; [right; exact Hin|]. intros m [<-|Hm]; [exact H|].
      apply Hlo. exact Hm.
Qed.

Lemma greatest_member (l : list Q) :
  l <> [] -> exists hi, In hi l /\ forall m, In m l -> (m <= hi)%Q.
Proof.
  induction l as [|x t IH]; intros Hne; [congruence|].
  destruct t as [|y t'].
  - exists x. split; [left; reflexivity|]. intros m [<-|[]]. apply Qle_refl.
  - destruct IH as [hi [Hin Hhi]]; [discriminate|].
    destruct (Qlt_le_dec hi x) as [H|H].
    + exists x. split; [left; reflexivity|]. intros m [<-|Hm]; [apply Qle_refl|].
      apply Qlt_le_weak. apply (Qle_lt_trans _ hi); [apply Hhi; exact Hm|exact H].
    + exists hi. split; [right; exact Hin|]. intros m [<-|Hm]; [exact H|].
      apply Hhi. exact Hm.
Qed.

Lemma getitem_nat_in {A : Type} (l : list A) (j : nat) (x : A) :
  getitem l (Z.of_nat j) = Ok x -> In x l.
Proof.
  unfold getitem. destruct (Z.of_nat j <? 0)%Z eqn:E; [apply Z.ltb_lt in E; lia|].
  rewrite E, Nat2Z.id. destruct (nth_error l j) eqn:En; [|discriminate].
  intros H. injection H as <-. exact (nth_error_In _ _ En).
Qed.

Section ClusterShape.
Variable self : BreakRetestDetector.
Variable ps : list Q.
Variable ts : list Z.

(** One pass of the inner loop only appends members, each a price and a
    timestamp of the input, and sets one flag per member. *)
Lemma absorb_shape (p : Q) :
  forall js c c',
    absorb self ps ts p js c = Ok c' ->
    (forall j, In j js -> (j < List.length (used c))%nat) ->
    List.length (used c') = List.length (used c) /\
    exists more_p more_t,
      cluster_prices c' = cluster_prices c ++ more_p /\
      cluster_times c' = cluster_times c ++ more_t /\
      (forall m, In m more_p -> In m ps) /\
      (forall t, In t more_t -> In t ts) /\
      count_used (used c') = (count_used (used c) + List.length more_p)%nat.
Proof using Type.
  induction js as [|j js IH]; intros c c' Hrun Hjs.
  - cbn in Hrun. injection Hrun as <-. split; [reflexivity|].
    exists [], []. rewrite !app_nil_r. repeat split; try (intros ? []). cbn. lia.
  - assert (Hj : (j < List.length (used c))%nat) by (apply Hjs; left; reflexivity).
    assert (Hjs' : forall j', In j' js -> (j' < List.length (used c))%nat)
      by (intros j' H'; apply Hjs; right; exact H').
    cbn [absorb] in Hrun.
    destruct (nth j (used c) false) eqn:Eu; [exact (IH c c' Hrun Hjs')|].
    destruct (getitem ps (Z.of_nat j)) as [pj|e] eqn:Epj; [|discriminate].
    cbn [bind] in Hrun.
    destruct (diff_pct pj p) as [d|e]; [|discriminate]. cbn [bind] in Hrun.
    destruct (Qle_bool d (level_tolerance_pct self));
      [|exact (IH c c' Hrun Hjs')].
    destruct (getitem ts (Z.of_nat j)) as [tj|e] eqn:Etj; [|discriminate].
    cbn [bind] in Hrun. apply IH in Hrun.
    + cbn [used cluster_prices cluster_times] in Hrun.
      rewrite update_length in Hrun.
      destruct Hrun as [Hlen [mp [mt [Hp [Ht [Hinp [Hint Hcount]]]]]]].
      split; [exact Hlen|]. exists (pj :: mp), (tj :: mt).
      rewrite <- !app_assoc in Hp, Ht. cbn [app] in Hp, Ht.
      split; [exact Hp|]. split; [exact Ht|]. split; [|split].
      * intros m [<-|Hm]; [exact (getitem_nat_in _ _ _ Epj)|apply Hinp; exact Hm].
      * intros t [<-|Hm]; [exact (getitem_nat_in _ _ _ Etj)|apply Hint; exact Hm].
      * rewrite Hcount, count_used_update by assumption. cbn [List.length]. lia.
    + cbn [used]. rewrite update_length. exact Hjs'.
Qed.

Lemma cluster_loop_shape :
  forall k i used0 levels out,
    (i + k = List.length ps)%nat ->
    cluster_loop self ps ts (seq i k) used0 levels = Ok out ->
    List.length used0 = List.length ps ->
    (forall L, In L levels -> well_formed_level self ps ts L) ->
    (total_strength levels <= Z.of_nat (count_used used0))%Z ->
    (forall L, In L out -> well_formed_level self ps ts L) /\
    (total_strength out <= len ps)%Z.
Proof using Type.
  induction k as [|k IH]; intros i used0 levels out Hik Hrun Hlen Hwf Hsum.
  - cbn in Hrun. injection Hrun as <-. split; [exact Hwf|].
    pose proof (count_used_le used0). unfold len. lia.
  - cbn [seq cluster_loop] in Hrun.
    destruct (nth i used0 false) eqn:Eu.
    + apply (IH (S i) used0 levels out); try assumption. lia.
    + destruct (getitem ps (Z.of_nat i)) as [p|e] eqn:Ep; [|discriminate].
      cbn [bind] in Hrun.
      destruct (getitem ts (Z.of_nat i)) as [ti|e] eqn:Eti; [|discriminate].
      cbn [bind] in Hrun.
      destruct (absorb self ps ts p _ _) as [c'|e] eqn:Eabs; [|discriminate].
      cbn [bind] in Hrun.
      apply absorb_shape in Eabs;
        [|cbn [used]; rewrite update_length; intros j Hj; apply in_seq in Hj; lia].
      cbn [used cluster_prices cluster_times] in Eabs.
      rewrite update_length in Eabs.
      destruct Eabs as [Hlen' [mp [mt [Hp [Ht [Hinp [Hint Hcount]]]]]]].
      rewrite count_used_update in Hcount by (assumption || lia).
      assert (Hskip : forall out',
                cluster_loop self ps ts (seq (S i) k) (used c') levels = Ok out' ->
                (forall L, In L out' -> well_formed_level self ps ts L) /\
                (total_strength out' <= len ps)%Z).
      { intros out' Hrun'. apply (IH (S i) (used c') levels out');
          try assumption; lia. }
      destruct (min_touches self <=? len (cluster_prices c'))%Z eqn:Emin;
        [|exact (Hskip out Hrun)].
      destruct (mean (cluster_prices c')) as [avg|] eqn:Eavg;
        [|exact (Hskip out Hrun)].
      assert (Hlen'' : List.length (used c') = List.length ps) by lia.
      apply (IH (S i) (used c') _ out ltac:(lia) Hrun Hlen'').
      * intros L HL. apply in_app_or in HL. destruct HL as [HL|[<-|[]]];
          [apply Hwf; exact HL|].
        assert (Hmem : forall m, In m (cluster_prices c') -> In m ps).
        { intros m Hm. rewrite Hp in Hm. destruct Hm as [<-|Hm];
            [exact (getitem_nat_in _ _ _ Ep)|apply Hinp; exact Hm]. }
        assert (Htimes : forall t, In t (ti :: cluster_times c') -> In t ts).
        { intros t [<-|Hm]; [exact (getitem_nat_in _ _ _ Eti)|].
          rewrite Ht in Hm. destruct Hm as [<-|Hm];
            [exact (getitem_nat_in _ _ _ Eti)|apply Hint; exact Hm]. }
        unfold well_formed_level.
        cbn [price strength first_touch last_touch is_broken break_direction
               break_time].
        apply Z.leb_le in Emin.
        split; [rewrite Hp; unfold len; rewrite length_app; cbn [List.length]; lia|].
        split; [exact Emin|].
        destruct (min_time_spec ti (cluster_times c')) as [Hmin1 Hmin2].
        destruct (max_time_spec ti (cluster_times c')) as [Hmax1 Hmax2].
        split; [lia|]. split; [apply Htimes; exact Hmin1|].
        split; [apply Htimes; exact Hmax1|].
        split; [|repeat split].
        assert (Hne : cluster_prices c' <> []) by (rewrite Hp; discriminate).
        destruct (least_member _ Hne) as [lo [Hlo1 Hlo2]].
        destruct (greatest_member _ Hne) as [hi [Hhi1 Hhi2]].
        exists lo, hi. split; [apply Hmem; exact Hlo1|].
        split; [apply Hmem; exact Hhi1|].
        apply (mean_between lo hi _ _ Eavg). intros m Hm.
        split; [apply Hlo2|apply Hhi2]; exact Hm.
      * assert (E : forall L, total_strength (levels ++ [L])
                              = (total_strength levels + strength L)%Z).
        { clear. intros L. induction levels as [|L0 t IHl]; cbn; [lia|].
          unfold total_strength in IHl. rewrite IHl. lia. }
        rewrite E. cbn [strength]. rewrite Hcount, Hp. unfold len.
        rewrite length_app. cbn [List.length]. lia.
Qed.
End ClusterShape.

Lemma total_strength_perm (l l' : list Level) :
  Permutation l l' -> total_strength l = total_strength l'.
Proof.
  induction 1 as [|x l l' _ IH|x y l|l l' l'' _ IH1 _ IH2];
    unfold total_strength in *; cbn [fold_right]; lia.
Qed.

Lemma cluster_levels_shape (self : BreakRetestDetector)
      (prices : list Q) (timestamps : list Z) (levels : list Level) :
  cluster_levels self prices timestamps = Ok levels ->
  (forall L, In L levels -> well_formed_level self prices timestamps L) /\
  (total_strength levels <= len prices)%Z.
Proof.
  intros Hrun. unfold cluster_levels in Hrun. destruct prices as [|p ps] eqn:Eps.
  - injection Hrun as <-. split; [intros L []|].
    unfold len, total_strength. cbn [fold_right List.length]. lia.
  - rewrite <- Eps in *. clear Eps.
    destruct (cluster_loop _ _ _ _ _ _) as [out|e] eqn:Eloop; cbn [bind] in Hrun;
      [|discriminate].
    injection Hrun as <-.
    apply (cluster_loop_shape self prices timestamps (List.length prices) 0 _ [] out)
      in Eloop.
    + destruct Eloop as [Hwf Hsum].
      assert (Hperm : Permutation (sorted price out) out)
        by (apply (sort_by_perm price_leb)).
      split.
      * intros L HL. apply Hwf. exact (Permutation_in _ Hperm HL).
      * rewrite (total_strength_perm _ _ Hperm). exact Hsum.
    + lia.
    + apply repeat_length.
    + intros L [].
    + unfold total_strength, count_used. cbn [fold_right]. lia.
Qed.





Section ClusterTotal.
Variable self : BreakRetestDetector.
Variable ps : list Q.
Variable ts : list Z.
Hypothesis Hnz : forall p, In p ps -> ~ (p == 0)%Q.
Hypothesis Hts : (List.length ps <= List.length ts)%nat.

Lemma absorb_total (p : Q) :
  ~ (p == 0)%Q ->
  forall js c, (forall j, In j js -> (j < List.length ps)%nat) ->
               exists c', absorb self ps ts p js c = Ok c'.
Proof using All.
  intros Hp. induction js as [|j js IH]; intros c Hjs; [eexists; reflexivity|].
  assert (Hj : (j < List.length ps)%nat) by (apply Hjs; left; reflexivity).
  assert (Hjs' : forall j', In j' js -> (j' < List.length ps)%nat)
    by (intros j' H'; apply Hjs; right; exact H').
  cbn [absorb]. destruct (nth j (used c) false); [apply IH; exact Hjs'|].
  rewrite (getitem_nat ps j 0%Q Hj). cbn [bind]. unfold diff_pct.
  destruct (Qeq_bool p 0) eqn:E; [apply Qeq_bool_iff in E; contradiction|].
  cbn [bind]. destruct (Qle_bool _ _); [|apply IH; exact Hjs'].
  rewrite (getitem_nat ts j 0%Z) by lia. cbn [bind]. apply IH. exact Hjs'.
Qed.

Lemma cluster_loop_total :
  forall k i used0 levels,
    (i + k = List.length ps)%nat ->
    exists out, cluster_loop self ps ts (seq i k) used0 levels = Ok out.
Proof using All.
  induction k as [|k IH]; intros i used0 levels Hik; [eexists; reflexivity|].
  cbn [seq cluster_loop]. destruct (nth i used0 false); [apply IH; lia|].
  rewrite (getitem_nat ps i 0%Q) by lia. cbn [bind].
  rewrite (getitem_nat ts i 0%Z) by lia. cbn [bind].
  destruct (absorb_total (nth i ps 0%Q)
              ltac:(apply Hnz; apply nth_In; lia)
              (seq (i + 1) (List.length ps - (i + 1)))
              {| used := update used0 i true; cluster_prices := [nth i ps 0%Q];
                 cluster_times := [nth i ts 0%Z] |}) as [c' Hc'].
  { intros j Hj. apply in_seq in Hj. lia. }
  rewrite Hc'. cbn [bind].
  destruct (min_touches self <=? len (cluster_prices c'))%Z; [|apply IH; lia].
  destruct (mean (cluster_prices c')); apply IH; lia.
Qed.
End ClusterTotal.

(** With no zero price and a timestamp for every price the clustering
    returns. *)
Lemma cluster_levels_total (self : BreakRetestDetector) (prices : list Q)
        (timestamps : list Z) :
  (forall p, In p prices -> ~ (p == 0)%Q) ->
  (List.length prices <= List.length timestamps)%nat ->
  exists levels, cluster_levels self prices timestamps = Ok levels.
Proof.
  intros Hnz Hts. unfold cluster_levels. destruct prices as [|p ps] eqn:E.
  - eexists. reflexivity.
  - rewrite <- E in *. clear E.
    destruct (cluster_loop_total self prices timestamps Hnz Hts
                (List.length prices) 0 (repeat false (List.length prices)) []
                eq_refl) as [out Hout].
    rewrite Hout. cbn [bind]. eexists. reflexivity.
Qed.

Lemma getitem_nat_bound {A : Type} (l : list A) (j : nat) (x : A) :
  getitem l (Z.of_nat j) = Ok x -> (j < List.length l)%nat.
Proof.
  unfold getitem. destruct (Z.of_nat j <? 0)%Z eqn:E; [apply Z.ltb_lt in E; lia|].
  rewrite E, Nat2Z.id. destruct (nth_error l j) eqn:En; [|discriminate].
  intros _. apply nth_error_Some. congruence.
Qed.

Lemma getitem_raises {A : Type} (l : list A) (i : Z) (e : exn) :
  getitem l i = Raise e -> e = IndexError.
Proof.
  unfold getitem. destruct (_ <? 0)%Z; [congruence|].
  destruct (nth_error l _); congruence.
Qed.

Section ClusterTimestamps.
Variable self : BreakRetestDetector.
Variable ps : list Q.
Variable ts : list Z.
Hypothesis Hnz : forall p, In p ps -> ~ (p == 0)%Q.

Lemma absorb_only_index_error (p : Q) :
  ~ (p == 0)%Q ->
  forall js c e, absorb self ps ts p js c = Raise e -> e = IndexError.
Proof using Type.
  intros Hp. induction js as [|j js IH]; intros c e Hrun; [discriminate|].
  cbn [absorb] in Hrun. destruct (nth j (used c) false); [exact (IH _ _ Hrun)|].
  destruct (getitem ps (Z.of_nat j)) as [pj|e'] eqn:Epj;
    [|cbn in Hrun; injection Hrun as <-; exact (getitem_raises _ _ _ Epj)].
  cbn [bind] in Hrun. unfold diff_pct in Hrun.
  destruct (Qeq_bool p 0) eqn:E; [apply Qeq_bool_iff in E; contradiction|].
  cbn [bind] in Hrun. destruct (Qle_bool _ _); [|exact (IH _ _ Hrun)].
  destruct (getitem ts (Z.of_nat j)) as [tj|e'] eqn:Etj;
    [|cbn in Hrun; injection Hrun as <-; exact (getitem_raises _ _ _ Etj)].
  cbn [bind] in Hrun. exact (IH _ _ Hrun).
Qed.

Lemma cluster_loop_only_index_error :
  forall idxs used0 levels e,
    cluster_loop self ps ts idxs used0 levels = Raise e -> e = IndexError.
Proof using Hnz.
  induction idxs as [|i idxs IH]; intros used0 levels e Hrun; [discriminate|].
  cbn [cluster_loop] in Hrun. destruct (nth i used0 false); [exact (IH _ _ _ Hrun)|].
  destruct (getitem ps (Z.of_nat i)) as [p|e'] eqn:Ep;
    [|cbn in Hrun; injection Hrun as <-; exact (getitem_raises _ _ _ Ep)].
  cbn [bind] in Hrun.
  destruct (getitem ts (Z.of_nat i)) as [ti|e'] eqn:Eti;
    [|cbn in Hrun; injection Hrun as <-; exact (getitem_raises _ _ _ Eti)].
  cbn [bind] in Hrun.
  destruct (absorb self ps ts p _ _) as [c'|e'] eqn:Eabs.
  - cbn [bind] in Hrun.
    destruct (min_touches self <=? len (cluster_prices c'))%Z;
      [|exact (IH _ _ _ Hrun)].
    destruct (mean (cluster_prices c')); exact (IH _ _ _ Hrun).
  - cbn in Hrun. injection Hrun as <-.
    apply (absorb_only_index_error p) in Eabs; [exact Eabs|].
    apply Hnz. exact (getitem_nat_in _ _ _ Ep).
Qed.

(** Every member that a pass takes in has a timestamp. *)
Lemma absorb_reads_timestamps (p : Q) :
  forall js c c',
    absorb self ps ts p js c = Ok c' ->
    (forall j, nth j (used c) false = true -> nth j (used c') false = true) /\
    (forall j, nth j (used c) false = false -> nth j (used c') false = true ->
               (j < List.length ts)%nat).
Proof using Type.
  induction js as [|j js IH]; intros c c' Hrun.
  - cbn in Hrun. injection Hrun as <-. split; [auto|]. intros j H1 H2. congruence.
  - cbn [absorb] in Hrun.
    destruct (nth j (used c) false) eqn:Eu; [exact (IH _ _ Hrun)|].
    destruct (getitem ps (Z.of_nat j)) as [pj|e]; [|discriminate].
    cbn [bind] in Hrun.
    destruct (diff_pct pj p) as [d|e]; [|discriminate]. cbn [bind] in Hrun.
    destruct (Qle_bool d (level_tolerance_pct self)); [|exact (IH _ _ Hrun)].
    destruct (getitem ts (Z.of_nat j)) as [tj|e] eqn:Etj; [|discriminate].
    cbn [bind] in Hrun. apply IH in Hrun. cbn [used] in Hrun.
    destruct Hrun as [H1 H2]. split.
    + intros j' Hj'. apply H1. apply update_keeps_true. exact Hj'.
    + intros j' Hf Ht. destruct (Nat.eq_dec j' j) as [->|Hne].
      * exact (getitem_nat_bound _ _ _ Etj).
      * apply H2; [|exact Ht]. rewrite nth_update.
        assert (E : Nat.eqb j j' = false) by (apply Nat.eqb_neq; congruence).
        rewrite E. exact Hf.
Qed.

Lemma cluster_loop_reads_timestamps :
  forall k i used0 levels out,
    (i + k = List.length ps)%nat ->
    List.length used0 = List.length ps ->
    cluster_loop self ps ts (seq i k) used0 levels = Ok out ->
    forall j, (i <= j < List.length ps)%nat -> nth j used0 false = false ->
              (j < List.length ts)%nat.
Proof using Type.
  induction k as [|k IH]; intros i used0 levels out Hik Hlen Hrun j Hj Hu;
    [lia|].
  cbn [seq cluster_loop] in Hrun.
  destruct (nth i used0 false) eqn:Eu.
  - destruct (Nat.eq_dec j i) as [->|Hne]; [congruence|].
    apply (IH (S i) used0 levels out); try assumption; lia.
  - destruct (getitem ps (Z.of_nat i)) as [p|e]; [|discriminate].
    cbn [bind] in Hrun.
    destruct (getitem ts (Z.of_nat i)) as [ti|e] eqn:Eti; [|discriminate].
    cbn [bind] in Hrun.
    destruct (absorb self ps ts p _ _) as [c'|e] eqn:Eabs; [|discriminate].
    cbn [bind] in Hrun.
    destruct (Nat.eq_dec j i) as [->|Hne];
      [exact (getitem_nat_bound _ _ _ Eti)|].
    pose proof (absorb_shape self ps ts p _ _ _ Eabs) as Hshape.
    cbn [used] in Hshape. rewrite update_length in Hshape.
    destruct Hshape as [Hlen' _];
      [intros j' Hj'; apply in_seq in Hj'; lia|].
    apply absorb_reads_timestamps in Eabs. cbn [used] in Eabs.
    destruct Eabs as [_ H2].
    destruct (nth j (used c') false) eqn:Ec.
    + apply H2; [|exact Ec]. rewrite nth_update.
      assert (E : Nat.eqb i j = false) by (apply Nat.eqb_neq; congruence).
      rewrite E. exact Hu.
    + assert (Hgo : forall lv, cluster_loop self ps ts (seq (S i) k) (used c') lv
                               = Ok out -> (j < List.length ts)%nat).
      { intros lv Hlv.
        apply (IH (S i) (used c') lv out); try assumption; lia. }
      destruct (min_touches self <=? len (cluster_prices c'))%Z;
        [|exact (Hgo _ Hrun)].
      destruct (mean (cluster_prices c')); exact (Hgo _ Hrun).
Qed.
End ClusterTimestamps.

(** X3. When no price is zero, [cluster_levels] returns a list of levels if
    there is a timestamp for every price, and raises [IndexError] if there
    are fewer timestamps than prices. *)
Theorem cluster_levels_needs_timestamps (self : BreakRetestDetector)
        (prices : list Q) (timestamps : list Z) :
  (forall p, In p prices -> ~ (p == 0)%Q) ->
  ((List.length prices <= List.length timestamps)%nat ->
   exists levels, cluster_levels self prices timestamps = Ok levels) /\
  ((List.length timestamps < List.length prices)%nat ->
   cluster_levels self prices timestamps = Raise IndexError).
Proof.
  intros Hnz. split; [apply cluster_levels_total; exact Hnz|].
  intros Hshort. unfold cluster_levels. destruct prices as [|p ps] eqn:E;
    [cbn in Hshort; lia|].
  rewrite <- E in *. clear E.
  destruct (cluster_loop self prices timestamps _ _ _) as [out|e] eqn:Eloop.
  - exfalso.
    pose proof (cluster_loop_reads_timestamps self prices timestamps
                  (List.length prices) 0 _ [] out eq_refl
                  (repeat_length _ _) Eloop (List.length timestamps)) as H.
    assert (Hlt : (List.length timestamps < List.length timestamps)%nat).
    { apply H; [lia|]. apply nth_repeat_lt. exact Hshort. }
    lia.
  - cbn [bind]. f_equal.
    exact (cluster_loop_only_index_error self prices timestamps Hnz _ _ _ _ Eloop).
Qed.

Lemma cluster_levels_needs_timestamps_witness :
  (forall p, In p [100; 100; 250]%Q -> ~ (p == 0)%Q) /\
  cluster_levels config_medium [100; 100; 250]%Q [1; 2]%Z = Raise IndexError.
Proof.
  assert (Hnz : forall p, In p [100; 100; 250]%Q -> ~ (p == 0)%Q)
    by (intros p [<-|[<-|[<-|[]]]] H; vm_compute in H; discriminate).
  split; [exact Hnz|].
  apply (proj2 (cluster_levels_needs_timestamps config_medium
                  [100; 100; 250]%Q [1; 2]%Z Hnz)).
  cbn. lia.
Defined.



(** *** Breakouts, pivots and short series *)


Lemma setitem_raises {A : Type} (l : list A) (i : Z) (v : A) (e : exn) :
  setitem l i v = Raise e -> e = IndexError.
Proof.
  unfold setitem. destruct (_ <? 0)%Z; [congruence|].
  destruct (_ <? len l)%Z; congruence.
Qed.

Lemma pivot_loop_bad_index (self : BreakRetestDetector)
      (worse : Q -> Q -> bool) (xs : list Q) :
  (pivot_lookback self < 0)%Z ->
  forall idxs series,
    (exists i e, In i idxs /\ getitem xs i = Raise e) ->
    pivot_loop self worse xs idxs series = Raise IndexError.
Proof.
  intros Hlb.
  assert (Hjs : range 1 (pivot_lookback self + 1) = []).
  { unfold range. replace (Z.to_nat (pivot_lookback self + 1 - 1)) with 0%nat by lia.
    reflexivity. }
  induction idxs as [|i idxs IH]; intros series [b [e [Hin Hbad]]];
    [destruct Hin|].
  cbn [pivot_loop]. rewrite Hjs. cbn [is_pivot bind].
  destruct (getitem xs i) as [v|e'] eqn:Ev.
  - cbn [bind]. destruct (setitem series i (Some v)) as [s'|e''] eqn:Es.
    + cbn [bind]. apply IH. exists b, e. split; [|exact Hbad].
      destruct Hin as [->|Hin]; [congruence|exact Hin].
    + cbn [bind]. f_equal. exact (setitem_raises _ _ _ _ Es).
  - cbn [bind]. f_equal. exact (getitem_raises _ _ _ Ev).
Qed.

Lemma update_middle {A : Type} (l1 l2 : list A) (x v : A) :
  update (l1 ++ x :: l2) (List.length l1) v = l1 ++ v :: l2.
Proof.
  induction l1 as [|h t IH]; [reflexivity|].
  cbn [app List.length update]. rewrite IH. reflexivity.
Qed.

Lemma pivot_loop_every_index (self : BreakRetestDetector)
      (worse : Q -> Q -> bool) (xs : list Q) :
  pivot_lookback self = 0%Z ->
  forall k i,
    (i + k = List.length xs)%nat ->
    pivot_loop self worse xs
      (List.map (fun j => (0 + Z.of_nat j)%Z) (seq i k))
      (List.map Some (firstn i xs) ++ repeat None k)
    = Ok (List.map Some xs).
Proof.
  intros Hlb.
  assert (Hjs : range 1 (pivot_lookback self + 1) = [])
    by (rewrite Hlb; reflexivity).
  induction k as [|k IH]; intros i Hik.
  - cbn. rewrite app_nil_r, firstn_all2 by lia. reflexivity.
  - cbn [seq List.map pivot_loop]. rewrite Hjs. cbn [is_pivot bind].
    rewrite Z.add_0_l, (getitem_nat xs i 0%Q) by lia. cbn [bind].
    rewrite setitem_inbounds.
    2:{ unfold len. rewrite length_app, length_map, length_firstn, repeat_length.
        lia. }
    cbn [bind]. rewrite Nat2Z.id.
    assert (Hi : List.length (List.map Some (firstn i xs)) = i)
      by (rewrite length_map, length_firstn; lia).
    cbn [repeat].
    pose proof (update_middle (List.map Some (firstn i xs)) (repeat None k)
                  None (Some (nth i xs 0%Q))) as Hup.
    rewrite Hi in Hup. rewrite Hup. clear Hup.
    specialize (IH (S i) ltac:(lia)).
    replace (List.map Some (firstn (S i) xs))
      with (List.map Some (firstn i xs) ++ [Some (nth i xs 0%Q)]) in IH.
    + rewrite <- app_assoc in IH. exact IH.
    + rewrite <- List.map_app with (l' := [nth i xs 0%Q]). f_equal.
      clear - Hik. revert i Hik. induction xs as [|x t IHx]; intros i Hik;
        [cbn in Hik; lia|].
      destruct i as [|i]; [reflexivity|].
      cbn [firstn nth app]. f_equal. apply IHx. cbn [List.length] in Hik. lia.
Qed.

(** X6. With [pivot_lookback = 0] every candle is a pivot high and a pivot
    low: each position of the two series carries the candle's own high and
    low.  With a negative [pivot_lookback] both searches raise
    [IndexError], whatever the series. *)
Theorem find_pivots_degenerate_lookback (self : BreakRetestDetector)
        (df : DataFrame) :
  (pivot_lookback self = 0%Z ->
   find_pivot_highs self df = Ok (List.map (fun c => Some (high c)) df) /\
   find_pivot_lows self df = Ok (List.map (fun c => Some (low c)) df)) /\
  ((pivot_lookback self < 0)%Z ->
   find_pivot_highs self df = Raise IndexError /\
   find_pivot_lows self df = Raise IndexError).
Proof.
  split.
  - intros Hlb. unfold find_pivot_highs, find_pivot_lows, find_pivots, range.
    rewrite Hlb, !Z.sub_0_r. unfold len. rewrite !Nat2Z.id. split.
    + rewrite (pivot_loop_every_index self _ _ Hlb (List.length (List.map high df)) 0
                 eq_refl).
      rewrite List.map_map. reflexivity.
    + rewrite (pivot_loop_every_index self _ _ Hlb (List.length (List.map low df)) 0
                 eq_refl).
      rewrite List.map_map. reflexivity.
  - intros Hlb.
    assert (Hbad : forall xs : list Q,
              exists i e, In i (range (pivot_lookback self)
                                  (len xs - pivot_lookback self)) /\
                          getitem xs i = Raise e).
    { intros xs. exists (len xs), IndexError. split.
      - apply in_range. unfold len. lia.
      - unfold getitem. destruct (len xs <? 0)%Z eqn:E;
          [apply Z.ltb_lt in E; unfold len in E; lia|].
        rewrite E. unfold len. rewrite Nat2Z.id.
        destruct (nth_error xs (List.length xs)) eqn:En; [|reflexivity].
        assert (H : nth_error xs (List.length xs) <> None) by congruence.
        apply nth_error_Some in H. lia. }
    unfold find_pivot_highs, find_pivot_lows, find_pivots. split;
      apply pivot_loop_bad_index; auto.
Qed.

Lemma dropna_all_nan (index : list Z) (k : nat) :
  dropna index (repeat None k) = [].
Proof.
  revert k. induction index as [|t index IH]; intros k; [reflexivity|].
  destruct k as [|k]; [reflexivity|]. cbn [repeat dropna]. apply IH.
Qed.

(** X7. On a series of fewer than [2 * pivot_lookback + 1] candles no index
    has a full window on both sides, and [identify_levels] returns no
    resistance and no support. *)
Theorem identify_levels_short_series (self : BreakRetestDetector)
        (df : DataFrame) :
  (1 <= pivot_lookback self)%Z ->
  (len df < 2 * pivot_lookback self + 1)%Z ->
  identify_levels self df = Ok ([], []).
Proof.
  intros Hlb Hshort. unfold identify_levels, find_pivot_highs, find_pivot_lows.
  rewrite !find_pivots_short by (rewrite len_map; exact Hshort).
  cbn [bind]. rewrite !dropna_all_nan. reflexivity.
Qed.

Lemma identify_levels_short_series_witness :
  (len [Examples.flat 0 1; Examples.flat 1 2]
   < 2 * pivot_lookback Examples.detector_lookback_1 + 1)%Z /\
  identify_levels Examples.detector_lookback_1
    [Examples.flat 0 1; Examples.flat 1 2] = Ok ([], []).
Proof.
  split.
  - vm_compute. reflexivity.
  - apply (identify_levels_short_series Examples.detector_lookback_1
             [Examples.flat 0 1; Examples.flat 1 2]).
    + vm_compute. discriminate.
    + vm_compute. reflexivity.
Defined.

(** *** [detect] returns *)

Lemma getitem_last {A : Type} (l : list A) :
  l <> [] -> exists x, getitem l (-1) = Ok x.
Proof.
  intros Hne. unfold getitem. cbn [Z.ltb Z.compare].
  assert (Hlen : (0 < len l)%Z)
    by (destruct l; [congruence|unfold len; cbn [List.length]; lia]).
  destruct (-1 + len l <? 0)%Z eqn:E; [apply Z.ltb_lt in E; lia|].
  destruct (nth_error l (Z.to_nat (-1 + len l))) eqn:En; [eexists; reflexivity|].
  apply nth_error_None in En. unfold len in *. lia.
Qed.

Lemma dropna_values (index : list Z) (series : list (option Q)) :
  forall t v, In (t, v) (dropna index series) ->
              exists k, nth_error series k = Some (Some v).
Proof.
  revert series. induction index as [|t0 index IH]; intros series t v Hin;
    [destruct Hin|].
  destruct series as [|[x|] series]; cbn [dropna] in Hin; [destruct Hin| |].
  - destruct Hin as [Heq|Hin].
    + injection Heq as _ <-. exists 0%nat. reflexivity.
    + destruct (IH _ _ _ Hin) as [k Hk]. exists (S k). exact Hk.
  - destruct (IH _ _ _ Hin) as [k Hk]. exists (S k). exact Hk.
Qed.

Lemma pivot_values_in (self : BreakRetestDetector) (worse : Q -> Q -> bool)
      (xs : list Q) (index : list Z) (s : list (option Q)) :
  (1 <= pivot_lookback self)%Z ->
  find_pivots self worse xs = Ok s ->
  forall t v, In (t, v) (dropna index s) -> In v xs.
Proof.
  intros Hlb Hrun t v Hin.
  destruct (find_pivots_spec self worse xs Hlb) as [s' [Hrun' [_ Hnth]]].
  rewrite Hrun in Hrun'. injection Hrun' as <-.
  destruct (dropna_values _ _ _ _ Hin) as [k Hk].
  rewrite Hnth in Hk. destruct (Spec.marked _ _ _ _ _) eqn:E.
  - injection Hk as <-. unfold Spec.marked in E. apply andb_prop in E.
    destruct E as [E _]. apply existsb_range in E. unfold at_.
    rewrite Nat2Z.id. apply nth_In. unfold len in E. lia.
  - apply nth_error_In in Hk. apply repeat_spec in Hk. discriminate.
Qed.

Section DetectTotal.
Variable self : BreakRetestDetector.
Variable render : PatternType -> string -> string -> Q -> Q -> Z -> string.
Variable df : DataFrame.
Hypothesis Hlb : (1 <= pivot_lookback self)%Z.
Hypothesis Hne : df <> [].
Hypothesis Hnz : forall c, In c df -> ~ (high c == 0)%Q /\ ~ (low c == 0)%Q.

Lemma identify_levels_total :
  exists levels, identify_levels self df = Ok levels.
Proof using All.
  unfold identify_levels, find_pivot_highs, find_pivot_lows.
  destruct (find_pivots_spec self Qle_bool (List.map high df) Hlb)
    as [sh [Hh _]].
  destruct (find_pivots_spec self (fun a b => Qle_bool b a) (List.map low df) Hlb)
    as [sl [Hl _]].
  rewrite Hh, Hl. cbn [bind].
  destruct (cluster_levels_total self
              (List.map snd (dropna (List.map open_time df) sh))
              (List.map fst (dropna (List.map open_time df) sh)))
    as [res Hres].
  { intros p Hp. apply in_map_iff in Hp. destruct Hp as [[t v] [<- Hin]].
    apply (pivot_values_in self _ _ _ _ Hlb Hh) in Hin.
    apply in_map_iff in Hin. destruct Hin as [c [<- Hc]]. apply (Hnz c Hc). }
  { rewrite !length_map. lia. }
  destruct (cluster_levels_total self
              (List.map snd (dropna (List.map open_time df) sl))
              (List.map fst (dropna (List.map open_time df) sl)))
    as [sup Hsup].
  { intros p Hp. apply in_map_iff in Hp. destruct Hp as [[t v] [<- Hin]].
    apply (pivot_values_in self _ _ _ _ Hlb Hl) in Hin.
    apply in_map_iff in Hin. destruct Hin as [c [<- Hc]]. apply (Hnz c Hc). }
  { rewrite !length_map. lia. }
  rewrite Hres, Hsup. cbn [bind]. eexists. reflexivity.
Qed.

Lemma check_retest_total (level : Level) (idx : Z) (b : bool) :
  exists r, check_retest self df level idx b = Ok r.
Proof using All.
  unfold check_retest. destruct (len df - 1 <=? idx)%Z; [eexists; reflexivity|].
  destruct (getitem_last (List.map close df)) as [x Hx];
    [destruct df; [congruence|discriminate]|].
  destruct (getitem_last (List.map low df)) as [y Hy];
    [destruct df; [congruence|discriminate]|].
  destruct (getitem_last (List.map high df)) as [z Hz];
    [destruct df; [congruence|discriminate]|].
  rewrite Hx, Hy, Hz. cbn [bind]. destruct b; eexists; reflexivity.
Qed.

Lemma retest_loop_total (sym tf : string) (pt : PatternType) (b : bool)
      (cur : Q) (time : Z) :
  forall levels signals,
    exists out, retest_loop self render df sym tf pt b cur time levels signals
                = Ok out.
Proof using All.
  induction levels as [|L levels IH]; intros signals; [eexists; reflexivity|].
  cbn [retest_loop].
  destruct (check_breakout_window self df L b Hne) as [r [Hr _]].
  rewrite Hr. cbn [bind]. destruct r as [idx|]; [|apply IH].
  destruct (check_retest_total L idx b) as [x Hx]. rewrite Hx. cbn [bind].
  destruct x; apply IH.
Qed.

End DetectTotal.

Lemma create_detector_cases (sensitivity : string) :
  create_detector sensitivity = config_low \/
  create_detector sensitivity = config_medium \/
  create_detector sensitivity = config_high.
Proof.
  unfold create_detector.
  destruct (String.eqb sensitivity "low"); [left; reflexivity|].
  destruct (String.eqb sensitivity "medium"); [right; left; reflexivity|].
  destruct (String.eqb sensitivity "high"); [right; right|right; left]; reflexivity.
Qed.

Lemma create_detector_sane (sensitivity : string) :
  (1 <= pivot_lookback (create_detector sensitivity))%Z /\
  (0 <= level_tolerance_pct (create_detector sensitivity))%Q.
Proof.
  destruct (create_detector_cases sensitivity) as [ -> | [ -> | -> ] ];
    (split; [cbn; lia|unfold Qle; cbn; lia]).
Qed.

(** X8. With [pivot_lookback >= 1], on a non-empty series in which no high
    and no low is zero, [detect] returns a list of signals: it raises no
    exception. *)
Theorem detect_never_raises (self : BreakRetestDetector)
        (render : PatternType -> string -> string -> Q -> Q -> Z -> string)
        (df : DataFrame) (sym tf : string) :
  (1 <= pivot_lookback self)%Z ->
  df <> [] ->
  (forall c, In c df -> ~ (high c == 0)%Q /\ ~ (low c == 0)%Q) ->
  exists signals, detect self render df sym tf = Ok signals.
Proof.
  intros Hlb Hne Hnz. unfold detect.
  destruct (len df <? _)%Z; [eexists; reflexivity|].
  destruct (identify_levels_total self render df Hlb Hne Hnz) as [levels Hl].
  rewrite Hl. cbn [bind].
  destruct (getitem_last (List.map close df)) as [x Hx];
    [destruct df; [congruence|discriminate]|].
  destruct (getitem_last (List.map open_time df)) as [y Hy];
    [destruct df; [congruence|discriminate]|].
  rewrite Hx, Hy. cbn [bind].
  destruct (retest_loop_total self render df Hlb Hne Hnz sym tf BULLISH_RETEST
              true x y (fst levels) []) as [bulls Hb].
  rewrite Hb. cbn [bind]. apply (retest_loop_total self render df Hlb Hne Hnz).
Qed.

Lemma detect_never_raises_witness :
  Examples.df_retest_90 <> [] /\
  exists signals,
    detect config_medium Examples.no_message Examples.df_retest_90
      "ETHUSDT" "1h" = Ok signals.
Proof.
  assert (Hne : Examples.df_retest_90 <> []) by (vm_compute; discriminate).
  split; [exact Hne|].
  apply (detect_never_raises config_medium Examples.no_message
           Examples.df_retest_90 "ETHUSDT" "1h").
  - vm_compute. discriminate.
  - exact Hne.
  - intros c Hc.
    assert (Hall : forallb (fun c => negb (Qeq_bool (high c) 0) &&
                                     negb (Qeq_bool (low c) 0))
                     Examples.df_retest_90 = true) by (vm_compute; reflexivity).
    rewrite forallb_forall in Hall. specialize (Hall c Hc).
    apply andb_prop in Hall. destruct Hall as [H1 H2].
    apply negb_true_iff in H1, H2. split; intros E; apply Qeq_bool_iff in E;
      congruence.
Defined.

(** *** What a signal stands for *)

Lemma signal_from_more (self : BreakRetestDetector)
      (render : PatternType -> string -> string -> Q -> Q -> Z -> string)
      (df : DataFrame) (sym tf : string) (L : Level) (levels : list Level)
      (pt : PatternType) (s : Signal) :
  signal_from self render df sym tf levels pt s ->
  signal_from self render df sym tf (L :: levels) pt s.
Proof.
  intros [H1 [H2 [H3 [H4 [H5 [H6 [H7 [L' [idx [HL H8]]]]]]]]]].
  repeat (split; [assumption|]). exists L', idx. split; [right; exact HL|exact H8].
Qed.

Lemma retest_loop_sound (self : BreakRetestDetector)
      (render : PatternType -> string -> string -> Q -> Q -> Z -> string)
      (df : DataFrame) (sym tf : string) (pt : PatternType) (cur : Q) (time : Z) :
  getitem (List.map close df) (-1) = Ok cur ->
  getitem (List.map open_time df) (-1) = Ok time ->
  forall levels signals out,
    retest_loop self render df sym tf pt (is_bullish pt) cur time levels signals
    = Ok out ->
    exists new,
      out = signals ++ new /\
      List.Forall (signal_from self render df sym tf levels pt) new /\
      (List.length new <= List.length levels)%nat.
Proof.
  intros Hcur Htime. induction levels as [|L levels IH]; intros signals out Hrun.
  - cbn in Hrun. injection Hrun as <-. exists []. rewrite app_nil_r.
    split; [reflexivity|]. split; [constructor|cbn; lia].
  - cbn [retest_loop] in Hrun.
    destruct (check_breakout self df L (is_bullish pt)) as [r|e] eqn:Eb;
      [|discriminate].
    cbn [bind] in Hrun.
    assert (Hskip : forall out',
              retest_loop self render df sym tf pt (is_bullish pt) cur time
                levels signals = Ok out' ->
              exists new,
                out' = signals ++ new /\
                List.Forall (signal_from self render df sym tf (L :: levels) pt) new /\
                (List.length new <= List.length (L :: levels))%nat).
    { intros out' Hrun'. destruct (IH _ _ Hrun') as [new [Ho [Hf Hl]]].
      exists new. split; [exact Ho|]. split; [|cbn [List.length]; lia].
      rewrite List.Forall_forall in Hf |- *. intros s Hs.
      apply signal_from_more. exact (Hf s Hs). }
    destruct r as [idx|]; [|exact (Hskip out Hrun)].
    destruct (check_retest self df L idx (is_bullish pt)) as [b|e] eqn:Er;
      [|discriminate].
    cbn [bind] in Hrun. destruct b; [|exact (Hskip out Hrun)].
    destruct (IH _ _ Hrun) as [new [Ho [Hf Hl]]].
    eexists (_ :: new). split; [rewrite Ho, <- app_assoc; reflexivity|].
    split; [|cbn [List.length]; lia].
    constructor.
    + unfold signal_from.
      cbn [symbol timeframe pattern_type level_price current_price
             distance_to_level_pct timestamp sig_strength message].
      repeat (split; [first [reflexivity | assumption]|]).
      exists L, idx. repeat split; try assumption. left. reflexivity.
    + rewrite List.Forall_forall in Hf |- *. intros s Hs.
      apply signal_from_more. exact (Hf s Hs).
Qed.

Lemma identify_levels_inv (self : BreakRetestDetector) (df : DataFrame)
      (res sup : list Level) :
  identify_levels self df = Ok (res, sup) ->
  exists ph th pl tl,
    cluster_levels self ph th = Ok res /\ cluster_levels self pl tl = Ok sup /\
    (forall p, In p ph -> exists sh t,
        find_pivot_highs self df = Ok sh /\
        In (t, p) (dropna (List.map open_time df) sh)) /\
    (forall p, In p pl -> exists sl t,
        find_pivot_lows self df = Ok sl /\
        In (t, p) (dropna (List.map open_time df) sl)).
Proof.
  unfold identify_levels. intros H.
  destruct (find_pivot_highs self df) as [sh|e] eqn:Eh; [|discriminate].
  destruct (find_pivot_lows self df) as [sl|e] eqn:El; [|discriminate].
  cbn [bind] in H.
  destruct (cluster_levels self (List.map snd (dropna _ sh)) _) as [r|e] eqn:Er;
    [|discriminate].
  cbn [bind] in H.
  destruct (cluster_levels self (List.map snd (dropna _ sl)) _) as [s|e] eqn:Es;
    [|discriminate].
  cbn [bind] in H. injection H as <- <-.
  do 4 eexists. split; [exact Er|]. split; [exact Es|]. split.
  - intros p Hp. apply in_map_iff in Hp. destruct Hp as [[t v] [<- Hin]].
    exists sh, t. split; [reflexivity|exact Hin].
  - intros p Hp. apply in_map_iff in Hp. destruct Hp as [[t v] [<- Hin]].
    exists sl, t. split; [reflexivity|exact Hin].
Qed.

(** X9. The signals of [detect] are the bullish ones followed by the
    bearish ones.  Every bullish signal carries the symbol, the timeframe,
    the newest close and the newest timestamp, and the price and strength
    of a resistance of [identify_levels] for which [check_breakout] found
    an index that [check_retest] accepted; every bearish signal likewise
    for a support.  There are at most as many signals of a kind as levels
    of that kind, and the strength of a signal is at least 1 and at least
    [min_touches]. *)
Theorem detect_signals_sound (self : BreakRetestDetector)
        (render : PatternType -> string -> string -> Q -> Q -> Z -> string)
        (df : DataFrame) (sym tf : string) (signals : list Signal) :
  detect self render df sym tf = Ok signals ->
  (signals = [] \/
   exists res sup bulls bears,
     identify_levels self df = Ok (res, sup) /\
     signals = bulls ++ bears /\
     List.Forall (signal_from self render df sym tf res BULLISH_RETEST) bulls /\
     List.Forall (signal_from self render df sym tf sup BEARISH_RETEST) bears /\
     (List.length bulls <= List.length res)%nat /\
     (List.length bears <= List.length sup)%nat) /\
  (forall s, In s signals ->
             (1 <= sig_strength s)%Z /\ (min_touches self <= sig_strength s)%Z).
Proof.
  intros Hrun. unfold detect in Hrun.
  destruct (len df <? _)%Z.
  { injection Hrun as <-. split; [left; reflexivity|intros s []]. }
  destruct (identify_levels self df) as [[res sup]|e] eqn:El; [|discriminate].
  cbn [bind fst snd] in Hrun.
  destruct (getitem (List.map close df) (-1)) as [cur|e] eqn:Ec; [|discriminate].
  cbn [bind] in Hrun.
  destruct (getitem (List.map open_time df) (-1)) as [time|e] eqn:Et;
    [|discriminate].
  cbn [bind] in Hrun.
  destruct (retest_loop self render df sym tf BULLISH_RETEST true cur time res [])
    as [bulls|e] eqn:Eb; [|discriminate].
  cbn [bind] in Hrun.
  destruct (retest_loop_sound self render df sym tf BULLISH_RETEST cur time
              Ec Et res [] bulls Eb) as [new1 [H1 [Hf1 Hl1]]].
  destruct (retest_loop_sound self render df sym tf BEARISH_RETEST cur time
              Ec Et sup bulls signals Hrun) as [new2 [H2 [Hf2 Hl2]]].
  cbn [app] in H1. subst bulls.
  assert (Hall : signals = [] \/
    exists res0 sup0 bulls bears,
     Ok (res, sup) = Ok (res0, sup0) /\
     signals = bulls ++ bears /\
     List.Forall (signal_from self render df sym tf res0 BULLISH_RETEST) bulls /\
     List.Forall (signal_from self render df sym tf sup0 BEARISH_RETEST) bears /\
     (List.length bulls <= List.length res0)%nat /\
     (List.length bears <= List.length sup0)%nat).
  { right. exists res, sup, new1, new2. repeat split; assumption. }
  split; [exact Hall|].
  destruct (identify_levels_inv self df res sup El)
    as [ph [th [pl [tl [Hres [Hsup _]]]]]].
  destruct (cluster_levels_shape self ph th res Hres) as [Hwr _].
  destruct (cluster_levels_shape self pl tl sup Hsup) as [Hws _].
  intros s Hs. rewrite H2 in Hs. apply in_app_or in Hs.
  destruct Hs as [Hs|Hs].
  - rewrite List.Forall_forall in Hf1.
    destruct (Hf1 s Hs) as [_ [_ [_ [_ [_ [_ [_ [L [idx [HL [_ [-> _]]]]]]]]]]]].
    destruct (Hwr L HL) as [Ha [Hb _]]. split; assumption.
  - rewrite List.Forall_forall in Hf2.
    destruct (Hf2 s Hs) as [_ [_ [_ [_ [_ [_ [_ [L [idx [HL [_ [-> _]]]]]]]]]]]].
    destruct (Hws L HL) as [Ha [Hb _]]. split; assumption.
Qed.

Lemma detect_signals_sound_witness :
  detect Examples.detector_lookback_1 Examples.no_message Examples.df_retest
    "BTCUSDT" "1h" = Ok [Examples.signal_retest] /\
  (min_touches Examples.detector_lookback_1
   <= sig_strength Examples.signal_retest)%Z.
Proof.
  assert (Hrun : detect Examples.detector_lookback_1 Examples.no_message
                   Examples.df_retest "BTCUSDT" "1h"
                 = Ok [Examples.signal_retest]) by (vm_compute; reflexivity).
  split; [exact Hrun|].
  apply (proj2 (detect_signals_sound Examples.detector_lookback_1
                  Examples.no_message Examples.df_retest "BTCUSDT" "1h"
                  [Examples.signal_retest] Hrun) Examples.signal_retest).
  left. reflexivity.
Defined.

Lemma detect_signal_level (self : BreakRetestDetector)
      (render : PatternType -> string -> string -> Q -> Q -> Z -> string)
      (df : DataFrame) (sym tf : string) (signals : list Signal) (s : Signal) :
  detect self render df sym tf = Ok signals -> In s signals ->
  exists res sup pt,
    identify_levels self df = Ok (res, sup) /\
    signal_from self render df sym tf (levels_for pt res sup) pt s.
Proof.
  intros Hrun Hs. unfold detect in Hrun.
  destruct (len df <? _)%Z; [injection Hrun as <-; destruct Hs|].
  destruct (identify_levels self df) as [[res sup]|e] eqn:El; [|discriminate].
  cbn [bind fst snd] in Hrun.
  destruct (getitem (List.map close df) (-1)) as [cur|e] eqn:Ec; [|discriminate].
  cbn [bind] in Hrun.
  destruct (getitem (List.map open_time df) (-1)) as [time|e] eqn:Et;
    [|discriminate].
  cbn [bind] in Hrun.
  destruct (retest_loop self render df sym tf BULLISH_RETEST true cur time res [])
    as [bulls|e] eqn:Eb; [|discriminate].
  cbn [bind] in Hrun.
  destruct (retest_loop_sound self render df sym tf BULLISH_RETEST cur time
              Ec Et res [] bulls Eb) as [new1 [H1 [Hf1 _]]].
  destruct (retest_loop_sound self render df sym tf BEARISH_RETEST cur time
              Ec Et sup bulls signals Hrun) as [new2 [H2 [Hf2 _]]].
  cbn [app] in H1. subst bulls. subst signals.
  rewrite List.Forall_forall in Hf1, Hf2.
  exists res, sup. apply in_app_or in Hs. destruct Hs as [Hs|Hs].
  - exists BULLISH_RETEST. split; [reflexivity|exact (Hf1 s Hs)].
  - exists BEARISH_RETEST. split; [reflexivity|exact (Hf2 s Hs)].
Qed.

(** A signal carries the symbol and the timeframe it was sought for, and the
    strength of a level that passed the gate of [min_touches]. *)
Lemma detect_signal_fields (self : BreakRetestDetector)
      (render : PatternType -> string -> string -> Q -> Q -> Z -> string)
      (df : DataFrame) (sym tf : string) (signals : list Signal) (s : Signal) :
  detect self render df sym tf = Ok signals -> In s signals ->
  symbol s = sym /\ timeframe s = tf /\
  (1 <= sig_strength s)%Z /\ (min_touches self <= sig_strength s)%Z.
Proof.
  intros Hrun Hs.
  destruct (detect_signal_level self render df sym tf signals s Hrun Hs)
    as [res [sup [pt [El [Hsym [Htf [_ [_ [_ [_ [_ [L [idx [HL [_ [Hst _]]]]]]]]]]]]]]]].
  split; [exact Hsym|]. split; [exact Htf|]. rewrite Hst.
  destruct (identify_levels_inv self df res sup El)
    as [ph [th [pl [tl [Hres [Hsup _]]]]]].
  destruct (cluster_levels_shape self ph th res Hres) as [Hwr _].
  destruct (cluster_levels_shape self pl tl sup Hsup) as [Hws _].
  unfold levels_for in HL.
  destruct (is_bullish pt);
    [destruct (Hwr L HL) as [Ha [Hb _]]|destruct (Hws L HL) as [Ha [Hb _]]];
    split; assumption.
Qed.

(** On candles whose highs and lows are not negative, the level of a signal
    is not negative. *)
Lemma detect_level_nonneg (self : BreakRetestDetector)
      (render : PatternType -> string -> string -> Q -> Q -> Z -> string)
      (df : DataFrame) (sym tf : string) (signals : list Signal) (s : Signal) :
  (1 <= pivot_lookback self)%Z ->
  (forall c, In c df -> (0 <= high c)%Q /\ (0 <= low c)%Q) ->
  detect self render df sym tf = Ok signals -> In s signals ->
  (0 <= level_price s)%Q.
Proof.
  intros Hlb Hpos Hrun Hs.
  destruct (detect_signal_level self render df sym tf signals s Hrun Hs)
    as [res [sup [pt [El [_ [_ [_ [_ [_ [_ [_ [L [idx [HL [Hp _]]]]]]]]]]]]]]].
  rewrite Hp.
  destruct (identify_levels_inv self df res sup El)
    as [ph [th [pl [tl [Hres [Hsup [Hph Hpl]]]]]]].
  destruct (cluster_levels_shape self ph th res Hres) as [Hwr _].
  destruct (cluster_levels_shape self pl tl sup Hsup) as [Hws _].
  unfold levels_for in HL. destruct (is_bullish pt).
  - destruct (Hwr L HL) as [_ [_ [_ [_ [_ [[lo [hi [Hlo [_ [Hle _]]]]] _]]]]]].
    destruct (Hph lo Hlo) as [sh [t [Hsh Hin]]].
    apply (pivot_values_in self _ _ _ _ Hlb Hsh) in Hin.
    apply in_map_iff in Hin. destruct Hin as [c [<- Hc]].
    destruct (Hpos c Hc) as [H0 _]. lra.
  - destruct (Hws L HL) as [_ [_ [_ [_ [_ [[lo [hi [Hlo [_ [Hle _]]]]] _]]]]]].
    destruct (Hpl lo Hlo) as [sl [t [Hsl Hin]]].
    apply (pivot_values_in self _ _ _ _ Hlb Hsl) in Hin.
    apply in_map_iff in Hin. destruct Hin as [c [<- Hc]].
    destruct (Hpos c Hc) as [_ H0]. lra.
Qed.





(** ** Further properties of the service *)

(** *** What a scan stores *)

Lemma save_signals_spec (now : Z) (db : Service.Database) (user_id : Z)
      (signals : list Signal) :
  forall results,
    Service.save_signals now db user_id signals results
    = results ++ List.map (pending_of user_id)
                   (List.filter (is_new now db user_id) signals).
Proof.
  induction signals as [|s t IH]; intros results.
  - cbn. rewrite app_nil_r. reflexivity.
  - cbn [Service.save_signals List.filter]. unfold is_new at 1.
    destruct (Service._signal_exists now db user_id (symbol s) (timeframe s)
                (pattern_value (pattern_type s)) (level_price s)) eqn:E;
      cbn [negb].
    + apply IH.
    + rewrite IH, <- app_assoc. reflexivity.
Qed.

Section ScanFacts.
Variable get_klines_df : string -> string -> Z -> result DataFrame.
Variable render : PatternType -> string -> string -> Q -> Q -> Z -> string.
Variable now : Z.
Variable detector : BreakRetestDetector.
Variable db : Service.Database.
Variable user_id : Z.
Variable timeframes : option (list string).

Abbreviation pair_of :=
  (pair_results get_klines_df render now detector db user_id).
Abbreviation item_of :=
  (item_results get_klines_df render now detector db user_id timeframes).

Lemma scan_pair_spec (item : WatchlistItem.row) (tf : string)
      (results : list Service.Pending) :
  Service.scan_pair get_klines_df render now detector db user_id item tf results
  = results ++ pair_of item tf.
Proof.
  unfold Service.scan_pair, pair_results, signals_of.
  destruct (let* df := get_klines_df (WatchlistItem.symbol item) tf 500%Z in
            detect detector render df (WatchlistItem.symbol item) tf)
    as [signals|e].
  - apply save_signals_spec.
  - cbn. rewrite app_nil_r. reflexivity.
Qed.

Lemma scan_item_spec (item : WatchlistItem.row) (results : list Service.Pending) :
  Service.scan_item get_klines_df render now detector db user_id timeframes
    results item
  = results ++ item_of item.
Proof.
  unfold Service.scan_item, item_results.
  change (match timeframes with
          | Some (_ :: _ as l) => l
          | _ => WatchlistItem.timeframes item
          end) with (scanned_timeframes timeframes item).
  generalize (scanned_timeframes timeframes item) as tfs. intros tfs.
  revert results. induction tfs as [|tf tfs IH]; intros results.
  - cbn. rewrite app_nil_r. reflexivity.
  - cbn [fold_left flat_map]. rewrite IH, scan_pair_spec, <- app_assoc.
    reflexivity.
Qed.

Lemma scan_watchlist_spec (watchlist : list WatchlistItem.row) :
  forall results,
    fold_left (Service.scan_item get_klines_df render now detector db user_id
                 timeframes) watchlist results
    = results ++ flat_map item_of watchlist.
Proof.
  induction watchlist as [|item t IH]; intros results.
  - cbn. rewrite app_nil_r. reflexivity.
  - cbn [fold_left flat_map]. rewrite IH, scan_item_spec, <- app_assoc.
    reflexivity.
Qed.
End ScanFacts.

Lemma next_id_above (ids : list Z) :
  (0 < Service.next_id ids)%Z /\
  forall i, In i ids -> (i < Service.next_id ids)%Z.
Proof.
  unfold Service.next_id. induction ids as [|j t [IH0 IH]]; cbn [fold_right].
  - split; [lia|intros i []].
  - split; [lia|]. intros i [<-|Hi]; [lia|]. specialize (IH i Hi). lia.
Qed.

Lemma flush_length (now first : Z) (ps : list Service.Pending) :
  List.length (Service.flush now first ps) = List.length ps.
Proof.
  revert first. induction ps as [|p t IH]; intros first; [reflexivity|].
  cbn [Service.flush List.length]. rewrite IH. reflexivity.
Qed.

Lemma flush_app (now first : Z) (ps qs : list Service.Pending) :
  Service.flush now first (ps ++ qs)
  = Service.flush now first ps ++ Service.flush now (first + len ps) qs.
Proof.
  revert first. induction ps as [|p t IH]; intros first.
  - cbn [app Service.flush]. unfold len. cbn [List.length].
    change (Z.of_nat 0) with 0%Z. rewrite Z.add_0_r. reflexivity.
  - cbn [app Service.flush]. rewrite IH. unfold len. cbn [List.length].
    rewrite Nat2Z.inj_succ. do 3 f_equal. lia.
Qed.

Lemma flush_ids (now first : Z) (ps : list Service.Pending) (r : ScanResult.row) :
  In r (Service.flush now first ps) ->
  (first <= ScanResult.id r < first + len ps)%Z /\
  ScanResult.created_at r = now.
Proof.
  revert first. induction ps as [|p t IH]; intros first Hr; [destruct Hr|].
  cbn [Service.flush] in Hr. unfold len. cbn [List.length].
  rewrite Nat2Z.inj_succ. destruct Hr as [<-|Hr].
  - cbn. split; [lia|reflexivity].
  - destruct (IH _ Hr) as [Hid Hc]. unfold len in Hid. split; [lia|exact Hc].
Qed.

Lemma flush_sorted (now first : Z) (ps : list Service.Pending) :
  StronglySorted id_lt (Service.flush now first ps).
Proof.
  revert first. induction ps as [|p t IH]; intros first; [constructor|].
  cbn [Service.flush]. constructor; [apply IH|].
  apply List.Forall_forall. intros r Hr. apply flush_ids in Hr.
  unfold id_lt. cbn. lia.
Qed.

Lemma flush_records (now first user_id : Z) (signals : list Signal)
      (r : ScanResult.row) :
  In r (Service.flush now first (List.map (pending_of user_id) signals)) ->
  exists s, In s signals /\ records now user_id s r.
Proof.
  revert first. induction signals as [|s t IH]; intros first Hr; [destruct Hr|].
  cbn [List.map Service.flush] in Hr. destruct Hr as [<-|Hr].
  - exists s. split; [left; reflexivity|]. unfold records. cbn. repeat split.
  - destruct (IH _ Hr) as [s' [Hs' H]]. exists s'. split; [right; exact Hs'|exact H].
Qed.

Lemma flush_stores (now first user_id : Z) (signals : list Signal) (s : Signal) :
  In s signals ->
  exists r, In r (Service.flush now first (List.map (pending_of user_id) signals)) /\
            records now user_id s r.
Proof.
  revert first. induction signals as [|s' t IH]; intros first Hs; [destruct Hs|].
  cbn [List.map Service.flush]. destruct Hs as [->|Hs].
  - eexists. split; [left; reflexivity|]. unfold records. cbn. repeat split.
  - destruct (IH (first + 1)%Z Hs) as [r [Hr H]].
    exists r. split; [right; exact Hr|exact H].
Qed.

Lemma flat_map_map {A B C : Type} (f : A -> list B) (g : B -> C) (l : list A) :
  flat_map (fun x => List.map g (f x)) l = List.map g (flat_map f l).
Proof.
  induction l as [|x t IH]; [reflexivity|].
  cbn [flat_map]. rewrite IH, List.map_app. reflexivity.
Qed.

(** [run_scan] as a whole: the rows are the flushed pending results of the
    new signals, and the execution is recorded unless the watchlist is
    empty. *)
Lemma run_scan_spec
      (get_klines_df : string -> string -> Z -> result DataFrame)
      (render : PatternType -> string -> string -> Q -> Q -> Z -> string)
      (now : Z) (db : Service.Database) (user_id : Z)
      (symbols timeframes : option (list string)) (sensitivity : string) :
  let run := Service.run_scan get_klines_df render now db user_id symbols
               timeframes sensitivity in
  let news := new_signals_of get_klines_df render now db user_id symbols
                timeframes sensitivity in
  fst run
  = Service.flush now (Service.next_id (List.map ScanResult.id (Service.scan_results db)))
      (List.map (pending_of user_id) news) /\
  Service.watchlist_items (snd run) = Service.watchlist_items db /\
  Service.scan_results (snd run) = Service.scan_results db ++ fst run /\
  (Service.active_watchlist db user_id symbols = [] ->
   news = [] /\ Service.scan_executions (snd run) = Service.scan_executions db) /\
  (Service.active_watchlist db user_id symbols <> [] ->
   Service.scan_executions (snd run)
   = Service.scan_executions db ++
     [ {| ScanExecution.id :=
            Service.next_id (List.map ScanExecution.id (Service.scan_executions db));
          ScanExecution.user_id := user_id;
          ScanExecution.symbols_scanned :=
            len (Service.active_watchlist db user_id symbols);
          ScanExecution.signals_found := len (fst run);
          ScanExecution.sensitivity := sensitivity;
          ScanExecution.created_at := now |} ]).
Proof.
  cbv zeta. unfold Service.run_scan, new_signals_of.
  destruct (Service.active_watchlist db user_id symbols) as [|item t] eqn:Ew.
  - cbn. rewrite app_nil_r. repeat split; try reflexivity. intros H. congruence.
  - cbn [fst snd Service.watchlist_items Service.scan_results
           Service.scan_executions].
    rewrite scan_watchlist_spec. cbn [app].
    assert (Hres : flat_map (item_results get_klines_df render now
                               (create_detector sensitivity) db user_id timeframes)
                     (item :: t)
                   = List.map (pending_of user_id)
                       (flat_map (fun item0 =>
                          flat_map (fun tf =>
                            List.filter (is_new now db user_id)
                              (signals_of get_klines_df render
                                 (create_detector sensitivity) item0 tf))
                            (scanned_timeframes timeframes item0)) (item :: t))).
    { rewrite <- flat_map_map. apply flat_map_ext. intros it.
      unfold item_results, pair_results. apply flat_map_map. }
    rewrite Hres. split; [reflexivity|]. split; [reflexivity|].
    split; [reflexivity|]. split; [intros H; discriminate|].
    intros _. unfold len. rewrite flush_length. reflexivity.
Qed.

Lemma run_scan_rows
      (get_klines_df : string -> string -> Z -> result DataFrame)
      (render : PatternType -> string -> string -> Q -> Q -> Z -> string)
      (now : Z) (db : Service.Database) (user_id : Z)
      (symbols timeframes : option (list string)) (sensitivity : string)
      (r : ScanResult.row) :
  In r (fst (Service.run_scan get_klines_df render now db user_id symbols
               timeframes sensitivity)) ->
  ScanResult.user_id r = user_id /\ ScanResult.created_at r = now.
Proof.
  intros Hr.
  destruct (run_scan_spec get_klines_df render now db user_id symbols timeframes
              sensitivity) as [Hrows _].
  rewrite Hrows in Hr. split.
  - destruct (flush_records _ _ _ _ _ Hr) as [s [_ [Hu _]]]. exact Hu.
  - apply (flush_ids _ _ _ _ Hr).
Qed.

Lemma signals_of_detected
      (get_klines_df : string -> string -> Z -> result DataFrame)
      (render : PatternType -> string -> string -> Q -> Q -> Z -> string)
      (sensitivity : string) (item : WatchlistItem.row) (tf : string)
      (s : Signal) :
  In s (signals_of get_klines_df render (create_detector sensitivity) item tf)
  <-> detected_on get_klines_df render sensitivity item tf s.
Proof.
  unfold signals_of, detected_on. split.
  - intros Hs.
    destruct (get_klines_df (WatchlistItem.symbol item) tf 500%Z) as [df|e];
      [|destruct Hs].
    cbn [bind] in Hs.
    destruct (detect _ render df _ tf) as [signals|e] eqn:Ed; [|destruct Hs].
    exists df, signals. repeat split; assumption.
  - intros [df [signals [Hdf [Hd Hs]]]]. rewrite Hdf. cbn [bind]. rewrite Hd.
    exact Hs.
Qed.

Lemma new_signals_in
      (get_klines_df : string -> string -> Z -> result DataFrame)
      (render : PatternType -> string -> string -> Q -> Q -> Z -> string)
      (now : Z) (db : Service.Database) (user_id : Z)
      (symbols timeframes : option (list string)) (sensitivity : string)
      (s : Signal) :
  In s (new_signals_of get_klines_df render now db user_id symbols timeframes
          sensitivity)
  <-> exists item tf,
        scanned db user_id symbols timeframes item tf /\
        detected_on get_klines_df render sensitivity item tf s /\
        is_new now db user_id s = true.
Proof.
  unfold new_signals_of, scanned. rewrite in_flat_map. split.
  - intros [item [Hitem Hs]]. apply in_flat_map in Hs.
    destruct Hs as [tf [Htf Hs]]. apply filter_In in Hs. destruct Hs as [Hs Hn].
    exists item, tf. split; [split; assumption|].
    split; [apply signals_of_detected; exact Hs|exact Hn].
  - intros [item [tf [[Hitem Htf] [Hs Hn]]]]. exists item. split; [exact Hitem|].
    apply in_flat_map. exists tf. split; [exact Htf|].
    apply filter_In. split; [apply signals_of_detected; exact Hs|exact Hn].
Qed.

(** *** Extras on [run_scan] *)

(** X11. [run_scan] only appends.  The watchlist is unchanged and the
    stored results are the former ones followed by the returned rows.
    Every returned row belongs to the user, is created at the time of the
    scan, is flagged as a match, and has a positive key above every key
    stored before; the keys of the returned rows increase.  When the
    filtered active watchlist is not empty, exactly one execution is
    appended: of the user, with the number of watchlist items scanned (at
    least 1), the number of rows stored, the sensitivity asked for, the
    time of the scan and a key above the former ones. *)
Theorem run_scan_appends
        (get_klines_df : string -> string -> Z -> result DataFrame)
        (render : PatternType -> string -> string -> Q -> Q -> Z -> string)
        (now : Z) (db : Service.Database) (user_id : Z)
        (symbols timeframes : option (list string)) (sensitivity : string) :
  let rows := fst (Service.run_scan get_klines_df render now db user_id
                     symbols timeframes sensitivity) in
  let db' := snd (Service.run_scan get_klines_df render now db user_id
                    symbols timeframes sensitivity) in
  Service.watchlist_items db' = Service.watchlist_items db /\
  Service.scan_results db' = Service.scan_results db ++ rows /\
  (forall r, In r rows ->
     ScanResult.user_id r = user_id /\ ScanResult.created_at r = now /\
     ScanResult.is_match r = true /\ (0 < ScanResult.id r)%Z /\
     forall old, In old (Service.scan_results db) -> id_lt old r) /\
  StronglySorted id_lt rows /\
  (Service.active_watchlist db user_id symbols <> [] ->
   exists e,
     Service.scan_executions db' = Service.scan_executions db ++ [e] /\
     ScanExecution.user_id e = user_id /\
     ScanExecution.symbols_scanned e
     = len (Service.active_watchlist db user_id symbols) /\
     (1 <= ScanExecution.symbols_scanned e)%Z /\
     ScanExecution.signals_found e = len rows /\
     ScanExecution.sensitivity e = sensitivity /\
     ScanExecution.created_at e = now /\
     forall old, In old (Service.scan_executions db) ->
                 (ScanExecution.id old < ScanExecution.id e)%Z).
Proof.
  cbv zeta.
  destruct (run_scan_spec get_klines_df render now db user_id symbols timeframes
              sensitivity) as [Hrows [Hw [Hres [_ Hexec]]]].
  split; [exact Hw|]. split; [exact Hres|]. split; [|split].
  - intros r Hr. rewrite Hrows in Hr.
    destruct (flush_ids _ _ _ _ Hr) as [Hid Hc].
    destruct (flush_records _ _ _ _ _ Hr) as [s [_ Hrec]].
    destruct Hrec as [Hu [_ [_ [_ [_ [_ [_ [Hm _]]]]]]]].
    destruct (next_id_above (List.map ScanResult.id (Service.scan_results db)))
      as [H0 Habove].
    split; [exact Hu|]. split; [exact Hc|]. split; [exact Hm|].
    split; [lia|]. intros old Hold. unfold id_lt.
    specialize (Habove (ScanResult.id old) (in_map _ _ _ Hold)). lia.
  - rewrite Hrows. apply flush_sorted.
  - intros Hne. eexists. split; [exact (Hexec Hne)|].
    cbn [ScanExecution.user_id ScanExecution.symbols_scanned
           ScanExecution.signals_found ScanExecution.sensitivity
           ScanExecution.created_at ScanExecution.id].
    repeat split.
    + destruct (Service.active_watchlist db user_id symbols);
        [congruence|]. unfold len. cbn [List.length]. lia.
    + intros old Hold.
      destruct (next_id_above
                  (List.map ScanExecution.id (Service.scan_executions db)))
        as [_ Habove].
      exact (Habove _ (in_map _ _ _ Hold)).
Qed.

Lemma sorted_ids_nodup (rows : list ScanResult.row) :
  StronglySorted id_lt rows -> List.NoDup (List.map ScanResult.id rows).
Proof.
  induction 1 as [|r t Ht IH Hr]; cbn [List.map]; constructor; [|exact IH].
  intros Hin. apply in_map_iff in Hin. destruct Hin as [x [Hid Hx]].
  rewrite List.Forall_forall in Hr. specialize (Hr x Hx). unfold id_lt in Hr. lia.
Qed.

(** X12. [run_scan] keeps the primary keys unique: if no two stored
    results and no two stored executions share a key before the scan, none
    do after it.  This is the precondition of the purge of duplicates. *)
Theorem run_scan_keeps_keys_unique
        (get_klines_df : string -> string -> Z -> result DataFrame)
        (render : PatternType -> string -> string -> Q -> Q -> Z -> string)
        (now : Z) (db : Service.Database) (user_id : Z)
        (symbols timeframes : option (list string)) (sensitivity : string) :
  List.NoDup (List.map ScanResult.id (Service.scan_results db)) ->
  List.NoDup (List.map ScanExecution.id (Service.scan_executions db)) ->
  let db' := snd (Service.run_scan get_klines_df render now db user_id
                    symbols timeframes sensitivity) in
  List.NoDup (List.map ScanResult.id (Service.scan_results db')) /\
  List.NoDup (List.map ScanExecution.id (Service.scan_executions db')).
Proof.
  intros Hr He. cbv zeta.
  destruct (run_scan_spec get_klines_df render now db user_id symbols timeframes
              sensitivity) as [Hrows [_ [Hres [Hempty Hexec]]]].
  split.
  - rewrite Hres, List.map_app. apply List.NoDup_app; [exact Hr| |].
    + apply sorted_ids_nodup. rewrite Hrows. apply flush_sorted.
    + intros i Hi Hi'. apply in_map_iff in Hi' as [r [<- Hr']].
      rewrite Hrows in Hr'. apply flush_ids in Hr'.
      destruct (next_id_above (List.map ScanResult.id (Service.scan_results db)))
        as [_ Habove].
      specialize (Habove _ Hi). lia.
  - destruct (Service.active_watchlist db user_id symbols) as [|item t] eqn:Ew.
    + destruct (Hempty eq_refl) as [_ ->]. exact He.
    + rewrite Hexec by discriminate. rewrite List.map_app.
      apply List.NoDup_app; [exact He|repeat constructor; intros []|].
      intros i Hi [<-|[]]. cbn [ScanExecution.id] in Hi.
      destruct (next_id_above
                  (List.map ScanExecution.id (Service.scan_executions db)))
        as [_ Habove].
      specialize (Habove _ Hi). lia.
Qed.

Lemma run_scan_keeps_keys_unique_witness :
  List.NoDup
    (List.map ScanResult.id
       (Service.scan_results
          (snd (Service.run_scan Examples.retest_provider Examples.no_message
                  1000 Examples.db_watchlist 7 None None "medium")))) /\
  len (fst (Service.run_scan Examples.retest_provider Examples.no_message
              1000 Examples.db_watchlist 7 None None "medium")) = 2%Z.
Proof.
  split; [|vm_compute; reflexivity].
  apply (run_scan_keeps_keys_unique Examples.retest_provider
           Examples.no_message 1000 Examples.db_watchlist 7 None None "medium").
  - cbn. repeat constructor. intros [].
  - cbn. constructor.
Defined.

(** X13. What [run_scan] stores.  Every returned row records a signal that
    [detect] reported, with the preset of the sensitivity, on the candles
    served for a scanned pair of the user's watchlist; it carries the
    symbol of the item and the timeframe of the pair, and a confidence of
    at least 0.1.  No returned row had a similar stored signal when the
    scan began.  Conversely every signal detected on a scanned pair that
    had no similar stored signal is recorded by a returned row; a pair
    whose provider or detector raises contributes nothing. *)
Theorem run_scan_stores_new_signals
        (get_klines_df : string -> string -> Z -> result DataFrame)
        (render : PatternType -> string -> string -> Q -> Q -> Z -> string)
        (now : Z) (db : Service.Database) (user_id : Z)
        (symbols timeframes : option (list string)) (sensitivity : string) :
  let rows := fst (Service.run_scan get_klines_df render now db user_id
                     symbols timeframes sensitivity) in
  (forall r, In r rows ->
     exists item tf s,
       scanned db user_id symbols timeframes item tf /\
       detected_on get_klines_df render sensitivity item tf s /\
       records now user_id s r /\
       ScanResult.symbol r = WatchlistItem.symbol item /\
       ScanResult.timeframe r = tf /\
       (1 # 10 <= ScanResult.confidence_score r)%Q) /\
  (forall r, In r rows ->
     Service._signal_exists now db user_id (ScanResult.symbol r)
       (ScanResult.timeframe r) (ScanResult.pattern_type r)
       (ScanResult.level_price r) = false) /\
  (forall item tf s,
     scanned db user_id symbols timeframes item tf ->
     detected_on get_klines_df render sensitivity item tf s ->
     is_new now db user_id s = true ->
     exists r, In r rows /\ records now user_id s r).
Proof.
  cbv zeta.
  destruct (run_scan_spec get_klines_df render now db user_id symbols timeframes
              sensitivity) as [Hrows _].
  rewrite Hrows.
  assert (Hsound : forall r,
    In r (Service.flush now
            (Service.next_id (List.map ScanResult.id (Service.scan_results db)))
            (List.map (pending_of user_id)
               (new_signals_of get_klines_df render now db user_id symbols
                  timeframes sensitivity))) ->
    exists item tf s,
      scanned db user_id symbols timeframes item tf /\
      detected_on get_klines_df render sensitivity item tf s /\
      is_new now db user_id s = true /\ records now user_id s r).
  { intros r Hr. destruct (flush_records _ _ _ _ _ Hr) as [s [Hs Hrec]].
    apply new_signals_in in Hs. destruct Hs as [item [tf [Hsc [Hd Hn]]]].
    exists item, tf, s. split; [exact Hsc|]. split; [exact Hd|].
    split; [exact Hn|exact Hrec]. }
  split; [|split].
  - intros r Hr. destruct (Hsound r Hr) as [item [tf [s [Hsc [Hd [_ Hrec]]]]]].
    exists item, tf, s. split; [exact Hsc|]. split; [exact Hd|].
    split; [exact Hrec|].
    destruct Hd as [df [signals [_ [Hdet Hs]]]].
    destruct (detect_signal_fields _ _ _ _ _ _ _ Hdet Hs)
      as [Hsym [Htf [Hst _]]].
    destruct Hrec as [_ [Hrs [Hrt [_ [_ [_ [Hconf _]]]]]]].
    split; [congruence|]. split; [congruence|].
    rewrite Hconf. unfold Qle, Qdiv. cbn. lia.
  - intros r Hr. destruct (Hsound r Hr) as [item [tf [s [_ [_ [Hn Hrec]]]]]].
    destruct Hrec as [_ [-> [-> [-> [-> _]]]]].
    unfold is_new in Hn. apply negb_true_iff in Hn. exact Hn.
  - intros item tf s Hsc Hd Hn. apply flush_stores.
    apply new_signals_in. exists item, tf. split; [exact Hsc|].
    split; assumption.
Qed.

Lemma signal_exists_similar (now : Z) (db : Service.Database) (user_id : Z)
      (sym tf pt : string) (level : Q) :
  Service._signal_exists now db user_id sym tf pt level = true <->
  exists r, In r (Service.scan_results db) /\
            Service.similar
              (now - Service.timedelta_hours Service.DUPLICATE_WINDOW_HOURS)
              (level * (1 - Service.PRICE_TOLERANCE))
              (level * (1 + Service.PRICE_TOLERANCE))
              user_id sym tf pt r = true.
Proof. unfold Service._signal_exists. cbv zeta. apply count_positive. Qed.

Lemma active_watchlist_same (db db' : Service.Database) (user_id : Z)
      (symbols : option (list string)) :
  Service.watchlist_items db' = Service.watchlist_items db ->
  Service.active_watchlist db' user_id symbols
  = Service.active_watchlist db user_id symbols.
Proof. intros H. unfold Service.active_watchlist. rewrite H. reflexivity. Qed.

Lemma flush_nil_iff (now first : Z) (ps : list Service.Pending) :
  Service.flush now first ps = [] <-> ps = [].
Proof. destruct ps; cbn; split; congruence. Qed.

Lemma no_new_signals_no_rows
      (get_klines_df : string -> string -> Z -> result DataFrame)
      (render : PatternType -> string -> string -> Q -> Q -> Z -> string)
      (now : Z) (db : Service.Database) (user_id : Z)
      (symbols timeframes : option (list string)) (sensitivity : string) :
  (forall s, ~ In s (new_signals_of get_klines_df render now db user_id symbols
                       timeframes sensitivity)) ->
  fst (Service.run_scan get_klines_df render now db user_id symbols timeframes
         sensitivity) = [] /\
  Service.scan_results
    (snd (Service.run_scan get_klines_df render now db user_id symbols
            timeframes sensitivity)) = Service.scan_results db.
Proof.
  intros Hnone.
  destruct (run_scan_spec get_klines_df render now db user_id symbols timeframes
              sensitivity) as [Hrows [_ [Hres _]]].
  destruct (new_signals_of get_klines_df render now db user_id symbols
              timeframes sensitivity) as [|s t].
  - cbn in Hrows. rewrite Hres, Hrows, app_nil_r. split; reflexivity.
  - exfalso. apply (Hnone s). left. reflexivity.
Qed.

(** X14. Scanning again over the same candles stores nothing.  Let the
    provider serve candles without negative highs or lows, let a first scan
    run at [now] and a second one, with the same arguments, at [now'], no
    more than the duplicate window after [now] and such that every stored
    row of the user inside the window at [now] is still inside it at
    [now'].  Then the second scan returns no row and leaves the stored
    results as the first scan left them. *)
Theorem run_scan_again_stores_nothing
        (get_klines_df : string -> string -> Z -> result DataFrame)
        (render : PatternType -> string -> string -> Q -> Q -> Z -> string)
        (now now' : Z) (db : Service.Database) (user_id : Z)
        (symbols timeframes : option (list string)) (sensitivity : string) :
  (forall sym tf df, get_klines_df sym tf 500%Z = Ok df ->
     forall c, In c df -> (0 <= high c)%Q /\ (0 <= low c)%Q) ->
  (now' - Service.timedelta_hours Service.DUPLICATE_WINDOW_HOURS <= now)%Z ->
  (forall r, In r (Service.scan_results db) -> ScanResult.user_id r = user_id ->
     (now - Service.timedelta_hours Service.DUPLICATE_WINDOW_HOURS
      <= ScanResult.created_at r)%Z ->
     (now' - Service.timedelta_hours Service.DUPLICATE_WINDOW_HOURS
      <= ScanResult.created_at r)%Z) ->
  let db1 := snd (Service.run_scan get_klines_df render now db user_id symbols
                    timeframes sensitivity) in
  let again := Service.run_scan get_klines_df render now' db1 user_id symbols
                 timeframes sensitivity in
  fst again = [] /\ Service.scan_results (snd again) = Service.scan_results db1.
Proof.
  intros Hdata Hnow Hold. cbv zeta.
  set (run := Service.run_scan get_klines_df render now db user_id symbols
                timeframes sensitivity).
  destruct (run_scan_spec get_klines_df render now db user_id symbols timeframes
              sensitivity) as [Hrows [Hw [Hres _]]].
  fold run in Hrows, Hw, Hres.
  apply no_new_signals_no_rows. intros s Hs.
  apply new_signals_in in Hs. destruct Hs as [item [tf [[Hitem Htf] [Hd Hn]]]].
  rewrite (active_watchlist_same db (snd run) user_id symbols Hw) in Hitem.
  unfold is_new in Hn. apply negb_true_iff in Hn.
  assert (Hex : Service._signal_exists now' (snd run) user_id (symbol s)
                  (timeframe s) (pattern_value (pattern_type s)) (level_price s)
                = true); [|congruence].
  apply signal_exists_similar.
  destruct (is_new now db user_id s) eqn:Hfirst.
  - assert (Hin : In s (new_signals_of get_klines_df render now db user_id
                          symbols timeframes sensitivity)).
    { apply new_signals_in. exists item, tf. split; [split; assumption|].
      split; assumption. }
    destruct (flush_stores now
                (Service.next_id (List.map ScanResult.id (Service.scan_results db)))
                user_id _ s Hin) as [r [Hr Hrec]].
    rewrite <- Hrows in Hr.
    exists r. split; [rewrite Hres; apply in_or_app; right; exact Hr|].
    destruct Hrec as [Hu [Hsy [Htf' [Hpt [Hlp [_ [_ [_ [_ Hc]]]]]]]]].
    apply similar_iff. unfold same_target. rewrite Hu, Hsy, Htf', Hpt, Hlp, Hc.
    split; [repeat split|].
    destruct Hd as [df [signals [Hdf [Hdet Hs]]]].
    pose proof (detect_level_nonneg _ render df _ tf signals s
                  (proj1 (create_detector_sane sensitivity))
                  (Hdata _ _ _ Hdf) Hdet Hs) as Hpos.
    unfold Service.PRICE_TOLERANCE.
    split; [|split; [|exact Hnow]].
    + assert (E : (level_price s * (1 - 0.005) == level_price s - level_price s * 0.005)%Q)
        by ring.
      rewrite E. assert (0 <= level_price s * 0.005)%Q
        by (apply Qmult_le_0_compat; [exact Hpos|discriminate]). lra.
    + assert (E : (level_price s * (1 + 0.005) == level_price s + level_price s * 0.005)%Q)
        by ring.
      rewrite E. assert (0 <= level_price s * 0.005)%Q
        by (apply Qmult_le_0_compat; [exact Hpos|discriminate]). lra.
  - unfold is_new in Hfirst. apply negb_false_iff in Hfirst.
    apply signal_exists_similar in Hfirst. destruct Hfirst as [r [Hr Hsim]].
    exists r. split; [rewrite Hres; apply in_or_app; left; exact Hr|].
    apply similar_iff in Hsim. destruct Hsim as [Ht [Hlo [Hhi Hc]]].
    apply similar_iff. split; [exact Ht|]. split; [exact Hlo|].
    split; [exact Hhi|]. apply (Hold r Hr); [apply Ht|exact Hc].
Qed.

Lemma run_scan_again_stores_nothing_witness :
  len (fst (Service.run_scan Examples.retest_provider Examples.no_message
              1000 Examples.db_watchlist 7 None None "medium")) = 2%Z /\
  fst (Service.run_scan Examples.retest_provider Examples.no_message
         (1000 + Examples.one_hour)
         (snd (Service.run_scan Examples.retest_provider Examples.no_message
                 1000 Examples.db_watchlist 7 None None "medium"))
         7 None None "medium") = [].
Proof.
  split; [vm_compute; reflexivity|].
  apply (run_scan_again_stores_nothing Examples.retest_provider
           Examples.no_message 1000 (1000 + Examples.one_hour)
           Examples.db_watchlist 7 None None "medium").
  - intros sym tf df H c Hc. injection H as <-.
    assert (Hall : forallb (fun c => Qle_bool 0 (high c) && Qle_bool 0 (low c))
                     Examples.df_retest_90 = true) by (vm_compute; reflexivity).
    rewrite forallb_forall in Hall. specialize (Hall c Hc).
    apply andb_prop in Hall. destruct Hall as [H1 H2].
    apply Qle_bool_iff in H1, H2. split; assumption.
  - vm_compute. discriminate.
  - intros r [<-|[]] _ _. vm_compute. discriminate.
Defined.

(** X15. When, for every scanned pair, the provider raises or serves fewer
    candles than [2 * pivot_lookback + max_retest_candles] of the chosen
    preset, [run_scan] returns no row and leaves the stored results
    unchanged; if the watchlist is not empty it still records an execution,
    with [signals_found = 0] and the number of items scanned. *)
Theorem run_scan_without_data
        (get_klines_df : string -> string -> Z -> result DataFrame)
        (render : PatternType -> string -> string -> Q -> Q -> Z -> string)
        (now : Z) (db : Service.Database) (user_id : Z)
        (symbols timeframes : option (list string)) (sensitivity : string) :
  (forall item tf,
     scanned db user_id symbols timeframes item tf ->
     match get_klines_df (WatchlistItem.symbol item) tf 500%Z with
     | Ok df =>
         (len df < pivot_lookback (create_detector sensitivity) * 2
                   + max_retest_candles (create_detector sensitivity))%Z
     | Raise _ => True
     end) ->
  let run := Service.run_scan get_klines_df render now db user_id symbols
               timeframes sensitivity in
  fst run = [] /\
  Service.scan_results (snd run) = Service.scan_results db /\
  (Service.active_watchlist db user_id symbols <> [] ->
   exists e, Service.scan_executions (snd run)
             = Service.scan_executions db ++ [e] /\
             ScanExecution.signals_found e = 0%Z /\
             ScanExecution.symbols_scanned e
             = len (Service.active_watchlist db user_id symbols)).
Proof.
  intros Hdata. cbv zeta.
  assert (Hnone : forall s,
            ~ In s (new_signals_of get_klines_df render now db user_id symbols
                      timeframes sensitivity)).
  { intros s Hs. apply new_signals_in in Hs.
    destruct Hs as [item [tf [Hsc [[df [signals [Hdf [Hdet Hs]]]] _]]]].
    specialize (Hdata item tf Hsc). rewrite Hdf in Hdata.
    unfold detect in Hdet. apply Z.ltb_lt in Hdata. rewrite Hdata in Hdet.
    injection Hdet as <-. destruct Hs. }
  destruct (no_new_signals_no_rows _ _ _ _ _ _ _ _ Hnone) as [Hrows Hres].
  split; [exact Hrows|]. split; [exact Hres|]. intros Hne.
  destruct (run_scan_spec get_klines_df render now db user_id symbols timeframes
              sensitivity) as [_ [_ [_ [_ Hexec]]]].
  eexists. split; [exact (Hexec Hne)|].
  cbn [ScanExecution.signals_found ScanExecution.symbols_scanned].
  rewrite Hrows. split; reflexivity.
Qed.

Lemma run_scan_without_data_witness :
  fst (Service.run_scan Examples.no_provider Examples.no_message 1000
         Examples.db_watchlist 7 None None "low") = [] /\
  len (Service.scan_executions
         (snd (Service.run_scan Examples.no_provider Examples.no_message 1000
                 Examples.db_watchlist 7 None None "low"))) = 1%Z.
Proof.
  split; [|vm_compute; reflexivity].
  apply (run_scan_without_data Examples.no_provider Examples.no_message 1000
           Examples.db_watchlist 7 None None "low").
  intros item tf _. exact I.
Defined.

(** *** Clearing old results *)

Lemma filter_filter_absorb {A : Type} (f g : A -> bool) (l : list A) :
  (forall x, In x l -> f x = true -> g x = true) ->
  List.filter f (List.filter g l) = List.filter f l.
Proof.
  induction l as [|x t IH]; intros H; [reflexivity|].
  cbn [List.filter].
  assert (IH' : List.filter f (List.filter g t) = List.filter f t).
  { apply IH. intros y Hy. apply H. right. exact Hy. }
  destruct (g x) eqn:Eg.
  - cbn [List.filter]. rewrite IH'. reflexivity.
  - destruct (f x) eqn:Ef; [|exact IH'].
    rewrite (H x (or_introl eq_refl) Ef) in Eg. discriminate.
Qed.

(** X16. [clear_old_results] touches nothing but the stored results of the
    user: the watchlist, the executions and the rows of every other user
    stay as they are, in their order.  A row of the user remains exactly
    when [days] is not 0 and the row was created at or after [now] minus
    [days] days; with [days = 0] none remains.  Clearing again at once
    changes nothing. *)
Theorem clear_old_results_effect (now : Z) (db : Service.Database)
        (user_id days : Z) :
  let db' := Service.clear_old_results now db user_id days in
  Service.watchlist_items db' = Service.watchlist_items db /\
  Service.scan_executions db' = Service.scan_executions db /\
  List.filter (of_other_user user_id) (Service.scan_results db')
  = List.filter (of_other_user user_id) (Service.scan_results db) /\
  (forall r, In r (Service.scan_results db') <->
             In r (Service.scan_results db) /\
             (ScanResult.user_id r <> user_id \/
              (days <> 0 /\
               now - Service.timedelta_days days <= ScanResult.created_at r)%Z)) /\
  (days = 0%Z ->
   Service.scan_results db'
   = List.filter (of_other_user user_id) (Service.scan_results db)) /\
  Service.clear_old_results now db' user_id days = db'.
Proof.
  cbv zeta. unfold Service.clear_old_results.
  destruct (days =? 0)%Z eqn:Ed;
    cbn [Service.watchlist_items Service.scan_executions Service.scan_results].
  - apply Z.eqb_eq in Ed.
    split; [reflexivity|]. split; [reflexivity|]. split; [|split; [|split]].
    + apply filter_filter_absorb. intros x _ H. exact H.
    + intros r. rewrite filter_In, negb_true_iff, Z.eqb_neq. split.
      * intros [Hr Hu]. split; [exact Hr|left; exact Hu].
      * intros [Hr [Hu|[Hd _]]]; [split; assumption|contradiction].
    + intros _. reflexivity.
    + f_equal. apply filter_filter_absorb. intros x _ H. exact H.
  - apply Z.eqb_neq in Ed.
    split; [reflexivity|]. split; [reflexivity|]. split; [|split; [|split]].
    + apply filter_filter_absorb. intros x _ H. unfold of_other_user in H.
      apply negb_true_iff in H. rewrite H. reflexivity.
    + intros r. rewrite filter_In, negb_true_iff, andb_false_iff, Z.eqb_neq,
        Z.ltb_ge. split.
      * intros [Hr [Hu|Hc]]; (split; [exact Hr|]); [left; exact Hu|].
        right. split; [exact Ed|exact Hc].
      * intros [Hr [Hu|[_ Hc]]]; (split; [exact Hr|]); [left|right]; assumption.
    + intros Hd. contradiction.
    + f_equal. apply filter_filter_absorb. intros x _ H. exact H.
Qed.

(** X17. Clearing with a retention of [days'] days and later (or at the
    same time) with a shorter or equal retention of [days] days, both
    positive, leaves the store that the second clearing alone would
    leave. *)
Theorem clear_old_results_composes (now now' : Z) (db : Service.Database)
        (user_id days days' : Z) :
  (0 < days <= days')%Z -> (now' <= now)%Z ->
  Service.clear_old_results now (Service.clear_old_results now' db user_id days')
    user_id days
  = Service.clear_old_results now db user_id days.
Proof.
  intros Hd Hn. unfold Service.clear_old_results.
  replace (days =? 0)%Z with false by (symmetry; apply Z.eqb_neq; lia).
  replace (days' =? 0)%Z with false by (symmetry; apply Z.eqb_neq; lia).
  cbn [Service.watchlist_items Service.scan_executions Service.scan_results].
  f_equal. apply filter_filter_absorb. intros r _ H.
  apply negb_true_iff, andb_false_iff in H. apply negb_true_iff, andb_false_iff.
  destruct H as [H|H]; [left; exact H|right].
  apply Z.ltb_ge in H. apply Z.ltb_ge.
  unfold Service.timedelta_days in *. lia.
Qed.

Lemma clear_old_results_composes_witness :
  Service.clear_old_results Examples.now_25h
    (Service.clear_old_results Examples.now_25h Examples.db_duplicates 7 7) 7 1
  = Service.clear_old_results Examples.now_25h Examples.db_duplicates 7 1 /\
  Service.scan_results
    (Service.clear_old_results Examples.now_25h Examples.db_duplicates 7 1) = [].
Proof.
  split; [|vm_compute; reflexivity].
  apply (clear_old_results_composes Examples.now_25h Examples.now_25h
           Examples.db_duplicates 7 1 7); lia.
Defined.

(** *** Reading the stored results *)

Lemma created_geb_total (a b : ScanResult.row) :
  created_geb a b = false -> created_geb b a = true.
Proof. unfold created_geb. intros H. apply Z.leb_gt in H. apply Z.leb_le. lia. Qed.

Lemma created_geb_trans (a b c : ScanResult.row) :
  created_geb a b = true -> created_geb b c = true -> created_geb a c = true.
Proof.
  unfold created_geb. intros H1 H2. apply Z.leb_le in H1, H2. apply Z.leb_le. lia.
Qed.

Lemma firstn_in {A : Type} (n : nat) (l : list A) (x : A) :
  In x (firstn n l) -> In x l.
Proof.
  revert l. induction n as [|n IH]; intros l H; [destruct H|].
  destruct l as [|y t]; [destruct H|]. cbn [firstn] in H.
  destruct H as [<-|H]; [left; reflexivity|right; exact (IH _ H)].
Qed.

Lemma skipn_in {A : Type} (n : nat) (l : list A) (x : A) :
  In x (skipn n l) -> In x l.
Proof.
  revert l. induction n as [|n IH]; intros l H; [exact H|].
  destruct l as [|y t]; [destruct H|]. right. exact (IH _ H).
Qed.

Lemma sorted_skipn {A : Type} (R : A -> A -> Prop) (n : nat) (l : list A) :
  StronglySorted R l -> StronglySorted R (skipn n l).
Proof.
  revert l. induction n as [|n IH]; intros l Hs; [exact Hs|].
  destruct l as [|x t]; [constructor|]. cbn [skipn].
  apply IH. apply StronglySorted_inv in Hs. apply Hs.
Qed.

Lemma sorted_firstn {A : Type} (R : A -> A -> Prop) (n : nat) (l : list A) :
  StronglySorted R l -> StronglySorted R (firstn n l).
Proof.
  revert l. induction n as [|n IH]; intros l Hs; [constructor|].
  destruct l as [|x t]; [constructor|]. cbn [firstn].
  apply StronglySorted_inv in Hs. destruct Hs as [Ht Hx].
  constructor; [apply IH; exact Ht|].
  rewrite List.Forall_forall in Hx |- *. intros y Hy. apply Hx.
  exact (firstn_in _ _ _ Hy).
Qed.

Lemma page_in (skip limit : Z) (rows : list ScanResult.row) (r : ScanResult.row) :
  In r (Service.page skip limit rows) -> In r rows.
Proof.
  unfold Service.page. intros H.
  destruct (limit <? 0)%Z; [|apply firstn_in in H];
    exact (skipn_in _ _ _ H).
Qed.

Lemma page_sorted (R : ScanResult.row -> ScanResult.row -> Prop)
      (skip limit : Z) (rows : list ScanResult.row) :
  StronglySorted R rows -> StronglySorted R (Service.page skip limit rows).
Proof.
  intros Hs. unfold Service.page.
  destruct (limit <? 0)%Z; [|apply sorted_firstn]; apply sorted_skipn; exact Hs.
Qed.

Lemma page_length (skip limit : Z) (rows : list ScanResult.row) :
  (0 <= skip)%Z -> (0 <= limit)%Z ->
  len (Service.page skip limit rows) = Z.min limit (Z.max 0 (len rows - skip)).
Proof.
  intros Hs Hl. unfold Service.page, len.
  replace (limit <? 0)%Z with false by (symmetry; apply Z.ltb_ge; exact Hl).
  rewrite List.length_firstn, List.length_skipn. lia.
Qed.

Lemma firstn_add {A : Type} (a b : nat) (l : list A) :
  firstn (a + b) l = firstn a l ++ firstn b (skipn a l).
Proof.
  revert l. induction a as [|a IH]; intros l; [reflexivity|].
  destruct l as [|x t]; [cbn; rewrite firstn_nil; reflexivity|].
  cbn [Nat.add firstn skipn app]. rewrite IH. reflexivity.
Qed.

Lemma skipn_add {A : Type} (a b : nat) (l : list A) :
  skipn (a + b) l = skipn b (skipn a l).
Proof.
  revert l. induction a as [|a IH]; intros l; [reflexivity|].
  destruct l as [|x t]; [cbn; rewrite skipn_nil; reflexivity|].
  cbn [Nat.add skipn]. apply IH.
Qed.

(** X18. A page of [get_results] holds stored rows of the user only (of the
    given pattern type when one is given), newest first, without repeats
    when the table has none, and never more rows than the total.  For
    [skip >= 0] and [limit >= 0] it holds exactly
    [min(limit, max(0, total - skip))] rows; from [skip = 0] with a limit
    of at least the total it holds every selected row.  The empty string
    as pattern type selects like no pattern type. *)
Theorem get_results_page (db : Service.Database) (user_id skip limit : Z)
        (pattern_type : option string) :
  let results := fst (Service.get_results db user_id skip limit pattern_type) in
  let total := snd (Service.get_results db user_id skip limit pattern_type) in
  (forall r, In r results ->
     In r (Service.scan_results db) /\ ScanResult.user_id r = user_id /\
     forall c p, pattern_type = Some (String c p) ->
                 ScanResult.pattern_type r = String c p) /\
  StronglySorted (fun a b => created_geb a b = true) results /\
  (List.NoDup (Service.scan_results db) -> List.NoDup results) /\
  (len results <= total)%Z /\
  (0 <= skip -> 0 <= limit ->
   len results = Z.min limit (Z.max 0 (total - skip)))%Z /\
  (skip = 0%Z -> limit < 0 \/ total <= limit ->
   Permutation results
     (List.filter (Service.selected user_id pattern_type)
        (Service.scan_results db)))%Z /\
  Service.get_results db user_id skip limit (Some EmptyString)
  = Service.get_results db user_id skip limit None.
Proof.
  cbv zeta. unfold Service.get_results. cbn [fst snd].
  set (sel := List.filter (Service.selected user_id pattern_type)
                (Service.scan_results db)).
  assert (Hperm : Permutation (Service.newest_first sel) sel)
    by (apply sort_by_perm).
  assert (Hsorted : StronglySorted (fun a b => created_geb a b = true)
                      (Service.newest_first sel)).
  { apply (sort_by_sorted created_geb);
      [exact created_geb_total|exact created_geb_trans]. }
  split; [|split; [|split; [|split; [|split; [|split]]]]].
  - intros r Hr. apply page_in in Hr. apply (Permutation_in _ Hperm) in Hr.
    apply filter_In in Hr. destruct Hr as [Hr Hsel].
    unfold Service.selected in Hsel. apply andb_prop in Hsel.
    destruct Hsel as [Hu Hp]. apply Z.eqb_eq in Hu.
    split; [exact Hr|]. split; [exact Hu|].
    intros c p ->. apply String.eqb_eq in Hp. exact Hp.
  - apply page_sorted. exact Hsorted.
  - intros Hnd.
    assert (Hnd' : List.NoDup (Service.newest_first sel)).
    { apply (Permutation_NoDup (Permutation_sym Hperm)).
      apply List.NoDup_filter. exact Hnd. }
    unfold Service.page.
    assert (Hsk : List.NoDup (skipn (Z.to_nat skip) (Service.newest_first sel))).
    { rewrite <- (firstn_skipn (Z.to_nat skip)) in Hnd'.
      exact (List.NoDup_app_remove_l _ _ Hnd'). }
    destruct (limit <? 0)%Z; [exact Hsk|].
    rewrite <- (firstn_skipn (Z.to_nat limit)) in Hsk.
    exact (List.NoDup_app_remove_r _ _ Hsk).
  - unfold Service.page, len. rewrite <- (Permutation_length Hperm).
    destruct (limit <? 0)%Z;
      [|rewrite List.length_firstn]; rewrite List.length_skipn; lia.
  - intros Hs Hl. rewrite (page_length _ _ _ Hs Hl). unfold len.
    rewrite (Permutation_length Hperm). reflexivity.
  - intros -> Hl. unfold Service.page. change (Z.to_nat 0) with 0%nat.
    cbn [skipn].
    destruct (limit <? 0)%Z eqn:El; [exact Hperm|].
    apply Z.ltb_ge in El. destruct Hl as [Hl|Hl]; [lia|].
    rewrite firstn_all2; [exact Hperm|].
    pose proof (Permutation_length Hperm) as Hlen. unfold len in Hl.
    rewrite List.length_skipn. lia.
  - reflexivity.
Qed.

(** X19. Consecutive pages tile the result: the page of [limit] rows at
    [skip] followed by the page of [limit'] rows at [skip + limit] is the
    page of [limit + limit'] rows at [skip]. *)
Theorem get_results_pages_tile (db : Service.Database)
        (user_id skip limit limit' : Z) (pattern_type : option string) :
  (0 <= skip)%Z -> (0 <= limit)%Z -> (0 <= limit')%Z ->
  fst (Service.get_results db user_id skip limit pattern_type) ++
  fst (Service.get_results db user_id (skip + limit) limit' pattern_type)
  = fst (Service.get_results db user_id skip (limit + limit') pattern_type).
Proof.
  intros Hs Hl Hl'. unfold Service.get_results, Service.page. cbn [fst].
  replace (limit <? 0)%Z with false by (symmetry; apply Z.ltb_ge; lia).
  replace (limit' <? 0)%Z with false by (symmetry; apply Z.ltb_ge; lia).
  replace (limit + limit' <? 0)%Z with false by (symmetry; apply Z.ltb_ge; lia).
  rewrite !Z2Nat.inj_add by lia. rewrite skipn_add, firstn_add. reflexivity.
Qed.

Lemma get_results_pages_tile_witness :
  fst (Service.get_results Examples.db_duplicates 7 0 1 None) ++
  fst (Service.get_results Examples.db_duplicates 7 (0 + 1) 2 None)
  = fst (Service.get_results Examples.db_duplicates 7 0 (1 + 2) None) /\
  List.map ScanResult.id
    (fst (Service.get_results Examples.db_duplicates 7 0 (1 + 2) None))
  = [1; 3; 2]%Z.
Proof.
  split; [|vm_compute; reflexivity].
  apply (get_results_pages_tile Examples.db_duplicates 7 0 1 2 None); lia.
Defined.

(** *** The status of the scanner *)

Lemma newest_head (l : list Z) :
  match sort_by (fun a b => (b <=? a)%Z) l with
  | [] => l = []
  | t :: _ => In t l /\ forall x, In x l -> (x <= t)%Z
  end.
Proof.
  pose proof (sort_by_perm (fun a b => (b <=? a)%Z) l) as Hperm.
  assert (Hsorted : StronglySorted (fun a b => (b <=? a)%Z = true)
                      (sort_by (fun a b => (b <=? a)%Z) l)).
  { apply (sort_by_sorted (fun a b => (b <=? a)%Z)).
    - intros a b H. apply Z.leb_gt in H. apply Z.leb_le. lia.
    - intros a b c H1 H2. apply Z.leb_le in H1, H2. apply Z.leb_le. lia. }
  destruct (sort_by (fun a b => (b <=? a)%Z) l) as [|t rest].
  - apply Permutation_nil in Hperm. exact Hperm.
  - split; [apply (Permutation_in _ Hperm); left; reflexivity|].
    intros x Hx. apply (Permutation_in _ (Permutation_sym Hperm)) in Hx.
    destruct Hx as [<-|Hx]; [lia|].
    apply StronglySorted_inv in Hsorted. destruct Hsorted as [_ Ht].
    rewrite List.Forall_forall in Ht. apply Z.leb_le. exact (Ht x Hx).
Qed.


Lemma filter_none {A : Type} (f : A -> bool) (l : list A) :
  (forall x, In x l -> f x = false) -> List.filter f l = [].
Proof.
  induction l as [|x t IH]; intros H; [reflexivity|].
  cbn [List.filter]. rewrite (H x (or_introl eq_refl)).
  apply IH. intros y Hy. apply H. right. exact Hy.
Qed.

Lemma filter_all {A : Type} (f : A -> bool) (l : list A) :
  (forall x, In x l -> f x = true) -> List.filter f l = l.
Proof.
  induction l as [|x t IH]; intros H; [reflexivity|].
  cbn [List.filter]. rewrite (H x (or_introl eq_refl)). f_equal.
  apply IH. intros y Hy. apply H. right. exact Hy.
Qed.

Lemma len_app {A : Type} (l l' : list A) : len (l ++ l') = (len l + len l')%Z.
Proof. unfold len. rewrite List.length_app. lia. Qed.

(** X20. [get_status] always reports [is_running = False] and an interval
    of 5 minutes, whatever the scheduler does.  Its [last_scan] is absent
    exactly when the user has no recorded execution; otherwise it is the
    creation time of an execution of the user and no execution of the user
    is later.  A positive [scans_today] comes with a [last_scan]. *)
Theorem get_status_last_scan (now : Z) (db : Service.Database) (user_id : Z) :
  let st := Service.get_status now db user_id in
  Service.is_running st = false /\
  Service.scan_interval_minutes st = 5%Z /\
  (Service.last_scan st = None <->
   forall e, In e (Service.scan_executions db) ->
             ScanExecution.user_id e <> user_id) /\
  (forall t, Service.last_scan st = Some t ->
     (exists e, In e (Service.scan_executions db) /\
                ScanExecution.user_id e = user_id /\
                ScanExecution.created_at e = t) /\
     forall e, In e (Service.scan_executions db) ->
               ScanExecution.user_id e = user_id ->
               (ScanExecution.created_at e <= t)%Z) /\
  (0 < Service.scans_today st -> exists t, Service.last_scan st = Some t)%Z.
Proof.
  cbv zeta. unfold Service.get_status.
  cbn [Service.is_running Service.scan_interval_minutes Service.last_scan
         Service.scans_today].
  set (mine := List.filter (fun e => (ScanExecution.user_id e =? user_id)%Z)
                 (Service.scan_executions db)).
  pose proof (newest_head (List.map ScanExecution.created_at mine)) as Hhead.
  assert (Hmine : forall e, In e mine <->
                            In e (Service.scan_executions db) /\
                            ScanExecution.user_id e = user_id).
  { intros e. unfold mine. rewrite filter_In, Z.eqb_eq. reflexivity. }
  split; [reflexivity|]. split; [reflexivity|].
  destruct (sort_by (fun a b => (b <=? a)%Z)
              (List.map ScanExecution.created_at mine)) as [|t rest].
  - apply map_eq_nil in Hhead.
    split; [|split].
    + split; [|reflexivity]. intros _ e He Hu.
      assert (Hin : In e mine) by (apply Hmine; split; assumption).
      rewrite Hhead in Hin. destruct Hin.
    + intros t H. discriminate.
    + intros Hpos. exfalso.
      assert (Hnone : List.filter
                (fun e => (ScanExecution.user_id e =? user_id)%Z &&
                          (Service.date_of (ScanExecution.created_at e)
                           =? Service.date_of now)%Z)
                (Service.scan_executions db) = []).
      { apply filter_none. intros e He.
        destruct (ScanExecution.user_id e =? user_id)%Z eqn:Hu; [|reflexivity].
        apply Z.eqb_eq in Hu.
        assert (Hin : In e mine) by (apply Hmine; split; assumption).
        rewrite Hhead in Hin. destruct Hin. }
      rewrite Hnone in Hpos. unfold len in Hpos. cbn [List.length] in Hpos. lia.
  - destruct Hhead as [Hin Hmax]. split; [|split].
    + split; [discriminate|]. intros Hnone. exfalso.
      apply in_map_iff in Hin. destruct Hin as [e [_ He]].
      apply Hmine in He. destruct He as [He Hu]. exact (Hnone e He Hu).
    + intros t' Ht. injection Ht as <-. split.
      * apply in_map_iff in Hin. destruct Hin as [e [Hc He]].
        apply Hmine in He. destruct He as [He Hu]. exists e. repeat split; assumption.
      * intros e He Hu. apply Hmax. apply in_map. apply Hmine. split; assumption.
    + intros _. exists t. reflexivity.
Qed.



(** *** Purging twice *)

Lemma signals_of_user_spec (db : Service.Database) (user_id : Z) :
  List.NoDup (Service.scan_results db) ->
  (forall x, In x (Service.signals_of_user db user_id) <->
             In x (Service.scan_results db) /\ ScanResult.user_id x = user_id) /\
  List.NoDup (Service.signals_of_user db user_id) /\
  StronglySorted (fun a b => created_leb a b = true)
    (Service.signals_of_user db user_id).
Proof.
  intros Hrows. unfold Service.signals_of_user. split; [|split].
  - intros x. split.
    + intros Hx. apply (Permutation_in _ (sort_by_perm _ _)) in Hx.
      apply filter_In in Hx. destruct Hx as [Hx Hu]. apply Z.eqb_eq in Hu.
      split; assumption.
    + intros [Hx Hu].
      apply (Permutation_in _ (Permutation_sym (sort_by_perm _ _))).
      apply filter_In. split; [exact Hx|]. apply Z.eqb_eq. exact Hu.
  - apply (Permutation_NoDup (Permutation_sym (sort_by_perm _ _))).
    apply List.NoDup_filter. exact Hrows.
  - apply (sort_by_sorted created_leb).
    + intros a b H. apply Z.leb_gt in H. apply Z.leb_le. lia.
    + intros a b c H1 H2. apply Z.leb_le in H1, H2. apply Z.leb_le. lia.
Qed.

Lemma nodup_map_filter {A B : Type} (f : A -> B) (p : A -> bool) (l : list A) :
  List.NoDup (List.map f l) -> List.NoDup (List.map f (List.filter p l)).
Proof.
  induction l as [|x t IH]; intros H; [constructor|].
  cbn [List.map] in H. apply List.NoDup_cons_iff in H. destruct H as [Hx Ht].
  cbn [List.filter]. destruct (p x); [|exact (IH Ht)].
  cbn [List.map]. constructor; [|exact (IH Ht)].
  intros Hin. apply Hx. apply in_map_iff in Hin. destruct Hin as [y [Hy Hin]].
  apply filter_In in Hin. rewrite <- Hy. apply in_map. apply Hin.
Qed.

(** X22. With unique row ids, purging the duplicates of a user a second
    time deletes nothing: it returns 0 and leaves the store as the first
    purge left it. *)
Theorem clear_duplicate_signals_idempotent (round2 : Q -> Q)
        (db : Service.Database) (user_id : Z) :
  List.NoDup (List.map ScanResult.id (Service.scan_results db)) ->
  let db' := snd (Service.clear_duplicate_signals round2 db user_id) in
  Service.clear_duplicate_signals round2 db' user_id = (0%Z, db').
Proof.
  intros Hids. cbv zeta. unfold Service.clear_duplicate_signals.
  set (earlier := Service.signals_of_user db user_id).
  assert (Hrows : List.NoDup (Service.scan_results db))
    by (exact (List.NoDup_map_inv _ _ Hids)).
  destruct (signals_of_user_spec db user_id Hrows) as [Hearlier [Hndearlier Hsortearlier]].
  destruct (purge_keeps_earliest round2 db user_id earlier Hids Hearlier Hndearlier Hsortearlier)
    as [[keep Hkeep] [_ [Hgroup _]]].
  set (db' := snd (Service.purge round2 earlier db)) in *.
  assert (Hids' : List.NoDup (List.map ScanResult.id (Service.scan_results db'))).
  { rewrite Hkeep. apply nodup_map_filter. exact Hids. }
  assert (Hrows' : List.NoDup (Service.scan_results db'))
    by (exact (List.NoDup_map_inv _ _ Hids')).
  destruct (signals_of_user_spec db' user_id Hrows') as [Hlater [Hndlater Hsortlater]].
  set (later := Service.signals_of_user db' user_id) in *.
  assert (Hnone : dropped round2 later [] = []).
  { destruct (dropped round2 later []) as [|x t] eqn:E; [reflexivity|]. exfalso.
    assert (Hxd : In x (dropped round2 later [])) by (rewrite E; left; reflexivity).
    assert (Hxl : In x later) by (exact (dropped_in round2 later [] x Hxd)).
    destruct (retained_earliest round2 later Hsortlater [] x Hxl eq_refl)
      as [y [Hy [Hyx _]]].
    assert (Hyl : In y later) by (exact (retained_in round2 later [] y Hy)).
    apply Hlater in Hxl, Hyl. destruct Hxl as [Hx Hxu], Hyl as [Hy' Hyu].
    assert (Hxdb : In x (Service.scan_results db)).
    { rewrite Hkeep in Hx. apply filter_In in Hx. apply Hx. }
    destruct (Hgroup x Hxdb Hxu) as [kept [_ [_ [_ [_ Huniq]]]]].
    assert (Hxk : x = kept)
      by (apply (Huniq x Hx Hxu); apply key_eqb_refl).
    assert (Hyk : y = kept) by (exact (Huniq y Hy' Hyu Hyx)).
    assert (Hsplit : List.NoDup (retained round2 later [] ++ dropped round2 later []))
      by (exact (Permutation_NoDup (split_perm round2 later []) Hndlater)).
    destruct (in_split _ _ Hy) as [l1 [l2 El]]. rewrite El in Hsplit.
    rewrite <- app_assoc in Hsplit. apply List.NoDup_remove_2 in Hsplit.
    apply Hsplit. apply in_or_app. right. apply in_or_app. right.
    rewrite Hyk, <- Hxk. exact Hxd. }
  unfold Service.purge at 1. rewrite mark_duplicates_dropped, Hnone.
  reflexivity.
Qed.

Lemma clear_duplicate_signals_idempotent_witness :
  fst (Service.clear_duplicate_signals Service.round2_half_even
         Examples.db_duplicates 7) = 1%Z /\
  fst (Service.clear_duplicate_signals Service.round2_half_even
         (snd (Service.clear_duplicate_signals Service.round2_half_even
                 Examples.db_duplicates 7)) 7) = 0%Z.
Proof.
  split; [vm_compute; reflexivity|].
  rewrite (clear_duplicate_signals_idempotent Service.round2_half_even
             Examples.db_duplicates 7); [reflexivity|].
  cbn. repeat constructor; cbn; intuition discriminate.
Defined.

(** ** Further properties of the scheduler *)

(** *** One run of the job *)

Lemma distinct_from_in (ids : list Z) :
  forall seen x,
    In x (Scheduler.distinct_from seen ids) <-> In x ids /\ ~ In x seen.
Proof.
  induction ids as [|i rest IH]; intros seen x; cbn [Scheduler.distinct_from].
  - split; [intros []|intros [[] _]].
  - destruct (existsb (Z.eqb i) seen) eqn:E.
    + rewrite IH. apply existsb_exists in E. destruct E as [j [Hj Hij]].
      apply Z.eqb_eq in Hij. subst j. split.
      * intros [Hx Hs]. split; [right; exact Hx|exact Hs].
      * intros [[<-|Hx] Hs]; [contradiction|split; assumption].
    + assert (Hi : ~ In i seen).
      { intros Hin. assert (existsb (Z.eqb i) seen = true); [|congruence].
        apply existsb_exists. exists i. split; [exact Hin|apply Z.eqb_refl]. }
      cbn [In]. rewrite IH. cbn [In]. split.
      * intros [<-|[Hx Hs]]; [split; [left; reflexivity|exact Hi]|].
        split; [right; exact Hx|]. intros Hin. apply Hs. right. exact Hin.
      * intros [[<-|Hx] Hs]; [left; reflexivity|].
        destruct (Z.eq_dec i x) as [->|Hne]; [left; reflexivity|right].
        split; [exact Hx|]. intros [Heq|Hin]; [contradiction|contradiction].
Qed.

Lemma distinct_from_nodup (ids : list Z) :
  forall seen, List.NoDup (Scheduler.distinct_from seen ids).
Proof.
  induction ids as [|i rest IH]; intros seen; cbn [Scheduler.distinct_from];
    [constructor|].
  destruct (existsb (Z.eqb i) seen); [apply IH|].
  constructor; [|apply IH]. intros Hin. apply distinct_from_in in Hin.
  destruct Hin as [_ Hin]. apply Hin. left. reflexivity.
Qed.

Lemma active_user_ids_spec (db : Service.Database) :
  List.NoDup (Scheduler.active_user_ids db) /\
  forall u, In u (Scheduler.active_user_ids db) <-> has_active_item db u.
Proof.
  unfold Scheduler.active_user_ids, Scheduler.distinct. split;
    [apply distinct_from_nodup|].
  intros u. rewrite distinct_from_in. unfold has_active_item. split.
  - intros [Hin _]. apply in_map_iff in Hin. destruct Hin as [w [Hu Hw]].
    apply filter_In in Hw. destruct Hw as [Hw Ha]. exists w. repeat split; assumption.
  - intros [w [Hw [Ha Hu]]]. split; [|intros []].
    apply in_map_iff. exists w. split; [exact Hu|].
    apply filter_In. split; assumption.
Qed.

Lemma active_item_watchlist (db : Service.Database) (user_id : Z) :
  has_active_item db user_id ->
  Service.active_watchlist db user_id None <> [].
Proof.
  intros [w [Hw [Ha Hu]]] Hnil.
  assert (Hin : In w (Service.active_watchlist db user_id None)).
  { unfold Service.active_watchlist. apply filter_In. split; [exact Hw|].
    rewrite Ha, Hu, Z.eqb_refl. reflexivity. }
  rewrite Hnil in Hin. destruct Hin.
Qed.

Lemma store_new_signals_lookup (user_id : Z) (rows : list ScanResult.row)
      (self : Scheduler.ScannerScheduler) (u : Z) :
  default [] (Scheduler.new_signals
                (Scheduler.store_new_signals user_id rows self) !! u)
  = default [] (Scheduler.new_signals self !! u) ++
    (if (u =? user_id)%Z then List.map Scheduler.entry_of rows else []).
Proof.
  unfold Scheduler.store_new_signals. destruct rows as [|r rows].
  - destruct (u =? user_id)%Z; cbn [List.map]; rewrite app_nil_r; reflexivity.
  - cbn [Scheduler.new_signals]. destruct (u =? user_id)%Z eqn:E.
    + apply Z.eqb_eq in E. subst u. rewrite lookup_insert_eq. reflexivity.
    + apply Z.eqb_neq in E. rewrite lookup_insert_ne by congruence.
      rewrite app_nil_r. reflexivity.
Qed.

Lemma store_new_signals_fields (user_id : Z) (rows : list ScanResult.row)
      (self : Scheduler.ScannerScheduler) :
  Scheduler.job (Scheduler.store_new_signals user_id rows self)
  = Scheduler.job self /\
  Scheduler.scheduler_running (Scheduler.store_new_signals user_id rows self)
  = Scheduler.scheduler_running self /\
  Scheduler.is_running (Scheduler.store_new_signals user_id rows self)
  = Scheduler.is_running self /\
  Scheduler.interval_minutes (Scheduler.store_new_signals user_id rows self)
  = Scheduler.interval_minutes self /\
  Scheduler.last_scan_time (Scheduler.store_new_signals user_id rows self)
  = Scheduler.last_scan_time self.
Proof.
  unfold Scheduler.store_new_signals. destruct rows; repeat split; reflexivity.
Qed.

(** The loop over the users. *)
Lemma scan_users_spec
      (get_klines_df : string -> string -> Z -> result DataFrame)
      (render : PatternType -> string -> string -> Q -> Q -> Z -> string)
      (now : Z) (users : list Z) :
  forall (db : Service.Database) (self : Scheduler.ScannerScheduler),
    (forall u, In u users -> has_active_item db u) ->
    let state := fold_left (Scheduler.scan_user get_klines_df render now) users
                   (db, self) in
    Service.watchlist_items (fst state) = Service.watchlist_items db /\
    (Scheduler.job (snd state) = Scheduler.job self /\
     Scheduler.scheduler_running (snd state) = Scheduler.scheduler_running self /\
     Scheduler.is_running (snd state) = Scheduler.is_running self /\
     Scheduler.interval_minutes (snd state) = Scheduler.interval_minutes self /\
     Scheduler.last_scan_time (snd state) = Scheduler.last_scan_time self) /\
    exists added execs,
      Service.scan_results (fst state) = Service.scan_results db ++ added /\
      Service.scan_executions (fst state) = Service.scan_executions db ++ execs /\
      List.map ScanExecution.user_id execs = users /\
      (forall e, In e execs ->
         ScanExecution.created_at e = now /\
         ScanExecution.sensitivity e = "medium"%string /\
         (1 <= ScanExecution.symbols_scanned e)%Z) /\
      (forall r, In r added ->
         ScanResult.created_at r = now /\ In (ScanResult.user_id r) users) /\
      forall u,
        default [] (Scheduler.new_signals (snd state) !! u)
        = default [] (Scheduler.new_signals self !! u) ++
          List.map Scheduler.entry_of (List.filter (row_of_user u) added).
Proof.
  induction users as [|u0 rest IH]; intros db self Hactive; cbv zeta.
  - cbn [fold_left fst snd]. split; [reflexivity|].
    split; [repeat split; reflexivity|].
    exists [], []. rewrite !app_nil_r.
    split; [reflexivity|]. split; [reflexivity|]. split; [reflexivity|].
    split; [intros e []|]. split; [intros r []|].
    intros u. cbn [List.filter List.map]. rewrite app_nil_r. reflexivity.
  - cbn [fold_left].
    set (run := Service.run_scan get_klines_df render now db u0 None None "medium").
    change (Scheduler.scan_user get_klines_df render now (db, self) u0)
      with (snd run, Scheduler.store_new_signals u0 (fst run) self).
    destruct (run_scan_spec get_klines_df render now db u0 None None "medium")
      as [_ [Hw [Hres [_ Hexec]]]].
    pose proof (run_scan_rows get_klines_df render now db u0 None None "medium")
      as Hrows.
    fold run in Hw, Hres, Hrows, Hexec.
    pose proof (active_item_watchlist db u0 (Hactive u0 (or_introl eq_refl)))
      as Hne.
    specialize (Hexec Hne).
    assert (Hactive' : forall u, In u rest -> has_active_item (snd run) u).
    { intros u Hu. destruct (Hactive u (or_intror Hu)) as [w [Hin H]].
      exists w. split; [rewrite Hw; exact Hin|exact H]. }
    destruct (IH (snd run) (Scheduler.store_new_signals u0 (fst run) self)
                Hactive')
      as [Hw' [Hfields [added [execs [Hres' [Hexec' [Husers [HallE [Hadded Hmail]]]]]]]]].
    split; [rewrite Hw'; exact Hw|]. split.
    { destruct (store_new_signals_fields u0 (fst run) self)
        as [H1 [H2 [H3 [H4 H5]]]].
      destruct Hfields as [G1 [G2 [G3 [G4 G5]]]].
      repeat split; congruence. }
    eexists (fst run ++ added), (_ :: execs).
    split; [rewrite Hres', Hres, <- app_assoc; reflexivity|].
    split; [rewrite Hexec', Hexec, <- app_assoc; reflexivity|].
    split; [cbn [List.map ScanExecution.user_id]; rewrite Husers; reflexivity|].
    split; [|split].
    + intros e1 [<-|He1]; [|exact (HallE e1 He1)].
      cbn [ScanExecution.created_at ScanExecution.sensitivity
             ScanExecution.symbols_scanned].
      split; [reflexivity|]. split; [reflexivity|].
      destruct (Service.active_watchlist db u0 None); [congruence|].
      unfold len. cbn [List.length]. lia.
    + intros r Hr. apply in_app_or in Hr. destruct Hr as [Hr|Hr].
      * destruct (Hrows r Hr) as [Hu Hc]. split; [exact Hc|].
        left. symmetry. exact Hu.
      * destruct (Hadded r Hr) as [Hc Hu]. split; [exact Hc|right; exact Hu].
    + intros u. rewrite Hmail, store_new_signals_lookup, <- app_assoc.
      f_equal. rewrite List.filter_app, List.map_app. f_equal.
      unfold row_of_user. destruct (u =? u0)%Z eqn:E.
      * apply Z.eqb_eq in E. subst u0. f_equal. symmetry. apply filter_all.
        intros r Hr. destruct (Hrows r Hr) as [-> _]. apply Z.eqb_refl.
      * rewrite filter_none; [reflexivity|].
        intros r Hr. destruct (Hrows r Hr) as [-> _]. apply Z.eqb_neq.
        apply Z.eqb_neq in E. congruence.
Qed.

(** X23. One run of the scheduler's job.  The status afterwards has the
    running flag and the interval it had and the time of the run as
    [last_scan]; the job and the underlying scheduler are as before.  In
    the store the watchlist is unchanged, results and executions are only
    appended, the appended executions are one for each user with an active
    watchlist item and for no other user, each at the time of the run,
    with the medium sensitivity and at least one symbol scanned, and every
    appended result is created at the time of the run for such a user.
    For every user, what [GET /scanner/auto/new-signals] would return after
    the run is what it would have returned before, followed by the user's
    appended results in order, and the count is the sum of the two
    lengths. *)
Theorem run_scan_for_all_users_effects
        (get_klines_df : string -> string -> Z -> result DataFrame)
        (render : PatternType -> string -> string -> Q -> Q -> Z -> string)
        (now : Z) (db : Service.Database) (self : Scheduler.ScannerScheduler) :
  let db' := fst (Scheduler._run_scan_for_all_users get_klines_df render now
                    db self) in
  let self' := snd (Scheduler._run_scan_for_all_users get_klines_df render now
                      db self) in
  Scheduler.get_status self'
  = {| Scheduler.st_is_running := Scheduler.is_running self;
       Scheduler.st_interval_minutes := Scheduler.interval_minutes self;
       Scheduler.st_last_scan := Some now |} /\
  Scheduler.job self' = Scheduler.job self /\
  Scheduler.scheduler_running self' = Scheduler.scheduler_running self /\
  Service.watchlist_items db' = Service.watchlist_items db /\
  exists added execs,
    Service.scan_results db' = Service.scan_results db ++ added /\
    Service.scan_executions db' = Service.scan_executions db ++ execs /\
    List.NoDup (List.map ScanExecution.user_id execs) /\
    (forall u, In u (List.map ScanExecution.user_id execs) <->
               has_active_item db u) /\
    (forall e, In e execs ->
       ScanExecution.created_at e = now /\
       ScanExecution.sensitivity e = "medium"%string /\
       (1 <= ScanExecution.symbols_scanned e)%Z) /\
    (forall r, In r added ->
       ScanResult.created_at r = now /\
       has_active_item db (ScanResult.user_id r)) /\
    forall u,
      fst (Scheduler.get_new_signals_endpoint u self')
      = (fst (Scheduler.get_new_signals u self) ++
         List.map Scheduler.entry_of (List.filter (row_of_user u) added),
         (len (fst (Scheduler.get_new_signals u self))
          + len (List.filter (row_of_user u) added))%Z).
Proof.
  cbv zeta. unfold Scheduler._run_scan_for_all_users. cbn [fst snd].
  destruct (active_user_ids_spec db) as [Hnd Hactive].
  destruct (scan_users_spec get_klines_df render now
              (Scheduler.active_user_ids db) db self
              (fun u Hu => proj1 (Hactive u) Hu))
    as [Hw [[Hjob [Hsr [Hrun [Hint _]]]]
              [added [execs [Hres [Hexec [Husers [HallE [Hadded Hmail]]]]]]]]].
  split; [unfold Scheduler.get_status; cbn; rewrite Hrun, Hint; reflexivity|].
  split; [exact Hjob|]. split; [exact Hsr|]. split; [exact Hw|].
  exists added, execs.
  split; [exact Hres|]. split; [exact Hexec|].
  split; [rewrite Husers; exact Hnd|].
  split; [intros u; rewrite Husers; apply Hactive|].
  split; [exact HallE|]. split.
  - intros r Hr. destruct (Hadded r Hr) as [Hc Hu].
    split; [exact Hc|apply Hactive; exact Hu].
  - intros u. unfold Scheduler.get_new_signals_endpoint, Scheduler.get_new_signals.
    cbn [fst snd Scheduler.new_signals]. rewrite Hmail.
    f_equal. rewrite len_app. f_equal. unfold len. rewrite List.length_map.
    reflexivity.
Qed.

(** X24. In every state that the scheduler reaches from its initial state
    through the endpoints and the runs of its job: the interval is between
    1 and 60 minutes; it is flagged running exactly when the job is
    registered, and then the job has the reported interval and the
    underlying scheduler is running; a recorded scan time implies that the
    underlying scheduler is running, since stopping only removes the job;
    and no user has an empty queue of new signals stored. *)
Theorem reachable_invariant (s : Scheduler.ScannerScheduler) :
  reachable s ->
  (1 <= Scheduler.interval_minutes s <= 60)%Z /\
  (Scheduler.is_running s = true ->
   Scheduler.job s = Some (Scheduler.interval_minutes s) /\
   Scheduler.scheduler_running s = true) /\
  (Scheduler.is_running s = false -> Scheduler.job s = None) /\
  (Scheduler.last_scan_time s <> None -> Scheduler.scheduler_running s = true) /\
  (forall u queue, Scheduler.new_signals s !! u = Some queue -> queue <> []).
Proof.
  induction 1 as [|s s' Hs IH Hstep].
  - cbn. split; [lia|]. split; [discriminate|]. split; [reflexivity|].
    split; [congruence|]. intros u queue H. rewrite lookup_empty in H.
    discriminate.
  - destruct IH as [Hint [Hrun [Hstop [Hlast Hqueue]]]].
    destruct Hstep as [minutes s|s|user_id s|gk render now db s Hsr].
    + destruct (Bool.bool_dec (Scheduler.is_running s) true) as [E|E].
      * replace (Scheduler.start_auto_scanner minutes s) with s
          by (unfold Scheduler.start_auto_scanner, Scheduler.start;
              rewrite E; reflexivity).
        exact (conj Hint (conj Hrun (conj Hstop (conj Hlast Hqueue)))).
      * apply not_true_is_false in E.
        unfold Scheduler.start_auto_scanner, Scheduler.start. rewrite E.
        cbn. split; [lia|]. split; [intros _; split; reflexivity|].
        split; [discriminate|]. split; [reflexivity|exact Hqueue].
    + destruct (Bool.bool_dec (Scheduler.is_running s) true) as [E|E].
      * unfold Scheduler.stop_auto_scanner, Scheduler.stop. rewrite E.
        cbn. split; [exact Hint|]. split; [discriminate|].
        split; [reflexivity|]. split; [|exact Hqueue].
        intros _. exact (proj2 (Hrun E)).
      * apply not_true_is_false in E.
        replace (Scheduler.stop_auto_scanner s) with s
          by (unfold Scheduler.stop_auto_scanner, Scheduler.stop;
              rewrite E; reflexivity).
        exact (conj Hint (conj Hrun (conj Hstop (conj Hlast Hqueue)))).
    + cbn. split; [exact Hint|]. split; [exact Hrun|]. split; [exact Hstop|].
      split; [exact Hlast|]. intros u queue H.
      destruct (Z.eq_dec u user_id) as [->|Hne].
      * rewrite lookup_delete_eq in H. discriminate.
      * rewrite lookup_delete_ne in H by congruence. exact (Hqueue u queue H).
    + unfold Scheduler._run_scan_for_all_users. cbn [snd].
      cbn [Scheduler.interval_minutes Scheduler.is_running Scheduler.job
             Scheduler.scheduler_running Scheduler.last_scan_time
             Scheduler.new_signals].
      assert (Hloop : forall users db0 s0,
                (forall u queue, Scheduler.new_signals s0 !! u = Some queue ->
                                 queue <> []) ->
                let st := fold_left (Scheduler.scan_user gk render now) users
                            (db0, s0) in
                Scheduler.job (snd st) = Scheduler.job s0 /\
                Scheduler.scheduler_running (snd st)
                = Scheduler.scheduler_running s0 /\
                Scheduler.is_running (snd st) = Scheduler.is_running s0 /\
                Scheduler.interval_minutes (snd st)
                = Scheduler.interval_minutes s0 /\
                forall u queue, Scheduler.new_signals (snd st) !! u = Some queue ->
                                queue <> []).
      { induction users as [|u0 rest IHu]; intros db0 s0 Hq; cbv zeta.
        - cbn. repeat split; try reflexivity. exact Hq.
        - cbn [fold_left].
          change (Scheduler.scan_user gk render now (db0, s0) u0)
            with (snd (Service.run_scan gk render now db0 u0 None None "medium"),
                  Scheduler.store_new_signals u0
                    (fst (Service.run_scan gk render now db0 u0 None None
                            "medium")) s0).
          set (rows := fst (Service.run_scan gk render now db0 u0 None None
                              "medium")).
          destruct (store_new_signals_fields u0 rows s0)
            as [H1 [H2 [H3 [H4 _]]]].
          destruct (IHu (snd (Service.run_scan gk render now db0 u0 None None
                                "medium"))
                      (Scheduler.store_new_signals u0 rows s0))
            as [G1 [G2 [G3 [G4 G5]]]].
          { intros u queue. unfold Scheduler.store_new_signals.
            destruct rows as [|r rows]; [apply Hq|].
            cbn [Scheduler.new_signals].
            destruct (Z.eq_dec u u0) as [->|Hne].
            - rewrite lookup_insert_eq. intros H. injection H as <-.
              destruct (default [] (Scheduler.new_signals s0 !! u0));
                discriminate.
            - rewrite lookup_insert_ne by congruence. apply Hq. }
          repeat split; try congruence. exact G5. }
      destruct (Hloop (Scheduler.active_user_ids db) db s Hqueue)
        as [G1 [G2 [G3 [G4 G5]]]].
      rewrite G1, G2, G3, G4.
      split; [exact Hint|]. split; [exact Hrun|].
      split; [exact Hstop|]. split; [intros _; exact Hsr|exact G5].
Qed.

Lemma reachable_invariant_witness :
  reachable (Scheduler.stop_auto_scanner
               (Scheduler.start_auto_scanner 90 Scheduler.init)) /\
  (1 <= Scheduler.interval_minutes
          (Scheduler.stop_auto_scanner
             (Scheduler.start_auto_scanner 90 Scheduler.init)) <= 60)%Z.
Proof.
  assert (Hreach : reachable (Scheduler.stop_auto_scanner
                                (Scheduler.start_auto_scanner 90 Scheduler.init))).
  { apply (reachable_step (Scheduler.start_auto_scanner 90 Scheduler.init));
      [|apply step_stop].
    apply (reachable_step Scheduler.init); [apply reachable_init|apply step_start]. }
  split; [exact Hreach|].
  exact (proj1 (reachable_invariant _ Hreach)).
Defined.

(** ** The endpoints of the stored results *)

(** X25. An accepted request to [GET /scanner/results] returns at most 100
    rows, exactly [min(limit, max(0, total - skip))] of them; a page that
    is not full is the last one; and a request with a negative [skip] or a
    [limit] outside 1..100 is refused. *)
Theorem get_scan_results_bounded (db : Service.Database)
        (current_user_id skip limit : Z) (pattern_type : option string) :
  (forall results total,
     Router.get_scan_results db current_user_id skip limit pattern_type
     = Some (results, total) ->
     (0 <= skip)%Z /\ (1 <= limit <= 100)%Z /\
     (len results <= 100)%Z /\
     len results = Z.min limit (Z.max 0 (total - skip)) /\
     ((len results < limit)%Z -> (total <= skip + len results)%Z) /\
     ((0 < total)%Z -> skip = 0%Z -> results <> [])) /\
  ((skip < 0 \/ limit < 1 \/ 100 < limit)%Z ->
   Router.get_scan_results db current_user_id skip limit pattern_type = None).
Proof.
  unfold Router.get_scan_results. split.
  - intros results total H.
    destruct (0 <=? skip)%Z eqn:Es; [|discriminate].
    destruct (1 <=? limit)%Z eqn:El; [|discriminate].
    destruct (limit <=? 100)%Z eqn:Eh; [|discriminate].
    cbn [andb] in H. injection H as Hr Ht.
    apply Z.leb_le in Es, El, Eh.
    assert (Hlen : len results = Z.min limit (Z.max 0 (total - skip))).
    { rewrite <- Hr, <- Ht. unfold Service.get_results.
      rewrite page_length by lia. unfold len, Service.newest_first.
      rewrite (Permutation_length (sort_by_perm _ _)). reflexivity. }
    split; [exact Es|]. split; [lia|]. split; [lia|]. split; [exact Hlen|].
    split; [lia|].
    intros Htot -> ->. unfold len in Hlen. cbn [List.length] in Hlen. lia.
  - intros Hbad.
    destruct (0 <=? skip)%Z eqn:Es; [|reflexivity].
    destruct (1 <=? limit)%Z eqn:El; [|reflexivity].
    destruct (limit <=? 100)%Z eqn:Eh; [|reflexivity].
    apply Z.leb_le in Es, El, Eh. lia.
Qed.

(** X26. An accepted request to [DELETE /scanner/results] has
    [0 <= days <= 30].  It never removes a row of another user; with
    [days >= 1] it keeps every row of the user created within the last 24
    hours, and with [days = 0] it removes every row of the user, however
    recent. *)
Theorem clear_old_results_endpoint (now : Z) (db db' : Service.Database)
        (current_user_id days : Z) :
  Router.clear_old_results now db current_user_id days = Some db' ->
  (0 <= days <= 30)%Z /\
  (forall r, In r (Service.scan_results db) ->
             ScanResult.user_id r <> current_user_id ->
             In r (Service.scan_results db')) /\
  ((1 <= days)%Z ->
   forall r, In r (Service.scan_results db) ->
             (now - Service.timedelta_hours 24 <= ScanResult.created_at r)%Z ->
             In r (Service.scan_results db')) /\
  (days = 0%Z ->
   forall r, In r (Service.scan_results db') ->
             ScanResult.user_id r <> current_user_id).
Proof.
  unfold Router.clear_old_results. intros H.
  destruct (0 <=? days)%Z eqn:E0; [|discriminate].
  destruct (days <=? 30)%Z eqn:E1; [|discriminate].
  cbn [andb] in H. injection H as <-. apply Z.leb_le in E0, E1.
  split; [lia|]. unfold Service.clear_old_results.
  destruct (days =? 0)%Z eqn:Ed; cbn [Service.scan_results].
  - apply Z.eqb_eq in Ed. split; [|split].
    + intros r Hr Hu. apply filter_In. split; [exact Hr|].
      apply negb_true_iff, Z.eqb_neq. exact Hu.
    + intros Hd. lia.
    + intros _ r Hr. apply filter_In in Hr. destruct Hr as [_ Hu].
      apply negb_true_iff, Z.eqb_neq in Hu. exact Hu.
  - apply Z.eqb_neq in Ed. split; [|split].
    + intros r Hr Hu. apply filter_In. split; [exact Hr|].
      apply negb_true_iff, andb_false_iff. left. apply Z.eqb_neq. exact Hu.
    + intros Hd r Hr Hc. apply filter_In. split; [exact Hr|].
      apply negb_true_iff, andb_false_iff. right. apply Z.ltb_ge.
      unfold Service.timedelta_days, Service.timedelta_hours in *. lia.
    + intros Hd. contradiction.
Qed.

Lemma clear_old_results_endpoint_witness :
  Router.clear_old_results Examples.now_25h Examples.db_duplicates 7 0
  = Some (Examples.db_of []) /\
  (0 <= 0 <= 30)%Z.
Proof.
  assert (Hrun : Router.clear_old_results Examples.now_25h
                   Examples.db_duplicates 7 0 = Some (Examples.db_of []))
    by (vm_compute; reflexivity).
  split; [exact Hrun|].
  exact (proj1 (clear_old_results_endpoint Examples.now_25h
                  Examples.db_duplicates (Examples.db_of []) 7 0 Hrun)).
Defined.

(** ** The presets *)

(** X27. [create_detector] returns one of its three presets, the medium
    one for every name other than "low" and "high" (names are compared as
    written).  Each preset looks at least one candle to each side, has a
    positive tolerance, asks for at least two touches, and needs no more
    than 90 candles, fewer than the 500 that a scan fetches; on fewer than
    60 candles [detect] reports no signal under any preset. *)
Theorem create_detector_presets (sensitivity : string) :
  (create_detector sensitivity = config_low \/
   create_detector sensitivity = config_medium \/
   create_detector sensitivity = config_high) /\
  (sensitivity <> "low"%string -> sensitivity <> "high"%string ->
   create_detector sensitivity = config_medium) /\
  create_detector "LOW" = config_medium /\
  (1 <= pivot_lookback (create_detector sensitivity))%Z /\
  (0 < level_tolerance_pct (create_detector sensitivity))%Q /\
  (2 <= min_touches (create_detector sensitivity))%Z /\
  (60 <= 2 * pivot_lookback (create_detector sensitivity)
         + max_retest_candles (create_detector sensitivity) <= 90)%Z /\
  (forall render df sym tf,
     (len df < 60)%Z ->
     detect (create_detector sensitivity) render df sym tf = Ok []).
Proof.
  pose proof (create_detector_cases sensitivity) as Hcases.
  split; [exact Hcases|]. split; [|split; [reflexivity|]].
  - intros Hlow Hhigh. unfold create_detector.
    apply String.eqb_neq in Hlow, Hhigh. rewrite Hlow, Hhigh.
    destruct (String.eqb sensitivity "medium"); reflexivity.
  - assert (Hsize : (60 <= 2 * pivot_lookback (create_detector sensitivity)
                           + max_retest_candles (create_detector sensitivity)
                     <= 90)%Z)
      by (destruct Hcases as [ -> | [ -> | -> ] ]; cbn; lia).
    split; [destruct Hcases as [ -> | [ -> | -> ] ]; cbn; lia|].
    split; [destruct Hcases as [ -> | [ -> | -> ] ]; reflexivity|].
    split; [destruct Hcases as [ -> | [ -> | -> ] ]; cbn; lia|].
    split; [exact Hsize|].
    intros render df sym tf Hlen. unfold detect.
    replace (len df <? _)%Z with true; [reflexivity|].
    symmetry. apply Z.ltb_lt. lia.
Qed.
